(** * The elastic training driver (horovod/run/elastic/driver.py)

  A shallow embedding of [Results] and [ElasticDriver].  Python objects are
  records, dictionaries are finite maps (or insertion-ordered association
  lists where the code iterates over them), exceptions are an explicit
  result type threaded together with the mutable driver state, and every
  call into an external collaborator (rendezvous service, worker state
  registry, notification client, supervisor threads) is appended to a call
  log kept in the state. *)

From stdpp Require Import gmap strings list fin_maps pretty.
From Stdlib Require Import ZArith Lia Ascii.

Local Open Scope Z_scope.

(** ** Exceptions *)

(** The exception classes that occur in the driver and its collaborators.
  [NotImplementedError] stands for the subclasses of [RuntimeError]. *)
Inductive exn_class :=
| RuntimeError
| NotImplementedError
| ValueError
| KeyError
| IndexError
| Exception.

Record exn := mk_exn { exn_cls : exn_class; exn_msg : string }.

#[global] Instance exn_class_eq_dec : EqDecision exn_class.
Proof. solve_decision. Defined.

#[global] Instance exn_eq_dec : EqDecision exn.
Proof. solve_decision. Defined.

(** [isinstance(e, RuntimeError)]: what [except RuntimeError] catches. *)
Definition isinstance_RuntimeError (e : exn) : bool :=
match exn_cls e with
| RuntimeError | NotImplementedError => true
| _ => false
end.

(** The outcome of a call: a returned value, a raised exception, or
  [Pending] when the call is still blocked at the end of the observed part
  of the run. *)
Inductive result (A : Type) :=
| Ok (a : A)
| Raise (e : exn)
| Pending.
Arguments Ok {A} a.
Arguments Raise {A} e.
Arguments Pending {A}.

(** ** horovod.run.common.util.hosts *)

Module hosts.

(** Modelled from the spec: [HostInfo], [{hostname: string, slots: uint}];
    the class lives in horovod/run/common/util/hosts.py. *)
Record HostInfo := mk_HostInfo { host_hostname : string; slots : Z }.

(** Modelled from the spec: [SlotInfo] with its seven fields, compared
    field by field; the class lives in horovod/run/common/util/hosts.py. *)
Record SlotInfo := mk_SlotInfo {
  hostname : string;
  rank : Z;
  local_rank : Z;
  cross_rank : Z;
  size : Z;
  local_size : Z;
  cross_size : Z
}.

#[global] Instance HostInfo_eq_dec : EqDecision HostInfo.
Proof. solve_decision. Defined.

#[global] Instance SlotInfo_eq_dec : EqDecision SlotInfo.
Proof. solve_decision. Defined.

End hosts.
Import hosts.

(** ** Python dictionaries that are iterated over

  A [dict] keeps its keys in insertion order; [odict] is that order as an
  association list with pairwise distinct keys.  [default_factory] is
  [Some v] for a [defaultdict] whose factory produces [v] (for
  [defaultdict(list)], the empty list) and [None] for a plain [dict]. *)

Module odict.
Section odict.
Context {V : Type} `{EqDecision V}.

Record t := mk {
  default_factory : option V;
  items : list (string * V)
}.

Fixpoint assoc (k : string) (l : list (string * V)) : option V :=
  match l with
  | [] => None
  | (k', v) :: l' => if decide (k = k') then Some v else assoc k l'
  end.

(** [d[k] = v] on the item list: an existing key keeps its position. *)
Fixpoint assoc_set (k : string) (v : V) (l : list (string * V))
  : list (string * V) :=
  match l with
  | [] => [(k, v)]
  | (k', v') :: l' =>
      if decide (k = k') then (k, v) :: l' else (k', v') :: assoc_set k v l'
  end.

(** [{}] and [defaultdict(f)] *)
Definition empty : t := mk None [].
Definition defaultdict (v0 : V) : t := mk (Some v0) [].

(** [d.get(k)] *)
Definition get (k : string) (d : t) : option V := assoc k (items d).

(** [k in d] *)
Definition contains (k : string) (d : t) : bool :=
  bool_decide (is_Some (get k d)).

(** [len(d)] *)
Definition len (d : t) : Z := Z.of_nat (length (items d)).

(** [d.keys()] *)
Definition keys (d : t) : list string := (items d).*1.

(** [d[k] = v] *)
Definition setitem (k : string) (v : V) (d : t) : t :=
  mk (default_factory d) (assoc_set k v (items d)).

(** [d[k]]: a plain dict raises [KeyError] on a missing key; a
    [defaultdict] stores the factory's value under the key and returns
    it. *)
Definition getitem (k : string) (d : t) : result V * t :=
  match get k d with
  | Some v => (Ok v, d)
  | None =>
      match default_factory d with
      | Some v0 => (Ok v0, setitem k v0 d)
      | None => (Raise (mk_exn KeyError k), d)
      end
  end.

(** [d1 == d2]: same number of keys, and every key of [d1] is a key of
    [d2] with an equal value.  Neither the order of the keys nor the
    factory takes part. *)
Definition eqb (d1 d2 : t) : bool :=
  bool_decide (length (items d1) = length (items d2))
  && forallb (fun kv => bool_decide (get kv.1 d2 = Some kv.2)) (items d1).

(** [not (d1.keys() & d2.keys())] *)
Definition keys_disjoint (d1 d2 : t) : bool :=
  negb (existsb (fun k => contains k d2) (keys d1)).

(** The representation invariant: keys are pairwise distinct. *)
Definition wf (d : t) : Prop := NoDup (keys d).

End odict.
Arguments t V : clear implicits.
End odict.

(** ** Results *)

Module Results.

(** [_results] maps ["host[local_rank]"] to [(exit_code, timestamp)];
    [_worker_threads] is the queue of supervisor threads, each identified
    by the slot it supervises. *)
Record t := mk {
  _results : gmap string (Z * Z);
  _worker_threads : list SlotInfo
}.

(** [Results.__init__] *)
Definition init : t := mk ∅ [].

(** [Results.expect] *)
Definition expect (worker_thread : SlotInfo) (r : t) : t :=
  mk (_results r) (_worker_threads r ++ [worker_thread]).

(** [Results.add_result] *)
Definition add_result (key : string) (value : Z * Z) (r : t) : t :=
  if bool_decide (is_Some (_results r !! key)) then r
  else mk (<[key := value]> (_results r)) (_worker_threads r).

(** [Results.get_results] on a queue of threads that are over, so that
    every join returns at once: the queue is emptied and the map returned
    as it is.  The threads run code of the driver, so what a thread that
    is still running does until its join returns is with the driver, in
    [ElasticDriver.get_results]. *)
Definition get_results (r : t) : gmap string (Z * Z) * t :=
  (_results r, mk (_results r) []).

End Results.

(** ** horovod.run.elastic.discovery *)

Module discovery.

(** Modelled from the spec: the snapshot of discovered hosts that
    [HostManager.current_hosts] returns (horovod/run/elastic/discovery.py).
    [host_slots] is the capacity each host advertised and
    [ordered_available_hosts] the eligible hosts in first-seen order. *)
Record DiscoveredHosts := mk_DiscoveredHosts {
  host_slots : gmap string Z;
  ordered_available_hosts : list string
}.

#[global] Instance DiscoveredHosts_eq_dec : EqDecision DiscoveredHosts.
Proof. solve_decision. Defined.

(** Modelled from the spec: the slot count of a host, 0 for an unknown one. *)
Definition get_slots (host : string) (h : DiscoveredHosts) : Z :=
  default 0 (host_slots h !! host).

(** Modelled from the spec: [sum_of_slots(available_hosts)]. *)
Definition count_available_slots (h : DiscoveredHosts) : Z :=
  foldr Z.add 0 ((fun host => get_slots host h) <$> ordered_available_hosts h).

(** Modelled from the spec: the set of hostnames currently eligible. *)
Definition available_hosts (h : DiscoveredHosts) : gset string :=
  list_to_set (ordered_available_hosts h).

(** Modelled from the spec: the [HostState] owned by [HostManager]:
    the current snapshot, the blacklist, and the hosts for which a
    cancellation signal exists. *)
Record HostManager := mk_HostManager {
  current_hosts : DiscoveredHosts;
  blacklist_set : gset string;
  host_events : gset string
}.

(** [HostManager(discovery)] before the first poll. *)
Definition init : HostManager :=
  mk_HostManager (mk_DiscoveredHosts ∅ []) ∅ ∅.

(** Modelled from the spec: [is_blacklisted(hostname)]. *)
Definition is_blacklisted (host : string) (hm : HostManager) : bool :=
  bool_decide (host ∈ blacklist_set hm).

(** Modelled from the spec: [get_host_event(hostname)] returns the host's
    cancellation signal, creating it if absent. *)
Definition get_host_event (host : string) (hm : HostManager) : HostManager :=
  mk_HostManager (current_hosts hm) (blacklist_set hm)
                 ({[host]} ∪ host_events hm).

(** Modelled from the spec: hosts appear in first-seen order; removed hosts
    are dropped but never reordered; new hosts are appended. *)
Definition order_available_hosts (available prev_order : list string)
  : list string :=
  filter (fun h => h ∈ available) prev_order
  ++ filter (fun h => h ∉ prev_order) available.

(** Modelled from the spec: [update_available_hosts()] invokes the discovery
    provider once ([found] is what that call produced).  When the provider
    raises, the error propagates and the previously known set is retained;
    otherwise the result is [true] iff the observation changed, and then
    the snapshot is replaced, leaving blacklisted hosts out. *)
Definition update_available_hosts
  (found : result (list (string * Z))) (hm : HostManager)
  : result bool * HostManager :=
  match found with
  | Raise e => (Raise e, hm)
  | Pending => (Pending, hm)
  | Ok found =>
      let slots : gmap string Z := list_to_map found in
      if bool_decide (slots = host_slots (current_hosts hm)) then (Ok false, hm)
      else
        let available :=
          filter (fun h => h ∉ blacklist_set hm) (remove_dups found.*1) in
        let order :=
          order_available_hosts available
            (ordered_available_hosts (current_hosts hm)) in
        (Ok true,
         mk_HostManager (mk_DiscoveredHosts slots order)
                        (blacklist_set hm) (host_events hm))
  end.

End discovery.

(** ** horovod.run.common.util.timeout *)

Module timeout.

(** Modelled from the spec: a deadline [start_timeout] after the moment of
    construction, with the message raised once it has elapsed
    (horovod/run/common/util/timeout.py).  Clock readings are integers in
    the unit of [start_timeout]. *)
Record Timeout := mk_Timeout { _timeout_at : Z; _message : string }.

Definition init (now timeout : Z) (message : string) : Timeout :=
  mk_Timeout (now + timeout) message.

Definition remaining (now : Z) (t : Timeout) : Z :=
  Z.max 0 (_timeout_at t - now).

Definition timed_out (now : Z) (t : Timeout) : bool :=
  bool_decide (_timeout_at t < now).

(** [check_time_out_for(activity)]; [_message] is the text before and after
    the activity. *)
Definition check_time_out_for (activity : string) (now : Z) (t : Timeout)
  : result () :=
  if timed_out now t
  then Raise (mk_exn Exception
                (String.append "Timed out waiting for "
                   (String.append activity (_message t))))
  else Ok ().

End timeout.

(** ** Python list indexing *)

(** [l[i]]: a negative index counts from the end; an index outside
  [-len(l) .. len(l)-1] raises [IndexError]. *)
Definition list_getitem {A} (l : list A) (i : Z) : result A :=
  let n := Z.of_nat (length l) in
  let j := if bool_decide (i < 0) then i + n else i in
  if bool_decide (0 <= j < n)
  then match l !! Z.to_nat j with
       | Some x => Ok x
       | None => Raise (mk_exn IndexError "list index out of range")
       end
  else Raise (mk_exn IndexError "list index out of range").

(** ** ElasticDriver *)

Module ElasticDriver.

Definition DISCOVER_HOSTS_FREQUENCY_SECS : Z := 1.
Definition START_TIMEOUT_SECS : Z := 600.

Inductive log_level := DEBUG | INFO | WARNING | ERROR.

Section driver.

(** The types of the objects the driver only passes around: the worker
    state registry, the launcher given to [start], and the addresses and
    secret key of a worker's notification server. *)
Context {Registry Launcher Addresses SecretKey : Type}.

(** [WorkerNotificationClient(addresses, secret_key, verbose)] *)
Record WorkerNotificationClient := mk_client {
  addresses : Addresses;
  secret_key : SecretKey;
  client_verbose : Z
}.

(** The calls the driver makes into its collaborators, in program order. *)
Inductive call :=
| Call_httpd_init (host_assignments_list : list SlotInfo)
| Call_registry_reset (size : Z)
| Call_record_ready (host : string) (slot : Z)
| Call_record_success (host : string) (slot : Z)
| Call_record_failure (host : string) (slot : Z)
| Call_thread_start (slot_info : SlotInfo)
| Call_notify_hosts_updated (client : WorkerNotificationClient) (timestamp : Z)
| Call_cond_notify_all.

(** The attributes of an [ElasticDriver], the log of its calls into
    collaborators, and the records it handed to [logging]. *)
Record t := mk {
  _min_np : Z;
  _max_np : Z;
  _verbose : Z;
  _host_manager : discovery.HostManager;
  _host_assignments : odict.t (list SlotInfo);
  _rank_assignments : gmap Z SlotInfo;
  _world_size : Z;
  _start_timeout : Z;
  _create_worker_fn : option Launcher;
  _worker_clients : gmap (string * Z) WorkerNotificationClient;
  _worker_registry : Registry;
  _results : Results.t;
  _shutdown : bool;
  _discovery_thread_alive : bool;
  calls : list call;
  log : list (log_level * string)
}.

Definition set_host_manager (v : discovery.HostManager) (s : t) : t :=
  {| _min_np := _min_np s;
     _max_np := _max_np s;
     _verbose := _verbose s;
     _host_manager := v;
     _host_assignments := _host_assignments s;
     _rank_assignments := _rank_assignments s;
     _world_size := _world_size s;
     _start_timeout := _start_timeout s;
     _create_worker_fn := _create_worker_fn s;
     _worker_clients := _worker_clients s;
     _worker_registry := _worker_registry s;
     _results := _results s;
     _shutdown := _shutdown s;
     _discovery_thread_alive := _discovery_thread_alive s;
     calls := calls s;
     log := log s |}.

Definition set_host_assignments (v : odict.t (list SlotInfo)) (s : t) : t :=
  {| _min_np := _min_np s;
     _max_np := _max_np s;
     _verbose := _verbose s;
     _host_manager := _host_manager s;
     _host_assignments := v;
     _rank_assignments := _rank_assignments s;
     _world_size := _world_size s;
     _start_timeout := _start_timeout s;
     _create_worker_fn := _create_worker_fn s;
     _worker_clients := _worker_clients s;
     _worker_registry := _worker_registry s;
     _results := _results s;
     _shutdown := _shutdown s;
     _discovery_thread_alive := _discovery_thread_alive s;
     calls := calls s;
     log := log s |}.

Definition set_rank_assignments (v : gmap Z SlotInfo) (s : t) : t :=
  {| _min_np := _min_np s;
     _max_np := _max_np s;
     _verbose := _verbose s;
     _host_manager := _host_manager s;
     _host_assignments := _host_assignments s;
     _rank_assignments := v;
     _world_size := _world_size s;
     _start_timeout := _start_timeout s;
     _create_worker_fn := _create_worker_fn s;
     _worker_clients := _worker_clients s;
     _worker_registry := _worker_registry s;
     _results := _results s;
     _shutdown := _shutdown s;
     _discovery_thread_alive := _discovery_thread_alive s;
     calls := calls s;
     log := log s |}.

Definition set_world_size (v : Z) (s : t) : t :=
  {| _min_np := _min_np s;
     _max_np := _max_np s;
     _verbose := _verbose s;
     _host_manager := _host_manager s;
     _host_assignments := _host_assignments s;
     _rank_assignments := _rank_assignments s;
     _world_size := v;
     _start_timeout := _start_timeout s;
     _create_worker_fn := _create_worker_fn s;
     _worker_clients := _worker_clients s;
     _worker_registry := _worker_registry s;
     _results := _results s;
     _shutdown := _shutdown s;
     _discovery_thread_alive := _discovery_thread_alive s;
     calls := calls s;
     log := log s |}.

Definition set_create_worker_fn (v : option Launcher) (s : t) : t :=
  {| _min_np := _min_np s;
     _max_np := _max_np s;
     _verbose := _verbose s;
     _host_manager := _host_manager s;
     _host_assignments := _host_assignments s;
     _rank_assignments := _rank_assignments s;
     _world_size := _world_size s;
     _start_timeout := _start_timeout s;
     _create_worker_fn := v;
     _worker_clients := _worker_clients s;
     _worker_registry := _worker_registry s;
     _results := _results s;
     _shutdown := _shutdown s;
     _discovery_thread_alive := _discovery_thread_alive s;
     calls := calls s;
     log := log s |}.

Definition set_worker_clients (v : gmap (string * Z) WorkerNotificationClient) (s : t) : t :=
  {| _min_np := _min_np s;
     _max_np := _max_np s;
     _verbose := _verbose s;
     _host_manager := _host_manager s;
     _host_assignments := _host_assignments s;
     _rank_assignments := _rank_assignments s;
     _world_size := _world_size s;
     _start_timeout := _start_timeout s;
     _create_worker_fn := _create_worker_fn s;
     _worker_clients := v;
     _worker_registry := _worker_registry s;
     _results := _results s;
     _shutdown := _shutdown s;
     _discovery_thread_alive := _discovery_thread_alive s;
     calls := calls s;
     log := log s |}.

Definition set_worker_registry (v : Registry) (s : t) : t :=
  {| _min_np := _min_np s;
     _max_np := _max_np s;
     _verbose := _verbose s;
     _host_manager := _host_manager s;
     _host_assignments := _host_assignments s;
     _rank_assignments := _rank_assignments s;
     _world_size := _world_size s;
     _start_timeout := _start_timeout s;
     _create_worker_fn := _create_worker_fn s;
     _worker_clients := _worker_clients s;
     _worker_registry := v;
     _results := _results s;
     _shutdown := _shutdown s;
     _discovery_thread_alive := _discovery_thread_alive s;
     calls := calls s;
     log := log s |}.

Definition set_results (v : Results.t) (s : t) : t :=
  {| _min_np := _min_np s;
     _max_np := _max_np s;
     _verbose := _verbose s;
     _host_manager := _host_manager s;
     _host_assignments := _host_assignments s;
     _rank_assignments := _rank_assignments s;
     _world_size := _world_size s;
     _start_timeout := _start_timeout s;
     _create_worker_fn := _create_worker_fn s;
     _worker_clients := _worker_clients s;
     _worker_registry := _worker_registry s;
     _results := v;
     _shutdown := _shutdown s;
     _discovery_thread_alive := _discovery_thread_alive s;
     calls := calls s;
     log := log s |}.

Definition set_shutdown (v : bool) (s : t) : t :=
  {| _min_np := _min_np s;
     _max_np := _max_np s;
     _verbose := _verbose s;
     _host_manager := _host_manager s;
     _host_assignments := _host_assignments s;
     _rank_assignments := _rank_assignments s;
     _world_size := _world_size s;
     _start_timeout := _start_timeout s;
     _create_worker_fn := _create_worker_fn s;
     _worker_clients := _worker_clients s;
     _worker_registry := _worker_registry s;
     _results := _results s;
     _shutdown := v;
     _discovery_thread_alive := _discovery_thread_alive s;
     calls := calls s;
     log := log s |}.

Definition set_discovery_thread_alive (v : bool) (s : t) : t :=
  {| _min_np := _min_np s;
     _max_np := _max_np s;
     _verbose := _verbose s;
     _host_manager := _host_manager s;
     _host_assignments := _host_assignments s;
     _rank_assignments := _rank_assignments s;
     _world_size := _world_size s;
     _start_timeout := _start_timeout s;
     _create_worker_fn := _create_worker_fn s;
     _worker_clients := _worker_clients s;
     _worker_registry := _worker_registry s;
     _results := _results s;
     _shutdown := _shutdown s;
     _discovery_thread_alive := v;
     calls := calls s;
     log := log s |}.

Definition set_calls (v : list call) (s : t) : t :=
  {| _min_np := _min_np s;
     _max_np := _max_np s;
     _verbose := _verbose s;
     _host_manager := _host_manager s;
     _host_assignments := _host_assignments s;
     _rank_assignments := _rank_assignments s;
     _world_size := _world_size s;
     _start_timeout := _start_timeout s;
     _create_worker_fn := _create_worker_fn s;
     _worker_clients := _worker_clients s;
     _worker_registry := _worker_registry s;
     _results := _results s;
     _shutdown := _shutdown s;
     _discovery_thread_alive := _discovery_thread_alive s;
     calls := v;
     log := log s |}.

Definition set_log (v : list (log_level * string)) (s : t) : t :=
  {| _min_np := _min_np s;
     _max_np := _max_np s;
     _verbose := _verbose s;
     _host_manager := _host_manager s;
     _host_assignments := _host_assignments s;
     _rank_assignments := _rank_assignments s;
     _world_size := _world_size s;
     _start_timeout := _start_timeout s;
     _create_worker_fn := _create_worker_fn s;
     _worker_clients := _worker_clients s;
     _worker_registry := _worker_registry s;
     _results := _results s;
     _shutdown := _shutdown s;
     _discovery_thread_alive := _discovery_thread_alive s;
     calls := calls s;
     log := v |}.

Definition log_call (c : call) (s : t) : t := set_calls (calls s ++ [c]) s.

Definition logging (lvl : log_level) (msg : string) (s : t) : t :=
  set_log (log s ++ [(lvl, msg)]) s.

(** The collaborators whose code is outside the driver.  The registry's
    [record_*] methods run the round's finalization callbacks, which
    re-enter the driver, so they act on the whole driver state. *)
Class Collaborators := {
  INVALID_SLOT_INFO : SlotInfo;
  get_host_assignments : list HostInfo -> Z -> Z -> result (list SlotInfo);
  WorkerStateRegistry : Registry;
  registry_reset : Z -> Registry -> Registry;
  registry_record_ready : string -> Z -> t -> result () * t;
  registry_record_success : string -> Z -> t -> result Z * t;
  registry_record_failure : string -> Z -> t -> result Z * t;
  registry_last_rendezvous : Registry -> Z;
  client_notify_hosts_updated : WorkerNotificationClient -> Z -> result ()
}.

Context `{!Collaborators}.

(** *** State and exceptions, threaded as the interpreter does *)

Definition M (A : Type) : Type := t -> result A * t.

#[global] Instance M_ret : MRet M := fun A a s => (Ok a, s).

#[global] Instance M_bind : MBind M := fun A B f m s =>
  match m s with
  | (Ok a, s') => f a s'
  | (Raise e, s') => (Raise e, s')
  | (Pending, s') => (Pending, s')
  end.

Definition raise {A} (e : exn) : M A := fun s => (Raise e, s).
Definition gets {A} (f : t -> A) : M A := fun s => (Ok (f s), s).
Definition modify (f : t -> t) : M () := fun s => (Ok (), f s).
Definition lift {A} (r : result A) : M A := fun s => (r, s).

(** [try: body except: handler], the handler receiving the exception. *)
Definition try_except {A} (body : M A) (handler : exn -> M A) : M A :=
  fun s =>
    match body s with
    | (Raise e, s') => handler e s'
    | r => r
    end.

(** *** Construction and the simple accessors *)

(** [ElasticDriver.__init__]; [env_start_timeout] is the value of
    [HOROVOD_ELASTIC_START_TIMEOUT] when the variable is set. *)
Definition __init__ (min_np max_np : Z) (start_timeout : option Z)
  (env_start_timeout : option Z) (verbose : Z) : t :=
  let from_env := default START_TIMEOUT_SECS env_start_timeout in
  {| _min_np := min_np;
     _max_np := max_np;
     _verbose := verbose;
     _host_manager := discovery.init;
     _host_assignments := odict.empty;
     _rank_assignments := ∅;
     _world_size := 0;
     _start_timeout :=
       match start_timeout with
       | Some n => if bool_decide (n = 0) then from_env else n
       | None => from_env
       end;
     _create_worker_fn := None;
     _worker_clients := ∅;
     _worker_registry := WorkerStateRegistry;
     _results := Results.init;
     _shutdown := false;
     _discovery_thread_alive := true;
     calls := [];
     log := [] |}.

Definition finished : M bool := gets _shutdown.

Definition register_worker_server (host : string) (slot : Z)
  (addrs : Addresses) (key : SecretKey) : M () :=
  modify (fun s =>
    set_worker_clients
      (<[(host, slot) := mk_client addrs key (_verbose s)]> (_worker_clients s))
      s).

Definition record_ready (host : string) (slot : Z) : M () :=
  modify (log_call (Call_record_ready host slot));;
  registry_record_ready host slot.

Definition world_size : M Z := gets _world_size.

(** [self._host_assignments[host]] *)
Definition host_assignments_getitem (host : string) : M (list SlotInfo) :=
  fun s =>
    let '(r, d) := odict.getitem host (_host_assignments s) in
    (r, set_host_assignments d s).

Definition local_size (host : string) : M Z :=
  slots ← host_assignments_getitem host;
  mret (Z.of_nat (length slots)).

(** [has_rank_assignment]; the subscript in its last line is guarded by
    [host in self._host_assignments], so it neither raises nor inserts. *)
Definition has_rank_assignment (host : string) (slot : Z) (s : t) : bool :=
  if discovery.is_blacklisted host (_host_manager s) then false
  else
    odict.contains host (_host_assignments s)
    && match odict.get host (_host_assignments s) with
       | Some slots => bool_decide (slot < Z.of_nat (length slots))
       | None => false
       end.

Definition get_slot_info (host : string) (slot : Z) : M SlotInfo :=
  assigned ← gets (has_rank_assignment host slot);
  if (assigned : bool)
  then slots ← host_assignments_getitem host; lift (list_getitem slots slot)
  else mret INVALID_SLOT_INFO.

Definition get_available_hosts : M (gset string) :=
  gets (fun s => discovery.available_hosts
                   (discovery.current_hosts (_host_manager s))).

(** *** Waiting for hosts *)

Definition _has_available_slots (slots min_np : Z) : bool := slots >=? min_np.

(** One return of [self._wait_hosts_cond.wait(...)]: what the other threads
    did to the driver while this one was blocked, and the clock reading at
    the check that follows. *)
Record wakeup := mk_wakeup { others : t -> t; clock : Z }.

(** The [while True] loop of [wait_for_available_hosts]. *)
Fixpoint wait_loop (tmout : timeout.Timeout) (min_np : Z)
  (wakeups : list wakeup) (s : t) : result discovery.DiscoveredHosts * t :=
  let current_hosts := discovery.current_hosts (_host_manager s) in
  if _has_available_slots (discovery.count_available_slots current_hosts) min_np
  then (Ok current_hosts, s)
  else
    match wakeups with
    | [] => (Pending, s)
    | w :: wakeups' =>
        let s' := others w s in
        match timeout.check_time_out_for
                "minimum number of hosts to become available" (clock w) tmout
        with
        | Ok _ => wait_loop tmout min_np wakeups' s'
        | Raise e => (Raise e, s')
        | Pending => (Pending, s')
        end
    end.

(** [wait_for_available_hosts], entered when the clock reads [now]. *)
Definition wait_for_available_hosts (min_np now : Z) (wakeups : list wakeup)
  : M discovery.DiscoveredHosts := fun s =>
  let tmout :=
    timeout.init now (_start_timeout s)
      (". Please check that you have enough resources to run at least "
       +:+ pretty min_np +:+ " Horovod processes.") in
  wait_loop tmout min_np wakeups s.

(** *** Host assignments *)

(** [host_assignments[slot_info.hostname].append(slot_info)] on a
    [defaultdict(list)]. *)
Definition append_slot (d : odict.t (list SlotInfo)) (slot_info : SlotInfo)
  : odict.t (list SlotInfo) :=
  match odict.getitem (hostname slot_info) d with
  | (Ok slots, d') => odict.setitem (hostname slot_info) (slots ++ [slot_info]) d'
  | (_, d') => d'
  end.

Definition group_by_host (host_assignments_list : list SlotInfo)
  : odict.t (list SlotInfo) :=
  foldl append_slot (odict.defaultdict []) host_assignments_list.

(** [[HostInfo(host, current_hosts.get_slots(host)) for host in
    current_hosts.ordered_available_hosts]] *)
Definition host_list_of (current_hosts : discovery.DiscoveredHosts)
  : list HostInfo :=
  (fun host => mk_HostInfo host (discovery.get_slots host current_hosts))
    <$> discovery.ordered_available_hosts current_hosts.

Definition _get_host_assignments (current_hosts : discovery.DiscoveredHosts)
  : M (odict.t (list SlotInfo) * list SlotInfo) :=
  let host_list := host_list_of current_hosts in
  min_np ← gets _min_np;
  max_np ← gets _max_np;
  host_assignments_list ← lift (get_host_assignments host_list min_np max_np);
  mret (group_by_host host_assignments_list, host_assignments_list).

(** The [(host, local_rank)] pairs of an assignment, in iteration order. *)
Definition slot_keys (d : odict.t (list SlotInfo)) : list (string * Z) :=
  hs ← odict.items d; (fun slot_info => (hs.1, local_rank slot_info)) <$> hs.2.

Definition build_rank_assignments (host_assignments_list : list SlotInfo)
  : gmap Z SlotInfo :=
  foldl (fun m slot_info => <[rank slot_info := slot_info]> m) ∅
        host_assignments_list.

Definition pending_slots_of (d : odict.t (list SlotInfo))
  (active_slots : gset (string * Z)) : list SlotInfo :=
  hs ← odict.items d;
  filter (fun slot_info => (hs.1, local_rank slot_info) ∉ active_slots) hs.2.

Definition state_broadcast_lost : exn :=
  mk_exn RuntimeError
    "No hosts from previous set remaining, unable to broadcast state.".

(** [_update_host_assignments]; the push to the rendezvous service,
    [self._rendezvous.httpd.init(...)], is recorded in [calls] and taken to
    return. *)
Definition _update_host_assignments
  (current_hosts : discovery.DiscoveredHosts) : M (list SlotInfo) :=
  active_slots ← gets (fun s =>
    (list_to_set (slot_keys (_host_assignments s)) : gset (string * Z)));
  '(host_assignments, host_assignments_list) ←
    _get_host_assignments current_hosts;
  prev ← gets _host_assignments;
  (if bool_decide (odict.len prev > 0)
   then if odict.keys_disjoint prev host_assignments
        then raise state_broadcast_lost
        else mret ()
   else mret ());;
  modify (set_host_assignments host_assignments);;
  modify (set_world_size (Z.of_nat (length host_assignments_list)));;
  modify (log_call (Call_httpd_init host_assignments_list));;
  modify (set_rank_assignments (build_rank_assignments host_assignments_list));;
  installed ← gets _host_assignments;
  mret (pending_slots_of installed active_slots).

(** *** Supervisor threads *)

(** [_start_worker_process]: the thread is started and queued in [Results];
    its body runs [create_worker_fn] and then [_handle_worker_exit].
    [get_host_event] and [thread.start()] are taken to return. *)
Definition _start_worker_process (slot_info : SlotInfo) : M () :=
  modify (fun s =>
    set_host_manager
      (discovery.get_host_event (hostname slot_info) (_host_manager s)) s);;
  modify (log_call (Call_thread_start slot_info));;
  modify (fun s => set_results (Results.expect slot_info (_results s)) s).

Definition slot_name (slot_info : SlotInfo) : string :=
  hostname slot_info +:+ "[" +:+ pretty (local_rank slot_info) +:+ "]".

Fixpoint _start_worker_processes (pending_slots : list SlotInfo) : M () :=
  match pending_slots with
  | [] => mret ()
  | slot_info :: rest =>
      modify (logging INFO ("start worker process: " +:+ slot_name slot_info));;
      _start_worker_process slot_info;;
      _start_worker_processes rest
  end.

(** [self._worker_registry.reset(size)] *)
Definition worker_registry_reset (size : Z) : M () :=
  modify (log_call (Call_registry_reset size));;
  modify (fun s =>
    set_worker_registry (registry_reset size (_worker_registry s)) s).

Definition _activate_hosts (min_np now : Z) (wakeups : list wakeup) : M () :=
  modify (logging INFO ("wait for available hosts: " +:+ pretty min_np));;
  current_hosts ← wait_for_available_hosts min_np now wakeups;
  pending_slots ← _update_host_assignments current_hosts;
  size ← world_size;
  worker_registry_reset size;;
  _start_worker_processes pending_slots.

Definition start (np : Z) (create_worker_fn : Launcher) (now : Z)
  (wakeups : list wakeup) : M () :=
  modify (set_create_worker_fn (Some create_worker_fn));;
  _activate_hosts np now wakeups.

Definition resume (now : Z) (wakeups : list wakeup) : M () :=
  min_np ← gets _min_np;
  _activate_hosts min_np now wakeups.

(** [_handle_worker_exit] *)
Definition _handle_worker_exit (slot_info : SlotInfo)
  (exit_code timestamp : Z) : M () :=
  assigned ← gets (has_rank_assignment (hostname slot_info)
                                        (local_rank slot_info));
  if negb assigned
  then
    modify (logging DEBUG
      ("host " +:+ hostname slot_info
       +:+ " has been blacklisted, ignoring exit from local_rank="
       +:+ pretty (local_rank slot_info)))
  else
    rendezvous_id ←
      (if bool_decide (exit_code = 0)
       then
         modify (log_call (Call_record_success (hostname slot_info)
                                               (local_rank slot_info)));;
         registry_record_success (hostname slot_info) (local_rank slot_info)
       else
         modify (log_call (Call_record_failure (hostname slot_info)
                                               (local_rank slot_info)));;
         registry_record_failure (hostname slot_info) (local_rank slot_info));
    done ← finished;
    last ← gets (fun s => registry_last_rendezvous (_worker_registry s));
    if done && bool_decide (last = rendezvous_id)
    then
      modify (logging DEBUG
        ("adding results for " +:+ slot_name slot_info +:+ ": ("
         +:+ pretty exit_code +:+ ", " +:+ pretty timestamp +:+ ")"));;
      modify (fun s =>
        set_results
          (Results.add_result (slot_name slot_info) (exit_code, timestamp)
                              (_results s)) s)
    else mret ().

(** *** Collecting the results *)

(** How a supervisor thread that is being joined comes to its end: it is
    over already or ends without a result of its worker ([Over]); or its
    worker exits with [(exit_code, timestamp)] and the thread runs
    [_handle_worker_exit] ([Exits]); or its worker never exits
    ([Never]). *)
Inductive supervisor_end :=
| Over
| Exits (exit_code timestamp : Z)
| Never.

(** The loop of [Results.get_results] as it runs in a driver: while the
    queue holds a thread, the thread is taken from its front and joined.
    An error in the thread ends the thread and the join returns; the join
    does not return while the worker, or the registry in
    [_handle_worker_exit], does not. *)
Fixpoint join_worker_threads (ends : list supervisor_end) : M () := fun s =>
  match Results._worker_threads (_results s) with
  | [] => (Ok (), s)
  | worker_thread :: queue =>
      let s0 :=
        set_results (Results.mk (Results._results (_results s)) queue) s in
      match ends with
      | [] => (Pending, s)
      | Over :: ends' => join_worker_threads ends' s0
      | Exits exit_code timestamp :: ends' =>
          match _handle_worker_exit worker_thread exit_code timestamp s0 with
          | (Pending, s1) => (Pending, s1)
          | (_, s1) => join_worker_threads ends' s1
          end
      | Never :: _ => (Pending, s0)
      end
  end.

(** [get_results]: [self._results.get_results()], the threads it joins
    coming to their ends as [ends] tells, in the order of the joins. *)
Definition get_results (ends : list supervisor_end)
  : M (gmap string (Z * Z)) := fun s =>
  match join_worker_threads ends s with
  | (Ok _, s1) =>
      let '(r, res) := Results.get_results (_results s1) in
      (Ok r, set_results res s1)
  | (Raise e, s1) => (Raise e, s1)
  | (Pending, s1) => (Pending, s1)
  end.

(** *** Host-change notification *)

(** [_notify_workers_host_changes]; [now] is what [_epoch_time_s()]
    returns. *)
Definition _notify_workers_host_changes
  (current_hosts : discovery.DiscoveredHosts) (now : Z) : M () :=
  '(next_host_assignments, _) ← _get_host_assignments current_hosts;
  current ← gets _host_assignments;
  if odict.eqb next_host_assignments current
  then modify (logging DEBUG "no host changes, skipping notifications")
  else
    coordinator_slot_info ← gets (fun s => _rank_assignments s !! 0);
    match coordinator_slot_info with
    | None => modify (logging DEBUG "no coordinator info, skipping notifications")
    | Some coordinator =>
        coordinator_client ← gets (fun s =>
          _worker_clients s !! (hostname coordinator, local_rank coordinator));
        match coordinator_client with
        | None =>
            modify (logging DEBUG "no coordinator client, skipping notifications")
        | Some client =>
            try_except
              (modify (log_call (Call_notify_hosts_updated client now));;
               lift (client_notify_hosts_updated client now))
              (fun _ =>
                 verbose ← gets _verbose;
                 if bool_decide (verbose >= 2)
                 then modify (logging ERROR
                        ("failed to notify " +:+ slot_name coordinator
                         +:+ " of host updates"))
                 else mret ())
        end
    end.

(** *** The discovery thread *)

(** One turn of the discovery loop: what the discovery provider produced,
    the clock reading, and what the other threads did to the driver while
    the discovery thread slept in [self._shutdown.wait(...)]. *)
Record tick := mk_tick {
  found : result (list (string * Z));
  tick_now : Z;
  tick_others : t -> t
}.

Inductive thread_state :=
| Running (first_update : bool)
| Finished
| Died (e : exn).

(** [self._host_manager.update_available_hosts()] *)
Definition host_manager_update (found : result (list (string * Z))) : M bool :=
  fun s =>
    let '(r, hm) := discovery.update_available_hosts found (_host_manager s) in
    (r, set_host_manager hm s).

(** The body of the [try] block. *)
Definition discover_once (tk : tick) : M () :=
  changed ← host_manager_update (found tk);
  if (changed : bool)
  then
    current_hosts ← gets (fun s => discovery.current_hosts (_host_manager s));
    _notify_workers_host_changes current_hosts (tick_now tk);;
    modify (log_call Call_cond_notify_all)
  else mret ().

(** The [while not self._shutdown.is_set()] loop, entered with the given
    value of [first_update]. *)
Fixpoint discover_loop (first_update : bool) (ticks : list tick) (s : t)
  : thread_state * t :=
  if _shutdown s then (Finished, set_discovery_thread_alive false s)
  else
    match ticks with
    | [] => (Running first_update, s)
    | tk :: ticks' =>
        match discover_once tk s with
        | (Ok _, s1) => discover_loop false ticks' (tick_others tk s1)
        | (Raise e, s1) =>
            if isinstance_RuntimeError e
            then
              if first_update
              then (Died e, set_discovery_thread_alive false s1)
              else discover_loop false ticks'
                     (tick_others tk (logging WARNING (exn_msg e) s1))
            else (Died e, set_discovery_thread_alive false s1)
        | (Pending, s1) => (Running first_update, s1)
        end
    end.

Definition _discover_hosts (ticks : list tick) (s : t) : thread_state * t :=
  discover_loop true ticks s.

(** *** Stopping *)

(** [stop]: [self._shutdown.set()], then [self._discovery_thread.join()].
    The join returns at once when the discovery thread has ended already.
    Otherwise it returns when the thread leaves its loop: at the next test
    of the signal when the thread sleeps between two turns ([in_flight] is
    [None]), and after the turn that is under way when the signal is set
    ([in_flight] holds that turn and the value of [first_update] in it).
    That turn does not read the signal; when it ends, normally or in an
    error, the thread is over, and when it never ends, neither does the
    join. *)
Definition stop (in_flight : option (bool * tick)) : M () := fun s =>
  let s0 := set_shutdown true s in
  if _discovery_thread_alive s0
  then
    match in_flight with
    | None => (Ok (), set_discovery_thread_alive false s0)
    | Some (first_update, tk) =>
        match discover_once tk s0 with
        | (Ok _, s1) => (Ok (), set_discovery_thread_alive false s1)
        | (Raise e, s1) =>
            (Ok (),
             set_discovery_thread_alive false
               (if isinstance_RuntimeError e && negb first_update
                then logging WARNING (exn_msg e) s1
                else s1))
        | (Pending, s1) => (Pending, s1)
        end
    end
  else (Ok (), s0).

(** *** Vocabulary of the specifications *)

(** [keeps obs m]: running [m] leaves the observation [obs] of the driver as
    it was, whatever the outcome. *)
Definition keeps {A B} (obs : t -> B) (m : M A) : Prop :=
  forall s, obs (m s).2 = obs s.

(** The registry's callbacks never set the shutdown signal themselves. *)
Definition registry_keeps_shutdown : Prop :=
  forall host slot,
    keeps _shutdown (registry_record_ready host slot)
    /\ keeps _shutdown (registry_record_success host slot)
    /\ keeps _shutdown (registry_record_failure host slot).

(** The other threads do not set the shutdown signal during these
    wake-ups or ticks. *)
Definition quiet_wakeups (wakeups : list wakeup) : Prop :=
  Forall (fun w => forall s, _shutdown (others w s) = _shutdown s) wakeups.

Definition quiet_ticks (ticks : list tick) : Prop :=
  Forall (fun tk => forall s, _shutdown (tick_others tk s) = _shutdown s) ticks.

(** One call of a method of the driver other than [stop], or a stretch of
    the discovery thread, taking the driver from one state to the next. *)
Inductive step_without_stop : t -> t -> Prop :=
| step_start np create_worker_fn now wakeups s :
    quiet_wakeups wakeups ->
    step_without_stop s (start np create_worker_fn now wakeups s).2
| step_resume now wakeups s :
    quiet_wakeups wakeups ->
    step_without_stop s (resume now wakeups s).2
| step_finished s : step_without_stop s (finished s).2
| step_get_results ends s : step_without_stop s (get_results ends s).2
| step_register_worker_server host slot addrs key s :
    step_without_stop s (register_worker_server host slot addrs key s).2
| step_record_ready host slot s :
    step_without_stop s (record_ready host slot s).2
| step_world_size s : step_without_stop s (world_size s).2
| step_local_size host s : step_without_stop s (local_size host s).2
| step_get_slot_info host slot s :
    step_without_stop s (get_slot_info host slot s).2
| step_get_available_hosts s : step_without_stop s (get_available_hosts s).2
| step_handle_worker_exit slot_info exit_code timestamp s :
    step_without_stop s (_handle_worker_exit slot_info exit_code timestamp s).2
| step_discover first_update ticks s :
    quiet_ticks ticks ->
    step_without_stop s (discover_loop first_update ticks s).2.

(** One step of the driver, [stop] included. *)
Inductive step : t -> t -> Prop :=
| step_call s s' : step_without_stop s s' -> step s s'
| step_stop in_flight s : step s (stop in_flight s).2.


(** The state [_update_host_assignments] leaves when it returns, having
    been given [host_assignments_list] by the assigner. *)
Definition installed (host_assignments_list : list SlotInfo) (s : t) : t :=
  set_rank_assignments (build_rank_assignments host_assignments_list)
    (log_call (Call_httpd_init host_assignments_list)
       (set_world_size (Z.of_nat (length host_assignments_list))
          (set_host_assignments (group_by_host host_assignments_list) s))).


(** The slots of an assignment list that sit on [host], in list order. *)
Definition slots_on (host : string) (host_assignments_list : list SlotInfo)
  : list SlotInfo :=
  filter (fun slot_info => hostname slot_info = host) host_assignments_list.


(** What the external assigner promises about the list it returns: the
    ranks are pairwise distinct and lie in [0, n), and on every host the
    local ranks count up from 0 in list order. *)
Definition ranks_cover (host_assignments_list : list SlotInfo) : Prop :=
  NoDup (rank <$> host_assignments_list)
  /\ Forall (fun slot_info =>
               0 <= rank slot_info
               < Z.of_nat (length host_assignments_list))
            host_assignments_list.

Definition packing_consistent (host_assignments_list : list SlotInfo) : Prop :=
  Forall (fun slot_info =>
            let on_host := slots_on (hostname slot_info) host_assignments_list in
            local_rank <$> on_host = Z.of_nat <$> seq 0 (length on_host))
         host_assignments_list.

(** The sum of the lengths of the lists held by a dictionary. *)
Definition total_slots (d : odict.t (list SlotInfo)) : nat :=
  sum_list (length <$> (odict.items d).*2).


(** The driver after the other threads acted during the given wake-ups. *)
Definition apply_wakeups (wakeups : list wakeup) (s : t) : t :=
  foldl (fun s w => others w s) s wakeups.

(** The number of available slots the driver sees in its current snapshot. *)
Definition available_slots (s : t) : Z :=
  discovery.count_available_slots (discovery.current_hosts (_host_manager s)).

(** The error [wait_for_available_hosts(min_np)] raises on a timeout. *)
Definition start_timeout_error (min_np : Z) : exn :=
  mk_exn Exception
    ("Timed out waiting for minimum number of hosts to become available"
     +:+ ". Please check that you have enough resources to run at least "
     +:+ pretty min_np +:+ " Horovod processes.").


(** The distinct names of a list, in the order in which they first appear. *)
Definition first_seen (names : list string) : list string :=
  foldl (fun seen name =>
           if bool_decide (name ∈ seen) then seen else seen ++ [name])
        [] names.


(** Whether the character [c] occurs in [s]. *)
Fixpoint has_char (c : Ascii.ascii) (s : string) : bool :=
  match s with
  | EmptyString => false
  | String c' s' => bool_decide (c' = c) || has_char c s'
  end.

End driver.

Arguments WorkerNotificationClient : clear implicits.
Arguments call : clear implicits.
Arguments t : clear implicits.
Arguments wakeup : clear implicits.
Arguments tick : clear implicits.
Arguments Collaborators : clear implicits.
Arguments M : clear implicits.
Arguments step_without_stop : clear implicits.
Arguments step : clear implicits.

End ElasticDriver.

(** ** A concrete deployment

    Collaborators with which the driver can be run on concrete inputs. *)

Module Scenario.

(** Modelled from the spec: the packing order of the slot assigner, which
    iterates hosts in input order and emits [local_rank] 0..slots-1 per
    host, global [rank] in emission order, at most [max_np] slots. *)
Fixpoint pack (host_list : list HostInfo) (next_rank max_np : Z)
  : list (string * Z * Z) :=
  match host_list with
  | [] => []
  | h :: rest =>
      let k := Z.to_nat (Z.min (slots h) (max_np - next_rank)) in
      ((fun i => (host_hostname h, next_rank + Z.of_nat i, Z.of_nat i))
         <$> seq 0 k)
      ++ pack rest (next_rank + Z.of_nat k) max_np
  end.

(** Modelled from the spec: [assign(hosts, min_np, max_np)], raising when
    fewer than [min_np] slots can be emitted; [cross_rank] is [local_rank],
    [local_size] the number of slots emitted for the host and [cross_size]
    the largest [local_size]. *)
Definition assign (host_list : list HostInfo) (min_np max_np : Z)
  : result (list SlotInfo) :=
  let packed := pack host_list 0 max_np in
  let world := Z.of_nat (length packed) in
  let on host := Z.of_nat (length (filter (fun p => p.1.1 = host) packed)) in
  let widest := foldr Z.max 0 ((fun p => on p.1.1) <$> packed) in
  if bool_decide (world < min_np)
  then Raise (mk_exn ValueError "Requested more processes than there are available slots")
  else Ok ((fun p => mk_SlotInfo p.1.1 p.1.2 p.2 p.2 world (on p.1.1) widest)
             <$> packed).

(** A registry that only counts rounds: [reset] opens the next round, a
    report is accounted against the current round, and the current round is
    the committed one. *)
#[global] Instance collaborators : ElasticDriver.Collaborators Z () string string := {|
  ElasticDriver.INVALID_SLOT_INFO :=
    mk_SlotInfo EmptyString (-1) (-1) (-1) (-1) (-1) (-1);
  ElasticDriver.get_host_assignments := assign;
  ElasticDriver.WorkerStateRegistry := 0;
  ElasticDriver.registry_reset := fun _ round => round + 1;
  ElasticDriver.registry_record_ready := fun _ _ s => (Ok (), s);
  ElasticDriver.registry_record_success := fun _ _ s =>
    (Ok (ElasticDriver._worker_registry s), s);
  ElasticDriver.registry_record_failure := fun _ _ s =>
    (Ok (ElasticDriver._worker_registry s), s);
  ElasticDriver.registry_last_rendezvous := fun round => round;
  ElasticDriver.client_notify_hosts_updated := fun _ _ =>
    Raise (mk_exn Exception "connection refused")
|}.

Definition driver : Type := ElasticDriver.t Z () string string.

(** A fresh driver with [min_np = 2], [max_np = 4] and [start_timeout = 5]. *)
Definition fresh : driver := ElasticDriver.__init__ 2 4 (Some 5) None 0.

(** Two turns of the discovery loop: the provider first reports the two
    hosts, then fails. *)
Definition first_tick : ElasticDriver.tick Z () string string :=
  ElasticDriver.mk_tick (Ok [("h1"%string, 2); ("h2"%string, 2)]) 0 id.

Definition failing_tick (e : exn) : ElasticDriver.tick Z () string string :=
  ElasticDriver.mk_tick (Raise e) 1 id.

(** A turn in which the provider reports a single host with one slot,
    fewer than [min_np]. *)
Definition one_slot_tick : ElasticDriver.tick Z () string string :=
  ElasticDriver.mk_tick (Ok [("h1"%string, 1)]) 0 id.

(** The discovery thread observed [{h1: 2, h2: 2}] at its first poll. *)
Definition two_hosts : driver :=
  (ElasticDriver._discover_hosts [first_tick] fresh).2.

(** The four slots the assigner packs on those two hosts. *)
Definition four_slots : list SlotInfo :=
  [mk_SlotInfo "h1" 0 0 0 4 2 2; mk_SlotInfo "h1" 1 1 1 4 2 2;
   mk_SlotInfo "h2" 2 0 0 4 2 2; mk_SlotInfo "h2" 3 1 1 4 2 2].

(** The driver after [start(np=4)] on those two hosts. *)
Definition started : driver :=
  (ElasticDriver.start 4 () 0 [] two_hosts).2.

(** A later snapshot in which only a new host [h3] is left, and the slots
    the assigner packs on it. *)
Definition only_h3 : discovery.DiscoveredHosts :=
  discovery.mk_DiscoveredHosts {[ "h3"%string := 4 ]} ["h3"%string].

Definition h3_slots : list SlotInfo :=
  [mk_SlotInfo "h3" 0 0 0 4 4 4; mk_SlotInfo "h3" 1 1 1 4 4 4;
   mk_SlotInfo "h3" 2 2 2 4 4 4; mk_SlotInfo "h3" 3 3 3 4 4 4].

(** A later turn of the discovery loop in which [h2] has gone and a new
    host [h3] has come, the driver after it, and the slots the assigner
    then packs. *)
Definition second_tick : ElasticDriver.tick Z () string string :=
  ElasticDriver.mk_tick (Ok [("h1"%string, 2); ("h3"%string, 2)]) 1 id.

Definition h2_replaced : driver :=
  (ElasticDriver.discover_loop false [second_tick] started).2.

Definition h1_h3_slots : list SlotInfo :=
  [mk_SlotInfo "h1" 0 0 0 4 2 2; mk_SlotInfo "h1" 1 1 1 4 2 2;
   mk_SlotInfo "h3" 2 0 0 4 2 2; mk_SlotInfo "h3" 3 1 1 4 2 2].

(** A turn in which only [h3] is left, and the driver after it. *)
Definition third_tick : ElasticDriver.tick Z () string string :=
  ElasticDriver.mk_tick (Ok [("h3"%string, 4)]) 2 id.

Definition all_replaced : driver :=
  (ElasticDriver.discover_loop false [third_tick] started).2.

(** The errors a discovery script can end in: its output does not parse,
    or it exits with a failure. *)
Definition parse_error : exn :=
  mk_exn ValueError "invalid literal for int() with base 10".

Definition script_error : exn :=
  mk_exn RuntimeError "Failed to execute discovery script".

End Scenario.

(** * Properties *)

(** ** Results *)

Lemma add_result_present (key : string) (value : Z * Z) (r : Results.t) :
  is_Some (Results._results r !! key) -> Results.add_result key value r = r.
Proof.
  intros Hin. unfold Results.add_result. by rewrite bool_decide_eq_true_2.
Qed.

Lemma add_result_absent (key : string) (value : Z * Z) (r : Results.t) :
  Results._results r !! key = None ->
  Results.add_result key value r
  = Results.mk (<[key := value]> (Results._results r))
               (Results._worker_threads r).
Proof.
  intros Hnone. unfold Results.add_result.
  rewrite bool_decide_eq_false_2; [done |].
  rewrite Hnone. by intros [? ?].
Qed.

Lemma add_result_lookup_key (key : string) (value : Z * Z) (r : Results.t) :
  is_Some (Results._results (Results.add_result key value r) !! key).
Proof.
  destruct (Results._results r !! key) as [v0 |] eqn:Hk.
  - rewrite add_result_present; rewrite Hk; eauto.
  - rewrite add_result_absent by done. simpl. rewrite lookup_insert_eq. eauto.
Qed.

(** C8: [Results.add_result] is first-writer-wins.  On a key that is present
    it changes nothing at all; on an absent key it stores the value and
    leaves every other entry (and the thread queue) as it was; hence a
    second write to a key never shows. *)
Theorem add_result_first_writer_wins
  (key : string) (v1 v2 : Z * Z) (r : Results.t) :
  (is_Some (Results._results r !! key) -> Results.add_result key v1 r = r)
  /\ (Results._results r !! key = None ->
      Results._results (Results.add_result key v1 r) !! key = Some v1
      /\ (forall k, k <> key ->
            Results._results (Results.add_result key v1 r) !! k
            = Results._results r !! k)
      /\ Results._worker_threads (Results.add_result key v1 r)
         = Results._worker_threads r)
  /\ Results.add_result key v2 (Results.add_result key v1 r)
     = Results.add_result key v1 r.
Proof.
  split; [apply add_result_present |]. split.
  - intros Hnone. rewrite add_result_absent by done. simpl.
    split; [apply lookup_insert_eq |]. split; [| done].
    intros k Hk. by apply lookup_insert_ne.
  - apply add_result_present, add_result_lookup_key.
Qed.

Lemma add_result_lookup (key k : string) (v : Z * Z) (r : Results.t) :
  Results._results (Results.add_result k v r) !! key
  = match Results._results r !! key with
    | Some v0 => Some v0
    | None => if decide (key = k) then Some v else None
    end.
Proof.
  destruct (Results._results r !! k) as [vk |] eqn:Hk.
  - rewrite add_result_present by (rewrite Hk; eauto).
    destruct (Results._results r !! key) as [v0 |] eqn:Hkey; [done |].
    case_decide; [congruence | done].
  - rewrite add_result_absent by done. simpl.
    destruct (decide (key = k)) as [-> | Hne].
    + by rewrite lookup_insert_eq, Hk.
    + rewrite lookup_insert_ne by done.
      by destruct (Results._results r !! key).
Qed.

(** X1: whatever sequence of [add_result] calls is made on a [Results], and
    whatever it held before, [get_results] returns under each key the value
    that was there first: the one already stored, else the one of the first
    call for that key; a key never written is absent.  The calls leave the
    queue of threads alone, and [get_results] hands back the map as it is
    and empties the queue. *)
Theorem get_results_returns_first_write
  (writes : list (string * (Z * Z))) (r : Results.t) (key : string) :
  let written :=
    foldl (fun r kv => Results.add_result kv.1 kv.2 r) r writes in
  (Results.get_results written).1 !! key
  = match Results._results r !! key with
    | Some v => Some v
    | None => odict.assoc key writes
    end
  /\ Results._worker_threads written = Results._worker_threads r
  /\ Results._results (Results.get_results written).2
     = (Results.get_results written).1
  /\ Results._worker_threads (Results.get_results written).2 = [].
Proof.
  cbv zeta. split; [| split; [| done]].
  - simpl. revert r. induction writes as [| [k v] writes IH]; intros r; simpl.
    + by destruct (Results._results r !! key).
    + rewrite IH, add_result_lookup.
      destruct (Results._results r !! key); [done |].
      by destruct (decide (key = k)).
  - revert r. induction writes as [| [k v] writes IH]; intros r; simpl; [done |].
    rewrite IH. unfold Results.add_result. by destruct (bool_decide _).
Qed.

(** ** Dictionaries *)

Section odict_facts.
Context {V : Type} `{EqDecision V}.
Implicit Types (k : string) (v : V) (l : list (string * V)) (d : odict.t V).

Lemma assoc_None k l : odict.assoc k l = None <-> k ∉ l.*1.
Proof.
  induction l as [| [k' v'] l IH]; simpl.
  - split; [intros _; apply not_elem_of_nil | done].
  - destruct (decide (k = k')) as [-> | Hne].
    + split; [done | intros Hn; exfalso; apply Hn; left].
    + rewrite IH, not_elem_of_cons. split; [by intros ? | by intros [_ ?]].
Qed.

Lemma assoc_is_Some k l : is_Some (odict.assoc k l) <-> k ∈ l.*1.
Proof.
  rewrite <- not_eq_None_Some, assoc_None.
  split; [apply dec_stable | by intros ? ?].
Qed.

Lemma assoc_set_eq k v l : odict.assoc k (odict.assoc_set k v l) = Some v.
Proof.
  induction l as [| [k' v'] l IH]; simpl.
  - by rewrite decide_True.
  - destruct (decide (k = k')) as [-> | Hne]; simpl.
    + by rewrite decide_True.
    + by rewrite decide_False.
Qed.

Lemma assoc_set_ne k k' v l :
  k <> k' -> odict.assoc k' (odict.assoc_set k v l) = odict.assoc k' l.
Proof.
  intros Hne. induction l as [| [k0 v0] l IH]; simpl.
  - by rewrite decide_False.
  - destruct (decide (k = k0)) as [-> | Hne0]; simpl.
    + by rewrite !decide_False.
    + by rewrite IH.
Qed.

Lemma assoc_set_keys k v l :
  (odict.assoc_set k v l).*1
  = match odict.assoc k l with Some _ => l.*1 | None => l.*1 ++ [k] end.
Proof.
  induction l as [| [k' v'] l IH]; [done |].
  cbn [odict.assoc odict.assoc_set].
  destruct (decide (k = k')) as [-> | Hne]; [done |].
  rewrite !fmap_cons, IH. by destruct (odict.assoc k l).
Qed.

Lemma setitem_wf k v d : odict.wf d -> odict.wf (odict.setitem k v d).
Proof.
  unfold odict.wf, odict.keys, odict.setitem. simpl. intros Hd.
  rewrite assoc_set_keys.
  destruct (odict.assoc k (odict.items d)) eqn:Hk; [done |].
  apply NoDup_app. split; [done |]. split; [| apply NoDup_singleton].
  intros x Hx ->%list_elem_of_singleton. by apply assoc_None in Hk.
Qed.

Lemma get_setitem k k' v d :
  odict.get k' (odict.setitem k v d)
  = if decide (k = k') then Some v else odict.get k' d.
Proof.
  unfold odict.get, odict.setitem. simpl. destruct (decide (k = k')) as [<- |].
  - apply assoc_set_eq.
  - by apply assoc_set_ne.
Qed.

Lemma elem_of_keys k d : k ∈ odict.keys d <-> is_Some (odict.get k d).
Proof. symmetry. apply assoc_is_Some. Qed.

Lemma contains_true k d : odict.contains k d = true <-> k ∈ odict.keys d.
Proof. unfold odict.contains. by rewrite bool_decide_eq_true, elem_of_keys. Qed.

Lemma keys_disjoint_true d1 d2 :
  odict.keys_disjoint d1 d2 = true
  <-> forall k, k ∈ odict.keys d1 -> k ∉ odict.keys d2.
Proof.
  unfold odict.keys_disjoint. rewrite negb_true_iff.
  rewrite <- not_true_iff_false, existsb_exists.
  split.
  - intros Hno k Hk1 Hk2. apply Hno. exists k.
    by rewrite <- list_elem_of_In, contains_true.
  - intros Hdis (k & Hk1 & Hk2). apply (Hdis k).
    + by apply list_elem_of_In.
    + by apply contains_true.
Qed.

Lemma elem_of_items_get k v d :
  odict.wf d -> (k, v) ∈ odict.items d <-> odict.get k d = Some v.
Proof.
  unfold odict.wf, odict.keys, odict.get.
  induction (odict.items d) as [| [k' v'] l IH]; intros Hnd.
  - split; [by intros ?%elem_of_nil | done].
  - rewrite fmap_cons in Hnd. cbn [fst odict.assoc] in *.
    apply NoDup_cons in Hnd as [Hk' Hnd]. rewrite elem_of_cons, (IH Hnd).
    destruct (decide (k = k')) as [-> | Hne].
    + split; [| by intros [= ->]; left].
      intros [[= ->] | Hin]; [done |]. exfalso. apply Hk'.
      apply assoc_is_Some. by rewrite Hin.
    + split; [by intros [[= -> _] | ?] | by right].
Qed.

(** [d1 == d2] holds exactly when the two dictionaries have the same
    entries, in whatever order. *)
Lemma eqb_true_iff d1 d2 :
  odict.wf d1 -> odict.wf d2 ->
  odict.eqb d1 d2 = true <-> forall k, odict.get k d1 = odict.get k d2.
Proof.
  intros Hwf1 Hwf2. unfold odict.eqb.
  rewrite andb_true_iff, bool_decide_eq_true, forallb_forall. split.
  - intros [Hlen Hall] k.
    assert (Hsub : forall k v, odict.get k d1 = Some v -> odict.get k d2 = Some v).
    { intros k0 v0 Hk0. apply elem_of_items_get in Hk0; [| done].
      apply list_elem_of_In, Hall in Hk0. by apply bool_decide_eq_true in Hk0. }
    destruct (odict.get k d1) as [v |] eqn:Hk1; [symmetry; by apply Hsub |].
    destruct (odict.get k d2) as [v |] eqn:Hk2; [| done]. exfalso.
    assert (Hperm : odict.keys d1 ≡ₚ odict.keys d2).
    { apply submseteq_length_Permutation.
      - apply NoDup_submseteq; [done |]. intros k0 [v0 Hk0]%elem_of_keys.
        apply elem_of_keys. rewrite (Hsub k0 v0 Hk0). eauto.
      - unfold odict.keys. rewrite !length_fmap. lia. }
    assert (Hin : k ∈ odict.keys d1).
    { rewrite Hperm. apply elem_of_keys. rewrite Hk2. eauto. }
    apply elem_of_keys in Hin as [? Hin]. congruence.
  - intros Hext. split.
    + assert (Hperm : odict.keys d1 ≡ₚ odict.keys d2).
      { apply NoDup_Permutation; [done | done |]. intros k.
        by rewrite !elem_of_keys, Hext. }
      apply Permutation_length in Hperm. unfold odict.keys in Hperm.
      by rewrite !length_fmap in Hperm.
    + intros [k v] Hkv%list_elem_of_In. apply bool_decide_eq_true. simpl.
      rewrite <- Hext. by apply elem_of_items_get.
Qed.

End odict_facts.

(** ** The packing assigner *)

Section assigner_facts.
Implicit Types (host_list : list HostInfo) (h : string).

Lemma filter_none {A} (P : A -> Prop) `{forall x, Decision (P x)} (l : list A) :
  (forall x, x ∈ l -> ~ P x) -> filter P l = [].
Proof.
  induction l as [| y l IH]; intros Hno; [done |].
  rewrite filter_cons_False by (apply Hno; left).
  apply IH. intros x Hx. apply Hno. by right.
Qed.

Lemma filter_all {A} (P : A -> Prop) `{forall x, Decision (P x)} (l : list A) :
  (forall x, x ∈ l -> P x) -> filter P l = l.
Proof.
  induction l as [| y l IH]; intros Hall; [done |].
  rewrite filter_cons_True by (apply Hall; left).
  f_equal. apply IH. intros x Hx. apply Hall. by right.
Qed.

Lemma filter_fmap_commute {A B} (f : A -> B) (P : B -> Prop)
  `{forall y, Decision (P y)} (l : list A) :
  filter P (f <$> l) = f <$> filter (fun x => P (f x)) l.
Proof.
  induction l as [| x l IH]; [done |].
  rewrite fmap_cons, !filter_cons, IH. by destruct (decide (P (f x))).
Qed.

Lemma pack_ranks host_list next_rank max_np :
  (fun p => p.1.2) <$> Scenario.pack host_list next_rank max_np
  = (fun i => next_rank + Z.of_nat i)
      <$> seq 0 (length (Scenario.pack host_list next_rank max_np)).
Proof.
  revert next_rank. induction host_list as [| host rest IH]; intros next_rank;
    [done |].
  cbn [Scenario.pack].
  set (k := Z.to_nat (Z.min (slots host) (max_np - next_rank))).
  rewrite fmap_app, length_app, length_fmap, length_seq, seq_app, fmap_app.
  f_equal; [by rewrite <- list_fmap_compose |].
  replace (0 + k)%nat with (k + 0)%nat by lia.
  rewrite IH, <- (fmap_add_seq k), <- list_fmap_compose.
  apply list_fmap_ext. intros _ i _. simpl. lia.
Qed.

Lemma pack_hostnames host_list next_rank max_np p :
  p ∈ Scenario.pack host_list next_rank max_np ->
  p.1.1 ∈ host_hostname <$> host_list.
Proof.
  revert next_rank. induction host_list as [| host rest IH]; intros next_rank.
  - by intros ?%elem_of_nil.
  - cbn [Scenario.pack]. rewrite elem_of_app, fmap_cons, elem_of_cons.
    intros [(i & -> & _)%list_elem_of_fmap | Hp]; [by left | right; eauto].
Qed.

Lemma pack_local_ranks host_list next_rank max_np h :
  NoDup (host_hostname <$> host_list) ->
  (fun p => p.2)
    <$> filter (fun p => p.1.1 = h) (Scenario.pack host_list next_rank max_np)
  = Z.of_nat
      <$> seq 0 (length (filter (fun p => p.1.1 = h)
                                (Scenario.pack host_list next_rank max_np))).
Proof.
  revert next_rank. induction host_list as [| host rest IH];
    intros next_rank Hnd; [done |].
  rewrite fmap_cons in Hnd. apply NoDup_cons in Hnd as [Hhost Hnd].
  cbn [Scenario.pack].
  set (k := Z.to_nat (Z.min (slots host) (max_np - next_rank))).
  rewrite filter_app, filter_fmap_commute. simpl.
  destruct (decide (host_hostname host = h)) as [<- | Hne].
  - rewrite (filter_none _ (Scenario.pack rest _ _)).
    + rewrite app_nil_r, (filter_all _ (seq 0 k)) by done.
      by rewrite <- list_fmap_compose, length_fmap, length_seq.
    + intros p Hp%pack_hostnames Heq. apply Hhost. by rewrite <- Heq.
  - rewrite (filter_none _ (seq 0 k)) by done. simpl. by apply IH.
Qed.

(** The assigner meets what the driver's invariants need from it, on every
    list of hosts with pairwise distinct names. *)
Lemma assign_ranks_cover_packing_consistent host_list min_np max_np l :
  NoDup (host_hostname <$> host_list) ->
  Scenario.assign host_list min_np max_np = Ok l ->
  ElasticDriver.ranks_cover l /\ ElasticDriver.packing_consistent l.
Proof.
  intros Hnd. unfold Scenario.assign. cbv zeta.
  destruct (bool_decide _); [done |]. intros [= <-].
  set (packed := Scenario.pack host_list 0 max_np).
  set (mk := fun p : string * Z * Z => mk_SlotInfo p.1.1 p.1.2 p.2 p.2 _ _ _).
  assert (Hrank : rank <$> (mk <$> packed)
                  = Z.of_nat <$> seq 0 (length (mk <$> packed))).
  { rewrite <- list_fmap_compose, length_fmap.
    etrans; [apply (pack_ranks host_list 0 max_np) |].
    apply list_fmap_ext. intros; simpl; lia. }
  split; [split |].
  - rewrite Hrank. apply NoDup_fmap_2_strong; [| apply NoDup_seq].
    intros; lia.
  - apply Forall_forall. intros x Hx.
    assert (Hin : rank x ∈ rank <$> (mk <$> packed))
      by (apply list_elem_of_fmap; eauto).
    rewrite Hrank in Hin.
    apply list_elem_of_fmap in Hin as (i & -> & Hi%elem_of_seq). lia.
  - apply Forall_forall. intros x _. cbv zeta.
    unfold ElasticDriver.slots_on. rewrite filter_fmap_commute.
    rewrite <- list_fmap_compose, length_fmap.
    apply (pack_local_ranks host_list 0 max_np (hostname x) Hnd).
Qed.

End assigner_facts.

(** ** The driver *)

Section driver_facts.
Import ElasticDriver.
Context {Registry Launcher Addresses SecretKey : Type}.
Context `{!Collaborators Registry Launcher Addresses SecretKey}.

Local Abbreviation driver := (ElasticDriver.t Registry Launcher Addresses SecretKey).
Local Abbreviation M := (ElasticDriver.M Registry Launcher Addresses SecretKey).
Local Abbreviation keeps :=
  (@ElasticDriver.keeps Registry Launcher Addresses SecretKey _ _).
Local Abbreviation registry_keeps_shutdown :=
  (@ElasticDriver.registry_keeps_shutdown Registry Launcher Addresses SecretKey _).
Local Abbreviation step_without_stop :=
  (ElasticDriver.step_without_stop Registry Launcher Addresses SecretKey _).
Local Abbreviation step :=
  (ElasticDriver.step Registry Launcher Addresses SecretKey _).
Local Abbreviation wakeup := (ElasticDriver.wakeup Registry Launcher Addresses SecretKey).
Local Abbreviation tick := (ElasticDriver.tick Registry Launcher Addresses SecretKey).

(** *** Running the monad *)

Lemma run_bind {A B} (m : M A) (f : A -> M B) (s : driver) :
  (m ≫= f) s
  = match m s with
    | (Ok a, s') => f a s'
    | (Raise e, s') => (Raise e, s')
    | (Pending, s') => (Pending, s')
    end.
Proof. reflexivity. Qed.

Lemma run_ret {A} (a : A) (s : driver) : (mret a : M A) s = (Ok a, s).
Proof. reflexivity. Qed.

Lemma run_gets {A} (f : driver -> A) (s : driver) : gets f s = (Ok (f s), s).
Proof. reflexivity. Qed.

Lemma run_modify (f : driver -> driver) (s : driver) :
  modify f s = (Ok (), f s).
Proof. reflexivity. Qed.

Ltac run :=
  repeat (rewrite ?run_bind, ?run_ret, ?run_gets, ?run_modify; cbn beta iota).

Lemma keeps_ret {A B} (obs : driver -> B) (a : A) : keeps obs (mret a : M A).
Proof. by intros s. Qed.

Lemma keeps_gets {A B} (obs : driver -> B) (f : driver -> A) :
  keeps obs (gets f).
Proof. by intros s. Qed.

Lemma keeps_lift {A B} (obs : driver -> B) (r : result A) :
  keeps obs (lift r : M A).
Proof. by intros s. Qed.

Lemma keeps_raise {A B} (obs : driver -> B) (e : exn) :
  keeps obs (raise e : M A).
Proof. by intros s. Qed.

Lemma keeps_modify {B} (obs : driver -> B) (f : driver -> driver) :
  (forall s, obs (f s) = obs s) -> keeps obs (modify f).
Proof. intros Hf s. apply Hf. Qed.

Lemma keeps_bind {A C B} (obs : driver -> B) (m : M A) (f : A -> M C) :
  keeps obs m -> (forall a, keeps obs (f a)) -> keeps obs (m ≫= f).
Proof.
  intros Hm Hf s. rewrite run_bind. specialize (Hm s).
  destruct (m s) as [[a | e |] s']; simpl in *; [| done | done].
  by rewrite Hf.
Qed.

Lemma keeps_try_except {A B} (obs : driver -> B) (m : M A) (h : exn -> M A) :
  keeps obs m -> (forall e, keeps obs (h e)) -> keeps obs (try_except m h).
Proof.
  intros Hm Hh s. unfold try_except. specialize (Hm s).
  destruct (m s) as [[a | e |] s']; simpl in *; [done | | done].
  by rewrite Hh.
Qed.

Lemma keeps_if {A B} (obs : driver -> B) (b : bool) (m1 m2 : M A) :
  keeps obs m1 -> keeps obs m2 -> keeps obs (if b then m1 else m2).
Proof. by destruct b. Qed.

(** *** Who writes the shutdown signal *)

Lemma keeps_shutdown_getitem (host : string) :
  keeps _shutdown (host_assignments_getitem host).
Proof.
  intros s. unfold host_assignments_getitem.
  by destruct (odict.getitem host (_host_assignments s)).
Qed.

Lemma keeps_shutdown_get_host_assignments current_hosts :
  keeps _shutdown (_get_host_assignments current_hosts).
Proof.
  unfold _get_host_assignments.
  repeat (apply keeps_bind; [first [apply keeps_gets | apply keeps_lift] | intros ?]).
  apply keeps_ret.
Qed.

Lemma keeps_shutdown_update_host_assignments current_hosts :
  keeps _shutdown (_update_host_assignments current_hosts).
Proof.
  unfold _update_host_assignments.
  apply keeps_bind; [apply keeps_gets | intros active].
  apply keeps_bind; [apply keeps_shutdown_get_host_assignments | intros [ha l]].
  apply keeps_bind; [apply keeps_gets | intros prev].
  apply keeps_bind.
  { repeat apply keeps_if; first [apply keeps_raise | apply keeps_ret]. }
  intros _.
  repeat (apply keeps_bind; [by apply keeps_modify | intros _]).
  apply keeps_bind; [apply keeps_gets | intros ?]. apply keeps_ret.
Qed.

Lemma keeps_shutdown_notify current_hosts now :
  keeps _shutdown (_notify_workers_host_changes current_hosts now).
Proof.
  unfold _notify_workers_host_changes.
  apply keeps_bind; [apply keeps_shutdown_get_host_assignments | intros [ha l]].
  apply keeps_bind; [apply keeps_gets | intros cur].
  apply keeps_if; [by apply keeps_modify |].
  apply keeps_bind; [apply keeps_gets | intros [c |]]; [| by apply keeps_modify].
  apply keeps_bind; [apply keeps_gets | intros [cl |]]; [| by apply keeps_modify].
  apply keeps_try_except.
  - apply keeps_bind; [by apply keeps_modify | intros _]. apply keeps_lift.
  - intros e. apply keeps_bind; [apply keeps_gets | intros v].
    apply keeps_if; [by apply keeps_modify | apply keeps_ret].
Qed.

Lemma keeps_shutdown_start_worker_processes pending_slots :
  keeps _shutdown (_start_worker_processes pending_slots).
Proof.
  induction pending_slots as [| slot_info rest IH]; [apply keeps_ret |].
  simpl. apply keeps_bind; [by apply keeps_modify | intros _].
  apply keeps_bind; [| by intros _].
  unfold _start_worker_process.
  repeat (apply keeps_bind; [by apply keeps_modify | intros _]).
  by apply keeps_modify.
Qed.

Lemma keeps_shutdown_wait_loop tmout min_np wakeups :
  Forall (fun w => forall s, _shutdown (others w s) = _shutdown s) wakeups ->
  keeps _shutdown (wait_loop tmout min_np wakeups).
Proof.
  induction 1 as [| w wakeups Hw _ IH]; intros s; simpl.
  - by destruct (_has_available_slots _ _).
  - destruct (_has_available_slots _ _); [done |].
    destruct (timeout.check_time_out_for _ _ _); simpl; [| apply Hw ..].
    by rewrite IH.
Qed.

Lemma keeps_shutdown_activate_hosts min_np now wakeups :
  Forall (fun w => forall s, _shutdown (others w s) = _shutdown s) wakeups ->
  keeps _shutdown (_activate_hosts min_np now wakeups).
Proof.
  intros Hw. unfold _activate_hosts.
  apply keeps_bind; [by apply keeps_modify | intros _].
  apply keeps_bind.
  { intros s. unfold wait_for_available_hosts.
    by apply keeps_shutdown_wait_loop. }
  intros current_hosts.
  apply keeps_bind; [apply keeps_shutdown_update_host_assignments | intros p].
  apply keeps_bind; [apply keeps_gets | intros n].
  apply keeps_bind; [| intros _; apply keeps_shutdown_start_worker_processes].
  unfold worker_registry_reset.
  apply keeps_bind; [by apply keeps_modify | intros _]. by apply keeps_modify.
Qed.

Lemma keeps_shutdown_handle_worker_exit slot_info exit_code timestamp :
  registry_keeps_shutdown ->
  keeps _shutdown (_handle_worker_exit slot_info exit_code timestamp).
Proof.
  intros Hreg. unfold _handle_worker_exit.
  destruct (Hreg (hostname slot_info) (local_rank slot_info)) as (_ & Hs & Hf).
  apply keeps_bind; [apply keeps_gets | intros assigned].
  apply keeps_if; [by apply keeps_modify |].
  apply keeps_bind.
  { apply keeps_if; (apply keeps_bind; [by apply keeps_modify | by intros _]). }
  intros rendezvous_id.
  apply keeps_bind; [apply keeps_gets | intros fin].
  apply keeps_bind; [apply keeps_gets | intros last].
  apply keeps_if; [| apply keeps_ret].
  apply keeps_bind; [by apply keeps_modify | intros _]. by apply keeps_modify.
Qed.

Lemma keeps_shutdown_join ends :
  registry_keeps_shutdown -> keeps _shutdown (join_worker_threads ends).
Proof.
  intros Hreg. induction ends as [| [| exit_code timestamp |] ends IH];
    intros s; simpl.
  - by destruct (Results._worker_threads (_results s)).
  - destruct (Results._worker_threads (_results s)); [done |]. by rewrite IH.
  - destruct (Results._worker_threads (_results s)) as [| th queue]; [done |].
    match goal with
    | |- context [_handle_worker_exit ?x ?c ?ts ?s0] =>
        pose proof (keeps_shutdown_handle_worker_exit x c ts Hreg s0) as Hk;
        destruct (_handle_worker_exit x c ts s0) as [[[] | e |] s1]
    end; simpl in Hk; [| | done]; by rewrite IH.
  - by destruct (Results._worker_threads (_results s)).
Qed.

Lemma keeps_shutdown_discover_once tk : keeps _shutdown (discover_once tk).
Proof.
  unfold discover_once. apply keeps_bind.
  { intros s. unfold host_manager_update.
    by destruct (discovery.update_available_hosts _ _). }
  intros changed. apply keeps_if; [| apply keeps_ret].
  apply keeps_bind; [apply keeps_gets | intros current_hosts].
  apply keeps_bind; [apply keeps_shutdown_notify | intros _].
  by apply keeps_modify.
Qed.

Lemma shutdown_discover_loop first_update ticks s :
  quiet_ticks ticks ->
  _shutdown (discover_loop first_update ticks s).2 = _shutdown s.
Proof.
  intros Hq. revert first_update s.
  induction Hq as [| tk ticks Htk _ IH]; intros first_update s; simpl.
  - by destruct (_shutdown s) eqn:Hs.
  - destruct (_shutdown s) eqn:Hs; [done |].
    pose proof (keeps_shutdown_discover_once tk s) as Hk.
    destruct (discover_once tk s) as [[[] | e |] s1]; simpl in Hk.
    + by rewrite IH, Htk, Hk.
    + destruct (isinstance_RuntimeError e); [| by simpl; rewrite Hk].
      destruct first_update; [by simpl; rewrite Hk |].
      by rewrite IH, Htk; simpl; rewrite Hk.
    + by simpl; rewrite Hk.
Qed.

Lemma step_without_stop_shutdown (s s' : driver) :
  registry_keeps_shutdown -> step_without_stop s s' ->
  _shutdown s' = _shutdown s.
Proof.
  intros Hreg Hstep. destruct Hstep.
  - unfold start. rewrite (keeps_bind _shutdown); [done | by apply keeps_modify |].
    intros _. by apply keeps_shutdown_activate_hosts.
  - unfold resume. rewrite (keeps_bind _shutdown); [done | apply keeps_gets |].
    intros ?. by apply keeps_shutdown_activate_hosts.
  - done.
  - unfold get_results.
    pose proof (keeps_shutdown_join ends Hreg s) as Hk.
    by destruct (join_worker_threads ends s) as [[[] | e |] s1].
  - done.
  - unfold record_ready.
    rewrite (keeps_bind _shutdown); [done | by apply keeps_modify |].
    intros _. apply Hreg.
  - done.
  - unfold local_size.
    rewrite (keeps_bind _shutdown);
      [done | apply keeps_shutdown_getitem | intros ?; apply keeps_ret].
  - unfold get_slot_info.
    rewrite (keeps_bind _shutdown); [done | apply keeps_gets |].
    intros assigned. apply keeps_if; [| apply keeps_ret].
    apply keeps_bind; [apply keeps_shutdown_getitem | intros ?; apply keeps_lift].
  - done.
  - by apply keeps_shutdown_handle_worker_exit.
  - by apply shutdown_discover_loop.
Qed.

Lemma set_shutdown_same (s : driver) :
  _shutdown s = true -> set_shutdown true s = s.
Proof. destruct s. simpl. by intros ->. Qed.

Lemma stop_sets_shutdown in_flight (s : driver) :
  _shutdown (stop in_flight s).2 = true.
Proof.
  unfold stop. cbv zeta.
  destruct (_discovery_thread_alive (set_shutdown true s)); [| done].
  destruct in_flight as [[first_update tk] |]; [| done].
  pose proof (keeps_shutdown_discover_once tk (set_shutdown true s)) as Hk.
  destruct (discover_once tk _) as [[[] | e |] s1]; simpl in Hk; [done | | done].
  by destruct (_ && _).
Qed.

Lemma stop_stopped again (s : driver) :
  _shutdown s = true -> _discovery_thread_alive s = false ->
  stop again s = (Ok (), s).
Proof.
  intros Hstop Halive. unfold stop. cbv zeta.
  by rewrite (set_shutdown_same s Hstop), Halive.
Qed.

Lemma step_shutdown (s s' : driver) :
  registry_keeps_shutdown -> step s s' ->
  _shutdown s = true -> _shutdown s' = true.
Proof.
  intros Hreg [s1 s2 Hcall | in_flight s1] Hstop.
  - by rewrite (step_without_stop_shutdown s1 s2).
  - apply stop_sets_shutdown.
Qed.

(** C9: [stop] sets the shutdown signal, whatever the discovery thread is
    doing, and never raises.  It returns when the turn of the discovery
    thread that is under way ends, at once when there is none, and the
    discovery thread is over then; a second [stop] returns too and leaves
    the driver as the first one left it.  [finished] reads the signal and
    changes nothing.  As long as neither a registry callback nor, during a
    wait, another thread writes the signal: from the constructor on
    [finished] is false until [stop] is called, and from a [stop] on it is
    true, whatever is called afterwards, [start], [resume] and [stop]
    included. *)
Theorem stop_idempotent_finished_iff_shutdown (s : driver) :
  (forall in_flight,
     _shutdown (stop in_flight s).2 = true
     /\ (forall e, (stop in_flight s).1 <> Raise e)
     /\ (match in_flight with
         | Some (_, tk) =>
             (discover_once tk (set_shutdown true s)).1 <> Pending
         | None => True
         end ->
         exists s1,
           stop in_flight s = (Ok (), s1)
           /\ _discovery_thread_alive s1 = false
           /\ finished s1 = (Ok true, s1)
           /\ forall again, stop again s1 = (Ok (), s1)))
  /\ finished s = (Ok (_shutdown s), s)
  /\ (registry_keeps_shutdown ->
      (forall min_np max_np start_timeout env_start_timeout verbose s',
         rtc step_without_stop
             (__init__ min_np max_np start_timeout env_start_timeout verbose)
             s' ->
         finished s' = (Ok false, s'))
      /\ (forall in_flight s',
            rtc step (stop in_flight s).2 s' ->
            finished s' = (Ok true, s'))).
Proof.
  split; [| split; [done |]].
  - intros in_flight. split; [apply stop_sets_shutdown |].
    pose proof (stop_sets_shutdown in_flight s) as Hset. revert Hset.
    unfold stop. cbv zeta.
    destruct (_discovery_thread_alive (set_shutdown true s)) eqn:Halive.
    + destruct in_flight as [[first_update tk] |].
      * destruct (discover_once tk _) as [[[] | e |] s1]; cbn [fst snd];
          intros Hset; (split; [done |]); intros Hends; [| | done].
        -- eexists. split; [reflexivity |]. split; [done |].
           unfold finished, gets. rewrite Hset. split; [done |].
           intros again. by apply stop_stopped.
        -- eexists. split; [reflexivity |]. split; [done |].
           unfold finished, gets. rewrite Hset. split; [done |].
           intros again. by apply stop_stopped.
      * cbn [fst snd]. intros Hset. split; [done |]. intros _.
        eexists. split; [reflexivity |]. split; [done |]. split; [done |].
        intros again. by apply stop_stopped.
    + cbn [fst snd]. intros Hset. split; [done |]. intros _.
      eexists. split; [reflexivity |]. split; [done |]. split; [done |].
      intros again. by apply stop_stopped.
  - intros Hreg. split.
    + intros min_np max_np start_timeout env verbose s' Hrun.
      unfold finished, gets. f_equal. f_equal.
      revert s' Hrun. apply rtc_ind_r; [done |].
      intros s1 s2 _ Hstep IH.
      by rewrite (step_without_stop_shutdown s1 s2).
    + intros in_flight s' Hrun.
      unfold finished, gets. f_equal. f_equal.
      revert s' Hrun. apply rtc_ind_r; [apply stop_sets_shutdown |].
      intros s1 s2 _ Hstep IH. by apply (step_shutdown s1 s2).
Qed.

(** *** Slot lookup *)

Lemma has_rank_assignment_false (host : string) (slot : Z) (s : driver) :
  discovery.is_blacklisted host (_host_manager s) = true
  \/ odict.get host (_host_assignments s) = None
  \/ (exists slots, odict.get host (_host_assignments s) = Some slots
                    /\ Z.of_nat (length slots) <= slot) ->
  has_rank_assignment host slot s = false.
Proof.
  unfold has_rank_assignment.
  intros [-> | [Hnone | (slots & Hsome & Hlen)]]; [done | |];
    destruct (discovery.is_blacklisted _ _); try done.
  - rewrite Hnone. apply andb_false_r.
  - rewrite Hsome. rewrite bool_decide_eq_false_2 by lia. apply andb_false_r.
Qed.

Lemma group_by_host_factory (l : list SlotInfo) (d : odict.t (list SlotInfo)) :
  odict.default_factory (foldl append_slot d l) = odict.default_factory d.
Proof.
  revert d. induction l as [| x l IH]; intros d; [done |].
  simpl. rewrite IH. unfold append_slot, odict.getitem.
  destruct (odict.get _ d); [done |].
  by destruct (odict.default_factory d) eqn:Hf.
Qed.

(** [_get_host_assignments] reads the driver and changes nothing. *)
Lemma get_host_assignments_run current_hosts (s : driver) :
  _get_host_assignments current_hosts s
  = match get_host_assignments (host_list_of current_hosts)
                               (_min_np s) (_max_np s) with
    | Ok l => (Ok (group_by_host l, l), s)
    | Raise e => (Raise e, s)
    | Pending => (Pending, s)
    end.
Proof.
  unfold _get_host_assignments. cbv zeta.
  rewrite !run_bind, !run_gets. cbn beta iota.
  rewrite !run_bind, !run_gets. cbn beta iota. rewrite run_bind.
  unfold lift. by destruct (get_host_assignments _ _ _).
Qed.

(** [_update_host_assignments], one case per way out of it. *)
Lemma update_host_assignments_run current_hosts (s : driver) :
  _update_host_assignments current_hosts s
  = match get_host_assignments (host_list_of current_hosts)
                               (_min_np s) (_max_np s) with
    | Ok l =>
        if bool_decide (odict.len (_host_assignments s) > 0)
           && odict.keys_disjoint (_host_assignments s) (group_by_host l)
        then (Raise state_broadcast_lost, s)
        else (Ok (pending_slots_of (group_by_host l)
                    (list_to_set (slot_keys (_host_assignments s)))),
              installed l s)
    | Raise e => (Raise e, s)
    | Pending => (Pending, s)
    end.
Proof.
  unfold _update_host_assignments.
  rewrite run_bind, run_gets. cbn beta iota.
  rewrite run_bind, get_host_assignments_run.
  destruct (get_host_assignments _ _ _) as [l | e |]; [| done | done].
  cbn beta iota. rewrite run_bind, run_gets. cbn beta iota. rewrite run_bind.
  destruct (bool_decide _); [destruct (odict.keys_disjoint _ _) |]; done.
Qed.

Lemma update_host_assignments_installs_defaultdict current_hosts
  (s s' : driver) pending :
  _update_host_assignments current_hosts s = (Ok pending, s') ->
  odict.default_factory (_host_assignments s') = Some [].
Proof.
  rewrite update_host_assignments_run.
  destruct (get_host_assignments _ _ _) as [l | e |]; [| done | done].
  destruct (_ && _); [done |]. intros [= _ <-]. apply group_by_host_factory.
Qed.

(** C10, in the form the code satisfies: [get_slot_info] returns
    [INVALID_SLOT_INFO] without raising, and without changing the driver,
    when the host is blacklisted, when it has no entry in
    [host_assignments], or when [slot] is at least the length of the host's
    list.  [local_size] of a host without an entry
    raises [KeyError] while [host_assignments] is the plain dictionary of
    the constructor; on the [defaultdict(list)] that every successful
    [_update_host_assignments] installs it returns 0 and stores an empty
    list under the host. *)
Theorem get_slot_info_guarded_local_size_depends_on_dict
  (host : string) (slot : Z) (s : driver) :
  (discovery.is_blacklisted host (_host_manager s) = true
   \/ odict.get host (_host_assignments s) = None
   \/ (exists slots, odict.get host (_host_assignments s) = Some slots
                     /\ Z.of_nat (length slots) <= slot) ->
   get_slot_info host slot s = (Ok INVALID_SLOT_INFO, s))
  /\ (odict.get host (_host_assignments s) = None ->
      (odict.default_factory (_host_assignments s) = None ->
       local_size host s = (Raise (mk_exn KeyError host), s))
      /\ (odict.default_factory (_host_assignments s) = Some [] ->
          local_size host s
          = (Ok 0, set_host_assignments
                     (odict.setitem host [] (_host_assignments s)) s)))
  /\ (forall min_np max_np start_timeout env_start_timeout verbose,
        odict.default_factory
          (_host_assignments
             (__init__ min_np max_np start_timeout env_start_timeout verbose
                : driver))
        = None)
  /\ (forall current_hosts pending s',
        _update_host_assignments current_hosts s = (Ok pending, s') ->
        odict.default_factory (_host_assignments s') = Some []).
Proof.
  split; [| split; [| split]].
  - intros Hcase. unfold get_slot_info. rewrite run_bind, run_gets.
    by rewrite has_rank_assignment_false.
  - intros Hnone. unfold local_size, host_assignments_getitem, odict.getitem.
    split; intros Hf; rewrite run_bind, Hnone, Hf; [| done].
    destruct s; simpl in *. destruct _host_assignments0; simpl in *.
    by subst.
  - done.
  - intros current_hosts pending s'.
    apply update_host_assignments_installs_defaultdict.
Qed.

(** *** Grouping the assignment list by host *)

Lemma append_slot_factory (d : odict.t (list SlotInfo)) (x : SlotInfo) :
  odict.default_factory (append_slot d x) = odict.default_factory d.
Proof. apply (group_by_host_factory [x]). Qed.

Lemma get_append_slot (d : odict.t (list SlotInfo)) (x : SlotInfo) (h : string) :
  odict.default_factory d = Some [] ->
  odict.get h (append_slot d x)
  = if decide (hostname x = h)
    then Some (default [] (odict.get h d) ++ [x])
    else odict.get h d.
Proof.
  intros Hf. unfold append_slot, odict.getitem. rewrite Hf.
  destruct (odict.get (hostname x) d) as [v |] eqn:Hx.
  - rewrite get_setitem. case_decide; [subst h; by rewrite Hx | done].
  - rewrite !get_setitem. case_decide; [subst h; by rewrite Hx | done].
Qed.

Lemma append_slot_wf (d : odict.t (list SlotInfo)) (x : SlotInfo) :
  odict.wf d -> odict.wf (append_slot d x).
Proof.
  intros Hd. unfold append_slot, odict.getitem.
  destruct (odict.get (hostname x) d); [by apply setitem_wf |].
  destruct (odict.default_factory d); [| done].
  by do 2 apply setitem_wf.
Qed.

Lemma get_foldl_append_slot (l : list SlotInfo) (d : odict.t (list SlotInfo))
  (h : string) :
  odict.default_factory d = Some [] ->
  odict.get h (foldl append_slot d l)
  = match odict.get h d, slots_on h l with
    | None, [] => None
    | o, on_h => Some (default [] o ++ on_h)
    end.
Proof.
  revert d. induction l as [| x l IH]; intros d Hf.
  - simpl. destruct (odict.get h d); simpl; [by rewrite app_nil_r | done].
  - cbn [foldl]. rewrite IH by by rewrite append_slot_factory.
    rewrite get_append_slot by done. unfold slots_on. rewrite filter_cons.
    destruct (decide (hostname x = h)); [| done].
    destruct (odict.get h d); simpl; by rewrite <- ?app_assoc.
Qed.

Lemma get_group_by_host (l : list SlotInfo) (h : string) :
  odict.get h (group_by_host l)
  = match slots_on h l with [] => None | on_h => Some on_h end.
Proof. unfold group_by_host. by rewrite get_foldl_append_slot. Qed.

Lemma group_by_host_wf (l : list SlotInfo) : odict.wf (group_by_host l).
Proof.
  unfold group_by_host.
  assert (Hwf : odict.wf (odict.defaultdict ([] : list SlotInfo)))
    by apply NoDup_nil_2.
  revert Hwf. generalize (odict.defaultdict ([] : list SlotInfo)).
  induction l as [| x l IH]; intros d Hd; [done |].
  simpl. by apply IH, append_slot_wf.
Qed.

Lemma elem_of_keys_group_by_host (l : list SlotInfo) (h : string) :
  h ∈ odict.keys (group_by_host l)
  <-> exists slot_info, slot_info ∈ l /\ hostname slot_info = h.
Proof.
  rewrite elem_of_keys, get_group_by_host. split.
  - destruct (slots_on h l) as [| x on_h] eqn:Hon; [by intros [? ?] |].
    intros _. exists x.
    assert (Hin : x ∈ slots_on h l) by (rewrite Hon; left).
    apply list_elem_of_filter in Hin as [? ?]. done.
  - intros (x & Hx & Hh).
    assert (Hin : x ∈ slots_on h l) by by apply list_elem_of_filter.
    destruct (slots_on h l); [by apply elem_of_nil in Hin | eauto].
Qed.

(** *** The state-broadcast invariant *)

(** C1: when the previous [host_assignments] is not empty and no slot of the
    newly computed candidate list sits on a host of the previous assignment,
    [_update_host_assignments] raises the state-broadcast-lost error and
    leaves the driver exactly as it was: same [host_assignments],
    [rank_assignments] and [world_size], and no call to the rendezvous
    service. *)
Theorem update_host_assignments_state_broadcast_lost
  (current_hosts : discovery.DiscoveredHosts) (candidate : list SlotInfo)
  (s : driver) :
  get_host_assignments (host_list_of current_hosts) (_min_np s) (_max_np s)
  = Ok candidate ->
  odict.len (_host_assignments s) > 0 ->
  Forall (fun slot_info =>
            hostname slot_info ∉ odict.keys (_host_assignments s)) candidate ->
  exists s',
    _update_host_assignments current_hosts s = (Raise state_broadcast_lost, s')
    /\ _host_assignments s' = _host_assignments s
    /\ _rank_assignments s' = _rank_assignments s
    /\ _world_size s' = _world_size s
    /\ calls s' = calls s
    /\ s' = s.
Proof.
  intros Hcand Hlen Hnew. exists s. split; [| done].
  rewrite update_host_assignments_run, Hcand.
  rewrite bool_decide_eq_true_2 by done. simpl.
  replace (odict.keys_disjoint _ _) with true; [done |].
  symmetry. apply keys_disjoint_true. intros h Hprev Hnext.
  apply elem_of_keys_group_by_host in Hnext as (x & Hx & <-).
  rewrite Forall_forall in Hnew. by apply (Hnew x).
Qed.

(** *** The installed assignment *)

Lemma total_assoc_set (k : string) (v : list SlotInfo)
  (l : list (string * list SlotInfo)) :
  (sum_list (length <$> (odict.assoc_set k v l).*2)
   + length (default [] (odict.assoc k l))
   = sum_list (length <$> l.*2) + length v)%nat.
Proof.
  induction l as [| [k' v'] l IH]; simpl; [lia |].
  destruct (decide (k = k')) as [-> | Hne]; simpl; unfold fmap in *; lia.
Qed.

Lemma total_slots_append_slot (d : odict.t (list SlotInfo)) (x : SlotInfo) :
  odict.default_factory d = Some [] ->
  total_slots (append_slot d x) = S (total_slots d).
Proof.
  intros Hf. unfold append_slot, odict.getitem, total_slots. rewrite Hf.
  destruct (odict.get (hostname x) d) as [v |] eqn:Hx; simpl.
  - pose proof (total_assoc_set (hostname x) (v ++ [x]) (odict.items d)) as Ht.
    unfold odict.get in Hx. rewrite Hx, length_app in Ht. simpl in Ht. lia.
  - pose proof (total_assoc_set (hostname x) [] (odict.items d)) as Ht0.
    pose proof (total_assoc_set (hostname x) [x]
                  (odict.assoc_set (hostname x) [] (odict.items d))) as Ht1.
    unfold odict.get in Hx. rewrite Hx in Ht0. rewrite assoc_set_eq in Ht1.
    simpl in *. lia.
Qed.

Lemma total_slots_group_by_host (l : list SlotInfo) :
  total_slots (group_by_host l) = length l.
Proof.
  unfold group_by_host.
  assert (Hgen : forall d : odict.t (list SlotInfo),
             odict.default_factory d = Some [] ->
             total_slots (foldl append_slot d l)
             = (total_slots d + length l)%nat).
  { induction l as [| x l IH]; intros d Hf; simpl; [lia |].
    rewrite IH by by rewrite append_slot_factory.
    rewrite total_slots_append_slot by done. lia. }
  by rewrite Hgen.
Qed.

Lemma lookup_build_rank_assignments (l : list SlotInfo) (r : Z) (x : SlotInfo) :
  NoDup (rank <$> l) ->
  build_rank_assignments l !! r = Some x <-> x ∈ l /\ rank x = r.
Proof.
  unfold build_rank_assignments. intros Hnd.
  assert (Hgen : forall m : gmap Z SlotInfo,
             foldl (fun m y => <[rank y := y]> m) m l !! r = Some x
             <-> (x ∈ l /\ rank x = r) \/ (m !! r = Some x /\ r ∉ rank <$> l)).
  { induction l as [| y l IH]; intros m.
    - simpl. split; [intros ?; right; split; [done | apply not_elem_of_nil] |].
      intros [[Hx _] | [? _]]; [by apply elem_of_nil in Hx | done].
    - apply NoDup_cons in Hnd as [Hy Hnd]. cbn [foldl]. rewrite (IH Hnd).
      rewrite fmap_cons, not_elem_of_cons, elem_of_cons. split.
      + intros [[Hx Hr] | [Hm Hr]]; [by left; split; [right |] |].
        destruct (decide (rank y = r)) as [Hyr | Hyr].
        * rewrite Hyr, lookup_insert_eq in Hm. injection Hm as ->.
          left. split; [by left | done].
        * rewrite lookup_insert_ne in Hm by done. right. by repeat split.
      + intros [[[-> | Hx] Hr] | [Hm [Hne Hr]]].
        * right. split; [by rewrite Hr, lookup_insert_eq | by rewrite <- Hr].
        * by left.
        * right. split; [by rewrite lookup_insert_ne | done]. }
  rewrite Hgen, lookup_empty. split; [by intros [? | [? _]] | by left].
Qed.

Lemma ranks_cover_all (l : list SlotInfo) (r : Z) :
  ranks_cover l -> 0 <= r < Z.of_nat (length l) -> r ∈ rank <$> l.
Proof.
  intros [Hnd Hrange] Hr.
  assert (Hsub : rank <$> l ⊆+ Z.of_nat <$> seq 0 (length l)).
  { apply NoDup_submseteq; [done |]. intros z (x & -> & Hx)%list_elem_of_fmap.
    rewrite Forall_forall in Hrange. specialize (Hrange x Hx).
    apply list_elem_of_fmap. exists (Z.to_nat (rank x)).
    split; [lia |]. apply elem_of_seq. lia. }
  apply submseteq_length_Permutation in Hsub;
    [| by rewrite !length_fmap, length_seq].
  rewrite Hsub. apply list_elem_of_fmap. exists (Z.to_nat r).
  split; [lia |]. apply elem_of_seq. lia.
Qed.

Lemma get_group_by_host_Some (l slots : list SlotInfo) (h : string) :
  odict.get h (group_by_host l) = Some slots -> slots = slots_on h l.
Proof.
  rewrite get_group_by_host. destruct (slots_on h l); [done | by intros [= <-]].
Qed.

Lemma get_group_by_host_elem (l : list SlotInfo) (x : SlotInfo) :
  x ∈ l ->
  odict.get (hostname x) (group_by_host l) = Some (slots_on (hostname x) l).
Proof.
  intros Hx. rewrite get_group_by_host.
  assert (Hin : x ∈ slots_on (hostname x) l) by by apply list_elem_of_filter.
  destruct (slots_on (hostname x) l); [by apply elem_of_nil in Hin | done].
Qed.

(** C5: after a successful [_update_host_assignments], if the list the
    assigner returned has pairwise distinct ranks in [0, n) and local ranks
    that follow the packing order, then [world_size] is the sum of the
    lengths of the lists in [host_assignments]; every slot stored under a
    host names that host and has its index as [local_rank]; and
    [rank_assignments] is a bijection between [0, world_size) and the slots
    of the assignment: it is defined exactly on that interval, the slot
    stored under [r] has rank [r] and is a slot of the assignment, and every
    slot of the assignment is stored under its rank. *)
Theorem update_host_assignments_invariants
  (current_hosts : discovery.DiscoveredHosts)
  (host_assignments_list pending : list SlotInfo) (s s' : driver) :
  get_host_assignments (host_list_of current_hosts) (_min_np s) (_max_np s)
  = Ok host_assignments_list ->
  ranks_cover host_assignments_list ->
  packing_consistent host_assignments_list ->
  _update_host_assignments current_hosts s = (Ok pending, s') ->
  _world_size s' = Z.of_nat (total_slots (_host_assignments s'))
  /\ (forall h slots i x,
        odict.get h (_host_assignments s') = Some slots ->
        slots !! i = Some x ->
        hostname x = h /\ local_rank x = Z.of_nat i)
  /\ (forall r, 0 <= r < _world_size s' ->
        exists x, _rank_assignments s' !! r = Some x /\ rank x = r
                  /\ x ∈ default [] (odict.get (hostname x)
                                               (_host_assignments s')))
  /\ (forall r x, _rank_assignments s' !! r = Some x ->
        0 <= r < _world_size s' /\ rank x = r)
  /\ (forall h slots x,
        odict.get h (_host_assignments s') = Some slots -> x ∈ slots ->
        _rank_assignments s' !! rank x = Some x).
Proof.
  intros Hl Hranks Hpack. rewrite update_host_assignments_run, Hl.
  destruct (_ && _); [done |]. intros [= _ <-]. simpl.
  set (l := host_assignments_list) in *.
  split; [by rewrite total_slots_group_by_host |].
  split; [| split; [| split]].
  - intros h slots i x Hget Hi. apply get_group_by_host_Some in Hget as ->.
    assert (Hx : x ∈ slots_on h l) by by eapply list_elem_of_lookup_2.
    apply list_elem_of_filter in Hx as [Hh Hx]. split; [done |].
    unfold packing_consistent in Hpack. rewrite Forall_forall in Hpack.
    specialize (Hpack x Hx). cbv zeta in Hpack. rewrite Hh in Hpack.
    assert (Hi' : (local_rank <$> slots_on h l) !! i = Some (local_rank x))
      by by rewrite list_lookup_fmap, Hi.
    rewrite Hpack, list_lookup_fmap in Hi'.
    destruct (seq 0 (length (slots_on h l)) !! i) as [j |] eqn:Hj; [| done].
    apply lookup_seq in Hj as [-> _]. by injection Hi' as <-.
  - intros r Hr.
    apply (ranks_cover_all l r Hranks) in Hr
      as (x & -> & Hx)%list_elem_of_fmap.
    exists x. split; [by apply lookup_build_rank_assignments; [apply Hranks |] |].
    split; [done |]. rewrite get_group_by_host_elem by done. simpl.
    by apply list_elem_of_filter.
  - intros r x [Hx <-]%lookup_build_rank_assignments; [| apply Hranks].
    split; [| done]. destruct Hranks as [_ Hrange].
    rewrite Forall_forall in Hrange. by apply Hrange.
  - intros h slots x Hget Hx. apply get_group_by_host_Some in Hget as ->.
    apply list_elem_of_filter in Hx as [_ Hx].
    by apply lookup_build_rank_assignments; [apply Hranks |].
Qed.

(** *** Activation *)

Lemma start_worker_processes_keeps {B} (obs : driver -> B) pending_slots :
  (forall v s, obs (set_host_manager v s) = obs s) ->
  (forall v s, obs (set_results v s) = obs s) ->
  (forall v s, obs (set_calls v s) = obs s) ->
  (forall v s, obs (set_log v s) = obs s) ->
  keeps obs (_start_worker_processes pending_slots).
Proof.
  intros Hhm Hres Hcalls Hlog.
  induction pending_slots as [| slot_info rest IH]; [apply keeps_ret |].
  simpl. apply keeps_bind; [apply keeps_modify; intros; apply Hlog | intros _].
  apply keeps_bind; [| by intros _].
  unfold _start_worker_process.
  apply keeps_bind; [apply keeps_modify; intros; apply Hhm | intros _].
  apply keeps_bind; [apply keeps_modify; intros; apply Hcalls | intros _].
  apply keeps_modify; intros; apply Hres.
Qed.

Lemma start_worker_processes_run pending_slots (s : driver) :
  exists s', _start_worker_processes pending_slots s = (Ok (), s')
             /\ calls s' = calls s ++ (Call_thread_start <$> pending_slots).
Proof.
  revert s. induction pending_slots as [| slot_info rest IH]; intros s.
  - exists s. split; [done |]. by rewrite app_nil_r.
  - simpl. unfold _start_worker_process. run.
    edestruct IH as (s' & Hrun & Hcalls). exists s'. split; [exact Hrun |].
    rewrite Hcalls. simpl. by rewrite <- app_assoc.
Qed.

Lemma activate_hosts_run min_np now wakeups (s : driver) :
  _activate_hosts min_np now wakeups s
  = match wait_for_available_hosts min_np now wakeups
            (logging INFO ("wait for available hosts: " +:+ pretty min_np) s)
    with
    | (Ok current_hosts, s1) =>
        match _update_host_assignments current_hosts s1 with
        | (Ok pending_slots, s2) =>
            _start_worker_processes pending_slots
              (set_worker_registry
                 (registry_reset (_world_size s2) (_worker_registry s2))
                 (log_call (Call_registry_reset (_world_size s2)) s2))
        | (Raise e, s2) => (Raise e, s2)
        | (Pending, s2) => (Pending, s2)
        end
    | (Raise e, s1) => (Raise e, s1)
    | (Pending, s1) => (Pending, s1)
    end.
Proof.
  unfold _activate_hosts. rewrite run_bind, run_modify. cbn beta iota.
  rewrite run_bind.
  destruct (wait_for_available_hosts _ _ _ _) as [[ch | e |] s1]; [| done ..].
  rewrite run_bind.
  destruct (_update_host_assignments ch s1) as [[p | e |] s2]; [| done ..].
  unfold world_size, worker_registry_reset. by run.
Qed.

Lemma elem_of_pending_slots_of (l : list SlotInfo)
  (active_slots : gset (string * Z)) (x : SlotInfo) :
  x ∈ pending_slots_of (group_by_host l) active_slots
  <-> x ∈ l /\ (hostname x, local_rank x) ∉ active_slots.
Proof.
  unfold pending_slots_of. rewrite list_elem_of_bind. split.
  - intros ([h slots] & [Hnew Hx]%list_elem_of_filter & Hitem). simpl in *.
    apply elem_of_items_get in Hitem; [| apply group_by_host_wf].
    apply get_group_by_host_Some in Hitem as ->.
    apply list_elem_of_filter in Hx as [<- Hx]. done.
  - intros [Hx Hnew]. exists (hostname x, slots_on (hostname x) l). split.
    + apply list_elem_of_filter. split; [done |].
      by apply list_elem_of_filter.
    + apply elem_of_items_get; [apply group_by_host_wf |].
      by apply get_group_by_host_elem.
Qed.

Lemma elem_of_slot_keys (d : odict.t (list SlotInfo)) (h : string) (lr : Z) :
  (h, lr) ∈ slot_keys d
  <-> exists slots y,
        (h, slots) ∈ odict.items d /\ y ∈ slots /\ local_rank y = lr.
Proof.
  unfold slot_keys. rewrite list_elem_of_bind. split.
  - intros ([h' slots] & Hin & Hitem). simpl in Hin.
    apply list_elem_of_fmap in Hin as (y & [= -> ->] & Hy). eauto.
  - intros (slots & y & Hitem & Hy & <-). exists (h, slots).
    split; [| done]. apply list_elem_of_fmap. eauto.
Qed.

(** C7: in every activation that returns, the registry is reset with the
    new [world_size] on the state in which the new assignment has already
    been installed (and pushed to the rendezvous service), the supervisor
    threads are started only after that reset, and the slots for which a
    thread is started are exactly the slots of the new assignment for which
    the previous assignment has no slot with the same local rank in the
    list of the same host. *)
Theorem activate_hosts_resets_then_spawns
  (min_np now : Z) (wakeups : list wakeup)
  (s s_end : driver) :
  _activate_hosts min_np now wakeups s = (Ok (), s_end) ->
  exists current_hosts s_wait new_list spawned,
    wait_for_available_hosts min_np now wakeups
      (logging INFO ("wait for available hosts: " +:+ pretty min_np) s)
    = (Ok current_hosts, s_wait)
    /\ get_host_assignments (host_list_of current_hosts)
                            (_min_np s_wait) (_max_np s_wait) = Ok new_list
    /\ let previous := _host_assignments s_wait in
       let size := Z.of_nat (length new_list) in
       let s_reset :=
         set_worker_registry (registry_reset size (_worker_registry s_wait))
           (log_call (Call_registry_reset size) (installed new_list s_wait)) in
       _start_worker_processes spawned s_reset = (Ok (), s_end)
       /\ calls s_end
          = calls s_wait
            ++ [Call_httpd_init new_list; Call_registry_reset size]
            ++ (Call_thread_start <$> spawned)
       /\ _host_assignments s_end = group_by_host new_list
       /\ _world_size s_end = size
       /\ (forall x, x ∈ spawned
             <-> x ∈ new_list
                 /\ ~ exists slots y,
                       (hostname x, slots) ∈ odict.items previous
                       /\ y ∈ slots /\ local_rank y = local_rank x)
       /\ (forall x, x ∈ spawned
             <-> exists h slots,
                   odict.get h (_host_assignments s_end) = Some slots
                   /\ x ∈ slots
                   /\ ~ exists old y,
                         (h, old) ∈ odict.items previous
                         /\ y ∈ old /\ local_rank y = local_rank x).
Proof.
  rewrite activate_hosts_run.
  destruct (wait_for_available_hosts _ _ _ _) as [[ch | e |] s1]; [| done ..].
  rewrite update_host_assignments_run.
  destruct (get_host_assignments _ _ _) as [l | e |] eqn:Hl; [| done ..].
  destruct (_ && _); [done |]. intros Hspawn.
  exists ch, s1, l,
    (pending_slots_of (group_by_host l)
       (list_to_set (slot_keys (_host_assignments s1)))).
  split; [done |]. split; [done |]. cbv zeta.
  split; [exact Hspawn |].
  match type of Hspawn with
  | _start_worker_processes ?p ?s0 = _ =>
      destruct (start_worker_processes_run p s0) as (s' & Hrun & Hcalls);
      pose proof (start_worker_processes_keeps _host_assignments p
                    (fun _ _ => eq_refl) (fun _ _ => eq_refl)
                    (fun _ _ => eq_refl) (fun _ _ => eq_refl) s0) as Hha;
      pose proof (start_worker_processes_keeps _world_size p
                    (fun _ _ => eq_refl) (fun _ _ => eq_refl)
                    (fun _ _ => eq_refl) (fun _ _ => eq_refl) s0) as Hws
  end.
  rewrite Hspawn in Hrun, Hha, Hws. injection Hrun as <-. simpl in Hha, Hws.
  split; [rewrite Hcalls; simpl; by rewrite <- !app_assoc |].
  split; [done |]. split; [done |]. split.
  - intros x.
    by rewrite elem_of_pending_slots_of, elem_of_list_to_set, elem_of_slot_keys.
  - intros x. rewrite elem_of_pending_slots_of, Hha, elem_of_list_to_set.
    split.
    + intros [Hx Hnew]. exists (hostname x), (slots_on (hostname x) l).
      split; [by apply get_group_by_host_elem |].
      split; [by apply list_elem_of_filter |].
      by rewrite <- elem_of_slot_keys.
    + intros (h & slots & Hget & Hx & Hnew).
      apply get_group_by_host_Some in Hget as ->.
      apply list_elem_of_filter in Hx as [-> Hx].
      by rewrite elem_of_slot_keys.
Qed.

(** *** Worker exits *)

Example slot_name_example :
  slot_name (mk_SlotInfo "h1" 3 1 1 4 2 2) = "h1[1]"%string.
Proof. reflexivity. Qed.

(** C2: [_handle_worker_exit] on a slot without rank assignment returns
    without any call into the registry and without touching [Results].
    Otherwise it reports to the registry, through [record_success] exactly
    when [exit_code] is 0 and through [record_failure] otherwise, and when
    the registry returns a round id it adds [(exit_code, timestamp)] under
    the key made of the hostname, an opening bracket, the local rank in
    decimal and a closing bracket, if and only if [finished()] holds and
    the round id equals [last_rendezvous()]: the key then holds the entry
    it held before, else [(exit_code, timestamp)], and no other key has
    changed; in the other case nothing more changes. *)
Theorem handle_worker_exit_reports_and_publishes
  (slot_info : SlotInfo) (exit_code timestamp : Z) (s : driver) :
  let host := hostname slot_info in
  let slot := local_rank slot_info in
  let key := host +:+ "[" +:+ pretty slot +:+ "]" in
  (has_rank_assignment host slot s = false ->
   exists s', _handle_worker_exit slot_info exit_code timestamp s = (Ok (), s')
              /\ calls s' = calls s
              /\ _results s' = _results s
              /\ _worker_registry s' = _worker_registry s)
  /\ (has_rank_assignment host slot s = true ->
      exists reported,
        reported
        = (if bool_decide (exit_code = 0)
           then registry_record_success host slot
                  (log_call (Call_record_success host slot) s)
           else registry_record_failure host slot
                  (log_call (Call_record_failure host slot) s))
        /\ match reported with
           | (Ok rendezvous_id, s1) =>
               exists s',
                 _handle_worker_exit slot_info exit_code timestamp s
                 = (Ok (), s')
                 /\ calls s' = calls s1
                 /\ (_shutdown s1 = true
                     /\ registry_last_rendezvous (_worker_registry s1)
                        = rendezvous_id ->
                     _results s'
                     = Results.add_result key (exit_code, timestamp)
                         (_results s1)
                     /\ Results._results (_results s') !! key
                        = Some (default (exit_code, timestamp)
                                  (Results._results (_results s1) !! key))
                     /\ (forall other, other <> key ->
                           Results._results (_results s') !! other
                           = Results._results (_results s1) !! other)
                     /\ Results._worker_threads (_results s')
                        = Results._worker_threads (_results s1))
                 /\ (~ (_shutdown s1 = true
                        /\ registry_last_rendezvous (_worker_registry s1)
                           = rendezvous_id) ->
                     s' = s1)
           | (Raise e, s1) =>
               _handle_worker_exit slot_info exit_code timestamp s
               = (Raise e, s1)
           | (Pending, s1) =>
               _handle_worker_exit slot_info exit_code timestamp s
               = (Pending, s1)
           end).
Proof.
  cbv zeta.
  assert (Hadd : forall (key : string) (v : Z * Z) (r : Results.t),
             Results._results (Results.add_result key v r) !! key
             = Some (default v (Results._results r !! key))
             /\ (forall other, other <> key ->
                   Results._results (Results.add_result key v r) !! other
                   = Results._results r !! other)
             /\ Results._worker_threads (Results.add_result key v r)
                = Results._worker_threads r).
  { intros key v r. unfold Results.add_result.
    destruct (Results._results r !! key) as [v0 |] eqn:Hkey.
    - rewrite bool_decide_eq_true_2 by eauto. by rewrite Hkey.
    - rewrite bool_decide_eq_false_2 by (by intros [? ?]). simpl.
      split; [by rewrite lookup_insert_eq |]. split; [| done].
      intros other Hne. by rewrite lookup_insert_ne. }
  unfold _handle_worker_exit. rewrite run_bind, run_gets.
  cbn beta iota. split; intros ->; simpl.
  - eexists. split; [reflexivity |]. done.
  - eexists. split; [reflexivity |]. rewrite run_bind.
    destruct (bool_decide (exit_code = 0)); rewrite run_bind, run_modify;
      cbn beta iota;
      [destruct (registry_record_success _ _ _) as [[rendezvous_id | e |] s1]
      |destruct (registry_record_failure _ _ _) as [[rendezvous_id | e |] s1]];
      [| done | done | | done | done].
    all: unfold finished; run;
      destruct (_shutdown s1) eqn:Hfin; simpl;
      [case_bool_decide as Hlast; simpl |];
      run; eexists; (split; [reflexivity |]); simpl;
      (split; [done |]); split.
    all: try (intros _; split; [done |]; apply Hadd).
    all: try (intros Hno; exfalso; by apply Hno).
    all: try (by intros [? ?]).
    all: try done.
Qed.

(** *** Waiting for hosts *)

Lemma has_available_slots_true slots min_np :
  _has_available_slots slots min_np = true <-> min_np <= slots.
Proof. unfold _has_available_slots. apply Z.geb_le. Qed.

Lemma has_available_slots_false slots min_np :
  _has_available_slots slots min_np = false <-> slots < min_np.
Proof.
  rewrite <- not_true_iff_false, has_available_slots_true. lia.
Qed.

Lemma wait_loop_returns tmout min_np (wakeups : list wakeup) (s s' : driver) hosts :
  wait_loop tmout min_np wakeups s = (Ok hosts, s') ->
  exists k : nat,
    (k <= length wakeups)%nat
    /\ s' = apply_wakeups (take k wakeups) s
    /\ hosts = discovery.current_hosts (_host_manager s')
    /\ min_np <= available_slots s'
    /\ (forall j : nat, (j < k)%nat ->
          available_slots (apply_wakeups (take j wakeups) s) < min_np)
    /\ (forall (j : nat) w, (j < k)%nat -> wakeups !! j = Some w ->
          timeout.timed_out (clock w) tmout = false).
Proof.
  revert s. induction wakeups as [| w wakeups IH]; intros s; simpl.
  - destruct (_has_available_slots _ _) eqn:Hhas; [| done].
    intros [= <- <-]. exists 0%nat.
    apply has_available_slots_true in Hhas.
    repeat split; [done | done | intros; lia | intros; lia].
  - destruct (_has_available_slots _ _) eqn:Hhas.
    + intros [= <- <-]. exists 0%nat.
      apply has_available_slots_true in Hhas.
      repeat split; [lia | done | intros; lia | intros; lia].
    + unfold timeout.check_time_out_for.
      destruct (timeout.timed_out (clock w) tmout) eqn:Hto; [done |].
      intros (k & Hk & -> & -> & Hslots & Hbefore & Hclock)%IH.
      exists (S k). apply has_available_slots_false in Hhas.
      repeat split; [simpl; lia | done | ..].
      * intros [| j] Hj; [done |]. apply Hbefore. lia.
      * intros [| j] w' Hj; simpl; [by intros [= <-] |].
        apply Hclock. lia.
Qed.

Lemma wait_loop_times_out tmout min_np (wakeups : list wakeup) (s : driver)
  (k : nat) w :
  wakeups !! k = Some w ->
  timeout.timed_out (clock w) tmout = true ->
  (forall (j : nat) w', (j < k)%nat -> wakeups !! j = Some w' ->
     timeout.timed_out (clock w') tmout = false) ->
  (forall j : nat, (j <= k)%nat ->
     available_slots (apply_wakeups (take j wakeups) s) < min_np) ->
  wait_loop tmout min_np wakeups s
  = (Raise (mk_exn Exception
              ("Timed out waiting for "
               +:+ "minimum number of hosts to become available"
               +:+ timeout._message tmout)),
     apply_wakeups (take (S k) wakeups) s).
Proof.
  revert wakeups s.
  induction k as [| k IH]; intros [| w0 wakeups] s Hw Hto Hearlier Hslots;
    try done; simpl in Hw.
  - injection Hw as ->. simpl.
    rewrite (proj2 (has_available_slots_false _ _))
      by (apply (Hslots 0%nat); lia).
    unfold timeout.check_time_out_for. by rewrite Hto.
  - simpl.
    rewrite (proj2 (has_available_slots_false _ _))
      by (apply (Hslots 0%nat); lia).
    unfold timeout.check_time_out_for.
    rewrite (Hearlier 0%nat w0) by (done || lia).
    apply IH; [done | done | |].
    + intros j w' Hj Hw'. apply (Hearlier (S j)); [lia | done].
    + intros j Hj. apply (Hslots (S j)). lia.
Qed.

Lemma wait_loop_raises tmout min_np (wakeups : list wakeup) (s s' : driver) e :
  wait_loop tmout min_np wakeups s = (Raise e, s') ->
  e = mk_exn Exception
        ("Timed out waiting for "
         +:+ "minimum number of hosts to become available"
         +:+ timeout._message tmout).
Proof.
  revert s. induction wakeups as [| w wakeups IH]; intros s; simpl.
  - by destruct (_has_available_slots _ _).
  - destruct (_has_available_slots _ _); [done |].
    unfold timeout.check_time_out_for.
    destruct (timeout.timed_out (clock w) tmout); [by intros [= <- _] |].
    apply IH.
Qed.

(** C4: [wait_for_available_hosts(min_np)] returns a snapshot only if that
    snapshot is the current one and offers at least [min_np] slots, and
    then the driver is as the other threads left it during the wake-ups
    that were needed: the call itself wrote nothing.  If the clock passes
    the deadline at some wake-up and at no check up to that one enough
    slots were available, the call raises the timeout error instead of
    returning; and it raises no other error. *)
Theorem wait_for_available_hosts_returns_or_times_out
  (min_np now : Z) (wakeups : list wakeup) (s : driver) :
  let deadline := now + _start_timeout s in
  (forall hosts s',
     wait_for_available_hosts min_np now wakeups s = (Ok hosts, s') ->
     exists k : nat,
       (k <= length wakeups)%nat
       /\ s' = apply_wakeups (take k wakeups) s
       /\ hosts = discovery.current_hosts (_host_manager s')
       /\ min_np <= discovery.count_available_slots hosts
       /\ (forall (j : nat) w, (j < k)%nat -> wakeups !! j = Some w ->
             clock w <= deadline))
  /\ (forall (k : nat) w,
        wakeups !! k = Some w ->
        deadline < clock w ->
        (forall (j : nat) w', (j < k)%nat -> wakeups !! j = Some w' ->
           clock w' <= deadline) ->
        (forall j : nat, (j <= k)%nat ->
           available_slots (apply_wakeups (take j wakeups) s) < min_np) ->
        wait_for_available_hosts min_np now wakeups s
        = (Raise (start_timeout_error min_np),
           apply_wakeups (take (S k) wakeups) s))
  /\ (forall e s',
        wait_for_available_hosts min_np now wakeups s = (Raise e, s') ->
        e = start_timeout_error min_np).
Proof.
  cbv zeta. unfold wait_for_available_hosts. split; [| split].
  - intros hosts s' (k & Hk & -> & -> & Hslots & _ & Hclock)%wait_loop_returns.
    exists k. repeat split; [done | done |].
    intros j w Hj Hw. specialize (Hclock j w Hj Hw).
    unfold timeout.timed_out, timeout.init in Hclock. simpl in Hclock.
    apply bool_decide_eq_false in Hclock. lia.
  - intros k w Hw Hlate Hearlier Hslots.
    erewrite wait_loop_times_out; [done | exact Hw | | | done].
    + unfold timeout.timed_out, timeout.init. simpl.
      by apply bool_decide_eq_true.
    + intros j w' Hj Hw'. specialize (Hearlier j w' Hj Hw').
      unfold timeout.timed_out, timeout.init. simpl.
      apply bool_decide_eq_false. lia.
  - intros e s' ->%wait_loop_raises. done.
Qed.

(** *** Host-change notification *)

(** [_notify_workers_host_changes], one case per way through it. *)
Lemma notify_workers_host_changes_run current_hosts now (s : driver) :
  _notify_workers_host_changes current_hosts now s
  = match get_host_assignments (host_list_of current_hosts)
                               (_min_np s) (_max_np s) with
    | Raise e => (Raise e, s)
    | Pending => (Pending, s)
    | Ok candidate =>
        if odict.eqb (group_by_host candidate) (_host_assignments s)
        then (Ok (), logging DEBUG "no host changes, skipping notifications" s)
        else
          match _rank_assignments s !! 0 with
          | None =>
              (Ok (),
               logging DEBUG "no coordinator info, skipping notifications" s)
          | Some coordinator =>
              match _worker_clients s
                    !! (hostname coordinator, local_rank coordinator) with
              | None =>
                  (Ok (),
                   logging DEBUG
                     "no coordinator client, skipping notifications" s)
              | Some client =>
                  let s1 := log_call (Call_notify_hosts_updated client now) s in
                  match client_notify_hosts_updated client now with
                  | Ok _ => (Ok (), s1)
                  | Raise _ =>
                      (Ok (),
                       if bool_decide (_verbose s >= 2)
                       then logging ERROR
                              ("failed to notify " +:+ slot_name coordinator
                               +:+ " of host updates") s1
                       else s1)
                  | Pending => (Pending, s1)
                  end
              end
          end
    end.
Proof.
  unfold _notify_workers_host_changes.
  rewrite run_bind, get_host_assignments_run.
  destruct (get_host_assignments _ _ _) as [l | e |]; [| done | done].
  cbn beta iota. rewrite run_bind, run_gets. cbn beta iota.
  destruct (odict.eqb _ _); [done |].
  rewrite run_bind, run_gets. cbn beta iota.
  destruct (_rank_assignments s !! 0) as [c |]; [| done].
  rewrite run_bind, run_gets. cbn beta iota.
  destruct (_worker_clients s !! _) as [client |]; [| done].
  unfold try_except. rewrite run_bind, run_modify. cbn beta iota.
  unfold lift.
  destruct (client_notify_hosts_updated client now) as [[] | e |];
    [done | | done].
  rewrite run_bind, run_gets. cbn beta iota.
  by destruct (bool_decide _).
Qed.

Lemma notify_skipped_when_assignment_unchanged
  current_hosts now candidate (s : driver) :
  get_host_assignments (host_list_of current_hosts) (_min_np s) (_max_np s)
  = Ok candidate ->
  odict.wf (_host_assignments s) ->
  (forall host, odict.get host (group_by_host candidate)
                = odict.get host (_host_assignments s)) ->
  _notify_workers_host_changes current_hosts now s
  = (Ok (), logging DEBUG "no host changes, skipping notifications" s).
Proof.
  intros Hcand Hwf Hsame. rewrite notify_workers_host_changes_run, Hcand.
  by rewrite (proj2 (eqb_true_iff _ _ (group_by_host_wf candidate) Hwf)).
Qed.

(** C6, in the form the code satisfies: [_notify_workers_host_changes]
    makes at most one [notify_hosts_updated] call, and only on the client
    registered for the slot of world rank 0.  It computes the candidate
    assignment first: an error of the slot assigner leaves the method as it
    is, with the driver unchanged, whether or not a slot has world rank 0
    and a client is registered.  Once the candidate is computed, the method
    returns without any call when the candidate equals the current
    assignment, when no slot has world rank 0, or when no client is
    registered for the coordinator; an exception raised by the call is
    swallowed; and the assignment is never installed. *)
Theorem notify_workers_host_changes_coordinator_only
  (current_hosts : discovery.DiscoveredHosts) (now : Z) (s : driver) :
  let r := (_notify_workers_host_changes current_hosts now s).1 in
  let s' := (_notify_workers_host_changes current_hosts now s).2 in
  (calls s' = calls s
   \/ exists coordinator client,
        _rank_assignments s !! 0 = Some coordinator
        /\ _worker_clients s !! (hostname coordinator, local_rank coordinator)
           = Some client
        /\ calls s' = calls s ++ [Call_notify_hosts_updated client now])
  /\ (forall candidate,
        get_host_assignments (host_list_of current_hosts)
                             (_min_np s) (_max_np s) = Ok candidate ->
        odict.eqb (group_by_host candidate) (_host_assignments s) = true
        \/ _rank_assignments s !! 0 = None
        \/ (exists coordinator,
              _rank_assignments s !! 0 = Some coordinator
              /\ _worker_clients s
                 !! (hostname coordinator, local_rank coordinator) = None) ->
        r = Ok () /\ calls s' = calls s)
  /\ (forall e,
        get_host_assignments (host_list_of current_hosts)
                             (_min_np s) (_max_np s) = Raise e ->
        r = Raise e /\ s' = s)
  /\ (forall candidate coordinator client e,
        get_host_assignments (host_list_of current_hosts)
                             (_min_np s) (_max_np s) = Ok candidate ->
        odict.eqb (group_by_host candidate) (_host_assignments s) = false ->
        _rank_assignments s !! 0 = Some coordinator ->
        _worker_clients s !! (hostname coordinator, local_rank coordinator)
        = Some client ->
        client_notify_hosts_updated client now = Raise e ->
        r = Ok ()
        /\ calls s' = calls s ++ [Call_notify_hosts_updated client now])
  /\ _host_assignments s' = _host_assignments s
  /\ _rank_assignments s' = _rank_assignments s
  /\ _world_size s' = _world_size s.
Proof.
  cbv zeta. rewrite notify_workers_host_changes_run.
  split; [| split; [| split; [by intros e -> | split]]].
  - destruct (get_host_assignments _ _ _) as [l | e |]; [| by left ..].
    destruct (odict.eqb _ _); [by left |].
    destruct (_rank_assignments s !! 0) as [c |]; [| by left].
    destruct (_worker_clients s !! _) as [client |] eqn:Hclient; [| by left].
    right. exists c, client. split; [done |]. split; [done |].
    destruct (client_notify_hosts_updated client now) as [[] | e |];
      [done | | done].
    by destruct (bool_decide _).
  - intros l -> [-> | [-> | (c & -> & ->)]]; [done | |];
      by destruct (odict.eqb _ _).
  - intros l c client e -> -> -> -> ->. by destruct (bool_decide _).
  - destruct (get_host_assignments _ _ _) as [l | e |]; [| done ..].
    destruct (odict.eqb _ _); [done |].
    destruct (_rank_assignments s !! 0) as [c |]; [| done].
    destruct (_worker_clients s !! _) as [client |]; [| done].
    destruct (client_notify_hosts_updated client now) as [[] | e |];
      [done | | done].
    by destruct (bool_decide _).
Qed.

(** *** The discovery thread *)

Lemma discover_once_provider_raises (tk : tick) (e : exn) (s : driver) :
  found tk = Raise e -> discover_once tk s = (Raise e, s).
Proof.
  intros Hfound. unfold discover_once, host_manager_update.
  rewrite run_bind, Hfound. simpl. by destruct s.
Qed.

Lemma discover_loop_never_dies_of_runtime_errors (ticks : list tick) (s : driver) :
  Forall (fun tk => forall s0 e s1,
            discover_once tk s0 = (Raise e, s1) ->
            isinstance_RuntimeError e = true) ticks ->
  forall e, (discover_loop false ticks s).1 <> Died e.
Proof.
  intros Hticks. revert s.
  induction Hticks as [| tk ticks Htk _ IH]; intros s e; simpl.
  - by destruct (_shutdown s).
  - destruct (_shutdown s); [done |].
    destruct (discover_once tk s) as [[[] | e0 |] s1] eqn:Honce; [apply IH | | done].
    rewrite (Htk s e0 s1 Honce). apply IH.
Qed.

(** C3, in the form the code satisfies: an error that leaves the [try] block on the very
    first turn of the discovery loop ends the thread with that error.  On
    every later turn a [RuntimeError] (or an instance of a subclass) is
    caught: its text is logged as a warning and the loop goes on to the
    next turn; when the discovery provider raised it, the host manager and
    the rest of the driver are as before the turn.  An exception of any
    other class is not caught and ends the thread, on the first turn and on
    every later one; a loop whose turns raise nothing but [RuntimeError]s
    after the first turn does not die. *)
Theorem discover_hosts_error_policy (tk : tick) (rest : list tick) (s : driver) :
  (forall e s1,
     _shutdown s = false -> discover_once tk s = (Raise e, s1) ->
     _discover_hosts (tk :: rest) s
     = (Died e, set_discovery_thread_alive false s1))
  /\ (forall e s1,
        _shutdown s = false -> discover_once tk s = (Raise e, s1) ->
        isinstance_RuntimeError e = true ->
        discover_loop false (tk :: rest) s
        = discover_loop false rest
            (tick_others tk (logging WARNING (exn_msg e) s1)))
  /\ (forall e, found tk = Raise e ->
        discover_once tk s = (Raise e, s)
        /\ _host_manager (discover_once tk s).2 = _host_manager s)
  /\ (forall e s1 first_update,
        _shutdown s = false -> discover_once tk s = (Raise e, s1) ->
        isinstance_RuntimeError e = false ->
        discover_loop first_update (tk :: rest) s
        = (Died e, set_discovery_thread_alive false s1))
  /\ (Forall (fun tk => forall s0 e s1,
                discover_once tk s0 = (Raise e, s1) ->
                isinstance_RuntimeError e = true) (tk :: rest) ->
      forall e, (discover_loop false (tk :: rest) s).1 <> Died e).
Proof.
  split; [| split; [| split; [| split]]].
  - intros e s1 Hrun Honce. unfold _discover_hosts. simpl.
    rewrite Hrun, Honce. by destruct (isinstance_RuntimeError e).
  - intros e s1 Hrun Honce Hre. simpl. by rewrite Hrun, Honce, Hre.
  - intros e Hfound. by rewrite (discover_once_provider_raises tk e s).
  - intros e s1 first_update Hrun Honce Hre. simpl.
    by rewrite Hrun, Honce, Hre.
  - apply discover_loop_never_dies_of_runtime_errors.
Qed.

(** *** More on grouping by host *)

Lemma keys_append_slot (d : odict.t (list SlotInfo)) (x : SlotInfo) :
  odict.default_factory d = Some [] ->
  odict.keys (append_slot d x)
  = if bool_decide (hostname x ∈ odict.keys d)
    then odict.keys d else odict.keys d ++ [hostname x].
Proof.
  intros Hf. unfold append_slot, odict.getitem, odict.keys. rewrite Hf.
  destruct (odict.get (hostname x) d) as [v |] eqn:Hx; simpl.
  - rewrite assoc_set_keys. unfold odict.get in Hx. rewrite Hx.
    rewrite bool_decide_eq_true_2; [done |].
    apply assoc_is_Some. rewrite Hx. eauto.
  - rewrite assoc_set_keys, assoc_set_eq, assoc_set_keys.
    unfold odict.get in Hx. rewrite Hx.
    rewrite bool_decide_eq_false_2; [done |]. by apply assoc_None.
Qed.

Lemma keys_group_by_host (l : list SlotInfo) :
  odict.keys (group_by_host l) = first_seen (hostname <$> l).
Proof.
  unfold group_by_host, first_seen.
  assert (Hgen : forall d : odict.t (list SlotInfo),
             odict.default_factory d = Some [] ->
             odict.keys (foldl append_slot d l)
             = foldl (fun seen name =>
                        if bool_decide (name ∈ seen) then seen
                        else seen ++ [name])
                     (odict.keys d) (hostname <$> l)).
  { induction l as [| x l IH]; intros d Hf; [done |].
    rewrite fmap_cons. cbn [foldl]. rewrite <- keys_append_slot by done.
    apply IH. by rewrite append_slot_factory. }
  by rewrite Hgen.
Qed.

Lemma items_from_keys (d : odict.t (list SlotInfo)) :
  odict.wf d ->
  odict.items d
  = (fun k => (k, default [] (odict.get k d))) <$> odict.keys d.
Proof.
  unfold odict.wf, odict.keys, odict.get.
  induction (odict.items d) as [| [k v] l IH]; intros Hnd; [done |].
  rewrite fmap_cons in Hnd. apply NoDup_cons in Hnd as [Hk Hnd].
  rewrite !fmap_cons. cbn [fst odict.assoc]. rewrite decide_True by done.
  f_equal. rewrite (IH Hnd) at 1. apply list_fmap_ext.
  intros i k' Hk'. rewrite decide_False; [done |].
  intros ->. apply Hk. by eapply list_elem_of_lookup_2.
Qed.

Lemma items_group_by_host (l : list SlotInfo) :
  odict.items (group_by_host l)
  = (fun h => (h, slots_on h l)) <$> first_seen (hostname <$> l).
Proof.
  rewrite items_from_keys by apply group_by_host_wf.
  rewrite keys_group_by_host. apply list_fmap_ext. intros i h Hh.
  rewrite get_group_by_host. by destruct (slots_on h l).
Qed.

Lemma assoc_set_values_Some (k : string) (v v' : list SlotInfo)
  (l : list (string * list SlotInfo)) :
  odict.assoc k l = Some v ->
  odict.assoc_set k (v ++ v') l ≫= snd ≡ₚ (l ≫= snd) ++ v'.
Proof.
  induction l as [| [k0 v0] l IH]; [done |]. cbn [odict.assoc odict.assoc_set].
  destruct (decide (k = k0)) as [-> | Hne].
  - intros [= ->]. rewrite !bind_cons. simpl.
    rewrite <- !app_assoc. apply Permutation_app_head, Permutation_app_comm.
  - intros Hk. rewrite !bind_cons, (IH Hk). by rewrite app_assoc.
Qed.

Lemma assoc_set_values_None (k : string) (v' : list SlotInfo)
  (l : list (string * list SlotInfo)) :
  odict.assoc k l = None ->
  odict.assoc_set k v' l ≫= snd = (l ≫= snd) ++ v'.
Proof.
  induction l as [| [k0 v0] l IH]; cbn [odict.assoc odict.assoc_set].
  - intros _. simpl. by rewrite app_nil_r.
  - destruct (decide (k = k0)) as [-> | Hne]; [done |].
    intros Hk. by rewrite !bind_cons, (IH Hk), app_assoc.
Qed.

Lemma values_append_slot (d : odict.t (list SlotInfo)) (x : SlotInfo) :
  odict.default_factory d = Some [] ->
  odict.items (append_slot d x) ≫= snd ≡ₚ (odict.items d ≫= snd) ++ [x].
Proof.
  intros Hf. unfold append_slot, odict.getitem. rewrite Hf.
  destruct (odict.get (hostname x) d) as [v |] eqn:Hx; simpl.
  - by apply assoc_set_values_Some.
  - rewrite (assoc_set_values_Some _ [] [x]) by apply assoc_set_eq.
    rewrite assoc_set_values_None by done. by rewrite app_nil_r.
Qed.

Lemma values_group_by_host (l : list SlotInfo) :
  odict.items (group_by_host l) ≫= snd ≡ₚ l.
Proof.
  unfold group_by_host.
  assert (Hgen : forall d : odict.t (list SlotInfo),
             odict.default_factory d = Some [] ->
             odict.items (foldl append_slot d l) ≫= snd
             ≡ₚ (odict.items d ≫= snd) ++ l).
  { induction l as [| x l IH]; intros d Hf; simpl; [by rewrite app_nil_r |].
    rewrite IH by by rewrite append_slot_factory.
    rewrite values_append_slot by done. by rewrite <- app_assoc. }
  by rewrite Hgen.
Qed.

(** X2: [_get_host_assignments] only reads the driver.  When the assigner
    returns a list, the dictionary it builds has one key per host name of
    the list, in the order in which the hosts first appear; under each host
    it holds exactly the slots of the list that sit on that host, in list
    order; so the lists together hold the slots of the list, each as often
    as the list does.  When the assigner raises, the exception comes out
    unchanged. *)
Theorem get_host_assignments_groups_by_host
  (current_hosts : discovery.DiscoveredHosts) (s : driver) :
  match get_host_assignments (host_list_of current_hosts)
                             (_min_np s) (_max_np s) with
  | Ok l =>
      exists d,
        _get_host_assignments current_hosts s = (Ok (d, l), s)
        /\ odict.keys d = first_seen (hostname <$> l)
        /\ odict.items d
           = (fun h => (h, slots_on h l)) <$> first_seen (hostname <$> l)
        /\ (forall h, odict.get h d
                      = match slots_on h l with
                        | [] => None
                        | on_h => Some on_h
                        end)
        /\ odict.items d ≫= snd ≡ₚ l
  | Raise e => _get_host_assignments current_hosts s = (Raise e, s)
  | Pending => _get_host_assignments current_hosts s = (Pending, s)
  end.
Proof.
  rewrite get_host_assignments_run.
  destruct (get_host_assignments _ _ _) as [l | e |]; [| done | done].
  exists (group_by_host l). split; [done |].
  split; [apply keys_group_by_host |].
  split; [apply items_group_by_host |].
  split; [intros h; apply get_group_by_host | apply values_group_by_host].
Qed.

(** *** More on installing an assignment *)

Lemma installed_fields (l : list SlotInfo) (s : driver) :
  _host_assignments (installed l s) = group_by_host l
  /\ _world_size (installed l s) = Z.of_nat (length l)
  /\ _rank_assignments (installed l s) = build_rank_assignments l
  /\ calls (installed l s) = calls s ++ [Call_httpd_init l]
  /\ _worker_registry (installed l s) = _worker_registry s
  /\ _results (installed l s) = _results s
  /\ _host_manager (installed l s) = _host_manager s
  /\ _min_np (installed l s) = _min_np s
  /\ _max_np (installed l s) = _max_np s.
Proof. done. Qed.

Lemma keys_disjoint_self {V} `{EqDecision V} (d : odict.t V) :
  odict.len d > 0 -> odict.keys_disjoint d d = false.
Proof.
  intros Hlen. apply not_true_iff_false. intros Hdis.
  unfold odict.len in Hlen. destruct (odict.items d) as [| [k v] l] eqn:Hitems;
    [simpl in Hlen; lia |].
  assert (Hk : k ∈ odict.keys d) by (unfold odict.keys; rewrite Hitems; left).
  by apply (proj1 (keys_disjoint_true d d) Hdis k).
Qed.

Lemma bind_all_nil {A B} (f : A -> list B) (l : list A) :
  (forall x, x ∈ l -> f x = []) -> l ≫= f = [].
Proof.
  induction l as [| x l IH]; intros Hall; [done |].
  rewrite bind_cons, (Hall x) by left. apply IH. intros y Hy. apply Hall. by right.
Qed.

Lemma pending_slots_of_own_keys (d : odict.t (list SlotInfo)) :
  pending_slots_of d (list_to_set (slot_keys d)) = [].
Proof.
  unfold pending_slots_of. apply bind_all_nil. intros hs Hhs.
  apply filter_none. intros x Hx Hnew. apply Hnew.
  apply elem_of_list_to_set. unfold slot_keys. apply list_elem_of_bind.
  exists hs. split; [| done]. apply list_elem_of_fmap. eauto.
Qed.

Lemma pending_slots_of_nothing_active (d : odict.t (list SlotInfo)) :
  pending_slots_of d ∅ = odict.items d ≫= snd.
Proof.
  unfold pending_slots_of. apply list_bind_ext; [| done]. intros hs.
  apply filter_all. intros x _. apply not_elem_of_empty.
Qed.

(** X3: when the assigner returns a list and the previous assignment is
    empty or has a host on which a slot of the list sits,
    [_update_host_assignments] does not raise: it installs the grouped
    list, sets [world_size] to the length of the list, pushes the list to
    the rendezvous service once, and returns exactly the slots of the list
    for which the previous assignment has no slot with the same local rank
    in the list of the same host. *)
Theorem update_host_assignments_succeeds_when_a_host_survives
  (current_hosts : discovery.DiscoveredHosts) (new_list : list SlotInfo)
  (s : driver) :
  get_host_assignments (host_list_of current_hosts) (_min_np s) (_max_np s)
  = Ok new_list ->
  odict.len (_host_assignments s) = 0
  \/ Exists (fun slot_info =>
               hostname slot_info ∈ odict.keys (_host_assignments s))
            new_list ->
  exists pending s',
    _update_host_assignments current_hosts s = (Ok pending, s')
    /\ _host_assignments s' = group_by_host new_list
    /\ _world_size s' = Z.of_nat (length new_list)
    /\ calls s' = calls s ++ [Call_httpd_init new_list]
    /\ (forall x, x ∈ pending
          <-> x ∈ new_list
              /\ ~ exists slots y,
                    (hostname x, slots) ∈ odict.items (_host_assignments s)
                    /\ y ∈ slots /\ local_rank y = local_rank x).
Proof.
  intros Hl Hsurvives. rewrite update_host_assignments_run, Hl.
  replace (_ && _) with false.
  - eexists _, _. split; [reflexivity |].
    split; [done |]. split; [done |]. split; [done |].
    intros x.
    by rewrite elem_of_pending_slots_of, elem_of_list_to_set, elem_of_slot_keys.
  - symmetry. apply andb_false_iff.
    destruct Hsurvives as [Hempty | Hex].
    + left. apply bool_decide_eq_false. lia.
    + right. apply not_true_iff_false. intros Hdis.
      apply Exists_exists in Hex as (x & Hx & Hprev).
      apply (proj1 (keys_disjoint_true _ _) Hdis _ Hprev).
      apply elem_of_keys_group_by_host. eauto.
Qed.

(** X4: on the first activation, when nothing is assigned yet, every slot
    the assigner returned is pending, each as often as the list holds it:
    the pending slots are the hosts in first-seen order, each with its slots
    in list order. *)
Theorem first_update_starts_every_slot
  (current_hosts : discovery.DiscoveredHosts) (new_list : list SlotInfo)
  (s : driver) :
  get_host_assignments (host_list_of current_hosts) (_min_np s) (_max_np s)
  = Ok new_list ->
  odict.items (_host_assignments s) = [] ->
  exists pending s',
    _update_host_assignments current_hosts s = (Ok pending, s')
    /\ pending
       = first_seen (hostname <$> new_list)
           ≫= (fun h => slots_on h new_list)
    /\ pending ≡ₚ new_list.
Proof.
  intros Hl Hempty. rewrite update_host_assignments_run, Hl.
  unfold odict.len. rewrite Hempty. simpl.
  eexists _, _. split; [reflexivity |].
  unfold slot_keys. rewrite Hempty. simpl.
  rewrite pending_slots_of_nothing_active. split.
  - rewrite items_group_by_host.
    generalize (first_seen (hostname <$> new_list)). intros hosts.
    induction hosts as [| h hosts IH]; [done |].
    by rewrite fmap_cons, !bind_cons, IH.
  - apply values_group_by_host.
Qed.

(** X5: running [_update_host_assignments] again on the snapshot it has
    just installed returns no pending slot and leaves the assignment, the
    rank map and [world_size] as they are; its only effect is a second push
    of the same list to the rendezvous service. *)
Theorem update_host_assignments_again_starts_nothing
  (current_hosts : discovery.DiscoveredHosts) (pending : list SlotInfo)
  (s s1 : driver) :
  _update_host_assignments current_hosts s = (Ok pending, s1) ->
  exists new_list,
    get_host_assignments (host_list_of current_hosts) (_min_np s) (_max_np s)
    = Ok new_list
    /\ _update_host_assignments current_hosts s1
       = (Ok [], log_call (Call_httpd_init new_list) s1).
Proof.
  rewrite update_host_assignments_run.
  destruct (get_host_assignments _ _ _) as [l | e |] eqn:Hl; [| done | done].
  destruct (_ && _); [done |]. intros [= _ <-].
  exists l. split; [done |].
  rewrite update_host_assignments_run. simpl. rewrite Hl.
  rewrite pending_slots_of_own_keys.
  destruct (bool_decide (odict.len (group_by_host l) > 0)) eqn:Hlen.
  - apply bool_decide_eq_true in Hlen. by rewrite keys_disjoint_self.
  - done.
Qed.

(** *** Looking slots up *)

Lemma lookup_build_rank_assignments_last (l : list SlotInfo) (r : Z) :
  build_rank_assignments l !! r = last (filter (fun x => rank x = r) l).
Proof.
  unfold build_rank_assignments.
  assert (Hgen : forall m : gmap Z SlotInfo,
             foldl (fun m y => <[rank y := y]> m) m l !! r
             = match last (filter (fun x => rank x = r) l) with
               | Some x => Some x
               | None => m !! r
               end).
  { induction l as [| y l IH]; intros m; [done |].
    cbn [foldl]. rewrite IH, filter_cons.
    destruct (decide (rank y = r)) as [Hy | Hy].
    - rewrite last_cons. destruct (last (filter _ l)); [done |].
      by rewrite Hy, lookup_insert_eq.
    - destruct (last (filter _ l)); [done |]. by rewrite lookup_insert_ne. }
  rewrite Hgen. by destruct (last _).
Qed.

(** X6: after a successful [_update_host_assignments], [rank_assignments]
    holds under each rank the last slot of the assigner's list that carries
    this rank, and nothing under a rank no slot carries; [world_size] is the
    length of the list, whether or not the ranks are distinct. *)
Theorem rank_assignments_keep_last_slot_of_each_rank
  (current_hosts : discovery.DiscoveredHosts)
  (new_list pending : list SlotInfo) (s s' : driver) :
  get_host_assignments (host_list_of current_hosts) (_min_np s) (_max_np s)
  = Ok new_list ->
  _update_host_assignments current_hosts s = (Ok pending, s') ->
  (forall r, _rank_assignments s' !! r
             = last (filter (fun x => rank x = r) new_list))
  /\ _world_size s' = Z.of_nat (length new_list).
Proof.
  intros Hl. rewrite update_host_assignments_run, Hl.
  destruct (_ && _); [done |]. intros [= _ <-]. split; [| done].
  intros r. apply lookup_build_rank_assignments_last.
Qed.

Lemma packing_consistent_index (l : list SlotInfo) (x : SlotInfo) :
  packing_consistent l -> x ∈ l ->
  exists i : nat,
    slots_on (hostname x) l !! i = Some x /\ local_rank x = Z.of_nat i.
Proof.
  intros Hpack Hx.
  assert (Hon : x ∈ slots_on (hostname x) l) by by apply list_elem_of_filter.
  apply list_elem_of_lookup in Hon as [i Hi]. exists i. split; [done |].
  unfold packing_consistent in Hpack. rewrite Forall_forall in Hpack.
  specialize (Hpack x Hx). cbv zeta in Hpack.
  assert (Hi' : (local_rank <$> slots_on (hostname x) l) !! i
                = Some (local_rank x)) by by rewrite list_lookup_fmap, Hi.
  rewrite Hpack, list_lookup_fmap in Hi'.
  destruct (seq 0 (length (slots_on (hostname x) l)) !! i) as [j |] eqn:Hj;
    [| done].
  apply lookup_seq in Hj as [-> _]. by injection Hi' as <-.
Qed.

Lemma set_host_assignments_same (s : driver) :
  set_host_assignments (_host_assignments s) s = s.
Proof. by destruct s. Qed.

Lemma host_assignments_getitem_present (host : string)
  (slots : list SlotInfo) (s : driver) :
  odict.get host (_host_assignments s) = Some slots ->
  host_assignments_getitem host s = (Ok slots, s).
Proof.
  intros Hget. unfold host_assignments_getitem, odict.getitem.
  by rewrite Hget, set_host_assignments_same.
Qed.

Lemma has_rank_assignment_true (host : string) (slot : Z)
  (slots : list SlotInfo) (s : driver) :
  discovery.is_blacklisted host (_host_manager s) = false ->
  odict.get host (_host_assignments s) = Some slots ->
  slot < Z.of_nat (length slots) ->
  has_rank_assignment host slot s = true.
Proof.
  intros Hbl Hget Hlen. unfold has_rank_assignment, odict.contains.
  rewrite Hbl, Hget. rewrite bool_decide_eq_true_2 by eauto.
  by rewrite bool_decide_eq_true_2.
Qed.

(** X7: after a successful [_update_host_assignments] on a list whose local
    ranks follow the packing order, [get_slot_info(host, local_rank)] gives
    back every slot of the list when asked with the slot's own host and
    local rank, as long as the host is not blacklisted, and it leaves the
    driver as it is. *)
Theorem get_slot_info_finds_every_installed_slot
  (current_hosts : discovery.DiscoveredHosts)
  (new_list pending : list SlotInfo) (s s' : driver) (x : SlotInfo) :
  get_host_assignments (host_list_of current_hosts) (_min_np s) (_max_np s)
  = Ok new_list ->
  packing_consistent new_list ->
  _update_host_assignments current_hosts s = (Ok pending, s') ->
  x ∈ new_list ->
  discovery.is_blacklisted (hostname x) (_host_manager s') = false ->
  get_slot_info (hostname x) (local_rank x) s' = (Ok x, s').
Proof.
  intros Hl Hpack Hupdate Hx Hbl.
  destruct (packing_consistent_index new_list x Hpack Hx) as (i & Hi & Hlr).
  assert (Hget : odict.get (hostname x) (_host_assignments s')
                 = Some (slots_on (hostname x) new_list)).
  { revert Hupdate. rewrite update_host_assignments_run, Hl.
    destruct (_ && _); [done |]. intros [= _ <-].
    by apply get_group_by_host_elem. }
  pose proof (lookup_lt_Some _ _ _ Hi) as Hlt.
  unfold get_slot_info. rewrite run_bind, run_gets. cbn beta iota.
  rewrite (has_rank_assignment_true _ _ _ _ Hbl Hget) by lia.
  rewrite run_bind, (host_assignments_getitem_present _ _ _ Hget).
  unfold lift, list_getitem. cbv zeta. rewrite Hlr.
  rewrite (bool_decide_eq_false_2 (Z.of_nat i < 0)) by lia.
  rewrite bool_decide_eq_true_2 by lia.
  by rewrite Nat2Z.id, Hi.
Qed.

(** X8: for a host that is not blacklisted and has a list of slots,
    [get_slot_info] indexes that list the way Python does: a slot from 0 up
    to the length gives the element at that position; a negative slot down
    to minus the length passes the guard and gives the element counted from
    the end; a slot below that passes the guard too and raises
    [IndexError].  The driver is left as it is in all three cases. *)
Theorem get_slot_info_indexes_from_both_ends
  (host : string) (slot : Z) (slots : list SlotInfo) (s : driver) :
  discovery.is_blacklisted host (_host_manager s) = false ->
  odict.get host (_host_assignments s) = Some slots ->
  slot < Z.of_nat (length slots) ->
  let n := Z.of_nat (length slots) in
  (0 <= slot ->
   exists x, slots !! Z.to_nat slot = Some x
             /\ get_slot_info host slot s = (Ok x, s))
  /\ (- n <= slot < 0 ->
      exists x, slots !! Z.to_nat (n + slot) = Some x
                /\ get_slot_info host slot s = (Ok x, s))
  /\ (slot < - n ->
      get_slot_info host slot s
      = (Raise (mk_exn IndexError "list index out of range"), s)).
Proof.
  intros Hbl Hget Hlen. cbv zeta.
  assert (Hrun : get_slot_info host slot s = (list_getitem slots slot, s)).
  { unfold get_slot_info. rewrite run_bind, run_gets. cbn beta iota.
    rewrite (has_rank_assignment_true _ _ _ _ Hbl Hget Hlen).
    by rewrite run_bind, (host_assignments_getitem_present _ _ _ Hget). }
  rewrite Hrun. unfold list_getitem. cbv zeta. split; [| split].
  - intros Hpos. rewrite (bool_decide_eq_false_2 (slot < 0)) by lia.
    rewrite bool_decide_eq_true_2 by lia.
    destruct (lookup_lt_is_Some_2 slots (Z.to_nat slot)) as [x Hx]; [lia |].
    exists x. by rewrite Hx.
  - intros Hneg. rewrite (bool_decide_eq_true_2 (slot < 0)) by lia.
    rewrite bool_decide_eq_true_2 by lia.
    destruct (lookup_lt_is_Some_2 slots
                (Z.to_nat (slot + Z.of_nat (length slots)))) as [x Hx]; [lia |].
    exists x. rewrite Z.add_comm. by rewrite Hx.
  - intros Hlow. rewrite (bool_decide_eq_true_2 (slot < 0)) by lia.
    by rewrite bool_decide_eq_false_2 by lia.
Qed.

(** *** Supervisor threads and failed activations *)

Lemma start_worker_processes_effect (pending_slots : list SlotInfo)
  (s : driver) :
  exists s',
    _start_worker_processes pending_slots s = (Ok (), s')
    /\ Results._worker_threads (_results s')
       = Results._worker_threads (_results s) ++ pending_slots
    /\ Results._results (_results s') = Results._results (_results s)
    /\ discovery.host_events (_host_manager s')
       = list_to_set (hostname <$> pending_slots)
         ∪ discovery.host_events (_host_manager s)
    /\ discovery.current_hosts (_host_manager s')
       = discovery.current_hosts (_host_manager s)
    /\ discovery.blacklist_set (_host_manager s')
       = discovery.blacklist_set (_host_manager s)
    /\ log s'
       = log s ++ ((fun slot_info =>
                      (INFO, "start worker process: " +:+ slot_name slot_info))
                   <$> pending_slots).
Proof.
  revert s. induction pending_slots as [| x rest IH]; intros s.
  - exists s. rewrite !app_nil_r. repeat split. simpl.
    by rewrite (left_id_L ∅ (∪)).
  - simpl. unfold _start_worker_process. run.
    edestruct IH as (s' & -> & Hq & Hres & Hev & Hcur & Hbl & Hlog).
    exists s'. split; [done |].
    rewrite Hq, Hres, Hev, Hcur, Hbl, Hlog. simpl.
    rewrite <- !app_assoc. repeat split.
    rewrite (assoc_L (∪)). f_equal. apply (comm_L (∪)).
Qed.

(** X9: when [_start_worker_processes] returns, it has started one
    supervisor thread per pending slot and queued it in [Results], in list
    order and behind the threads already queued, it has created the host
    event of each slot's host and logged one line per slot; and the method
    has written nothing else: not the published results, the snapshot, the
    blacklist, the assignment, the rank map, [world_size], the registry,
    the clients or the shutdown signal. *)
Theorem start_worker_processes_queues_every_thread
  (pending_slots : list SlotInfo) (s s' : driver) :
  _start_worker_processes pending_slots s = (Ok (), s') ->
  calls s' = calls s ++ (Call_thread_start <$> pending_slots)
  /\ Results._worker_threads (_results s')
     = Results._worker_threads (_results s) ++ pending_slots
  /\ Results._results (_results s') = Results._results (_results s)
  /\ discovery.host_events (_host_manager s')
     = list_to_set (hostname <$> pending_slots)
       ∪ discovery.host_events (_host_manager s)
  /\ discovery.current_hosts (_host_manager s')
     = discovery.current_hosts (_host_manager s)
  /\ discovery.blacklist_set (_host_manager s')
     = discovery.blacklist_set (_host_manager s)
  /\ log s'
     = log s ++ ((fun slot_info =>
                    (INFO, "start worker process: "
                           +:+ hostname slot_info +:+ "["
                           +:+ pretty (local_rank slot_info) +:+ "]"))
                 <$> pending_slots)
  /\ (_host_assignments s', _rank_assignments s', _world_size s',
      _worker_registry s', _worker_clients s', _shutdown s')
     = (_host_assignments s, _rank_assignments s, _world_size s,
        _worker_registry s, _worker_clients s, _shutdown s).
Proof.
  intros Hreturns.
  destruct (start_worker_processes_effect pending_slots s)
    as (s1 & Hrun & Hq & Hres & Hev & Hcur & Hbl & Hlog).
  destruct (start_worker_processes_run pending_slots s)
    as (s2 & Hrun' & Hcalls).
  pose proof (start_worker_processes_keeps
                (fun s0 => (_host_assignments s0, _rank_assignments s0,
                            _world_size s0, _worker_registry s0,
                            _worker_clients s0, _shutdown s0))
                pending_slots
                (fun _ _ => eq_refl) (fun _ _ => eq_refl)
                (fun _ _ => eq_refl) (fun _ _ => eq_refl) s) as Hkeep.
  rewrite Hreturns in Hrun, Hrun', Hkeep.
  injection Hrun as <-. injection Hrun' as <-. simpl in Hkeep.
  by repeat (split; [done |]).
Qed.

Lemma wait_loop_state tmout min_np (wakeups : list wakeup) (s : driver) :
  exists k : nat,
    (wait_loop tmout min_np wakeups s).2 = apply_wakeups (take k wakeups) s.
Proof.
  revert s. induction wakeups as [| w wakeups IH]; intros s; simpl.
  - exists 0%nat. by destruct (_has_available_slots _ _).
  - destruct (_has_available_slots _ _); [by exists 0%nat |].
    destruct (timeout.check_time_out_for _ _ _); [| by exists 1%nat ..].
    destruct (IH (others w s)) as [k Hk]. by exists (S k).
Qed.

(** X10: an activation stops at its first failure, before anything is
    installed.  If the wait raises, or the wait returns and the slot
    assigner raises on the snapshot returned, or the wait returns and
    every host of the assigner's list is new although the previous
    assignment is not empty, then [_activate_hosts] raises that error, in
    the last case "unable to broadcast state", and the driver is as the
    wait left it: as the other threads made it during the wake-ups, with
    the one log line of the activation.  So no assignment has been
    installed, nothing pushed to the rendezvous service, the registry not
    reset and no supervisor thread started. *)
Theorem activate_hosts_failure_starts_nothing
  (min_np now : Z) (wakeups : list wakeup) (e : exn) (s s1 : driver) :
  let s0 := logging INFO ("wait for available hosts: " +:+ pretty min_np) s in
  wait_for_available_hosts min_np now wakeups s0 = (Raise e, s1)
  \/ (exists current_hosts,
        wait_for_available_hosts min_np now wakeups s0 = (Ok current_hosts, s1)
        /\ (get_host_assignments (host_list_of current_hosts)
                                 (_min_np s1) (_max_np s1) = Raise e
            \/ exists new_list,
                 get_host_assignments (host_list_of current_hosts)
                                      (_min_np s1) (_max_np s1) = Ok new_list
                 /\ odict.len (_host_assignments s1) > 0
                 /\ Forall (fun slot_info =>
                              hostname slot_info
                              ∉ odict.keys (_host_assignments s1)) new_list
                 /\ e = state_broadcast_lost)) ->
  _activate_hosts min_np now wakeups s = (Raise e, s1)
  /\ exists k : nat, s1 = apply_wakeups (take k wakeups) s0.
Proof.
  intros s0 Hfails.
  assert (Hstate : exists k : nat, s1 = apply_wakeups (take k wakeups) s0).
  { unfold wait_for_available_hosts in Hfails.
    match type of Hfails with
    | context [wait_loop ?tm ?n ?ws ?st] =>
        destruct (wait_loop_state tm n ws st) as [k Hk]
    end.
    exists k. destruct Hfails as [Hwait | (ch & Hwait & _)];
      by rewrite Hwait in Hk. }
  split; [| done]. rewrite activate_hosts_run. fold s0.
  destruct Hfails as [-> | (ch & -> & Hupdate)]; [done |].
  rewrite update_host_assignments_run.
  destruct Hupdate as [-> | (l & -> & Hlen & Hnew & ->)]; [done |].
  rewrite bool_decide_eq_true_2 by done.
  rewrite (proj2 (keys_disjoint_true _ _)); [done |].
  rewrite Forall_forall in Hnew.
  intros h Hh (y & Hy & <-)%elem_of_keys_group_by_host.
  by apply (Hnew y Hy).
Qed.

(** *** Registering the coordinator's notification server *)

(** X11: [register_worker_server] replaces whatever client was registered
    under [(host, slot)].  When the assignment would change and the slot of
    world rank 0 is [coordinator], a registration under the coordinator's
    [(hostname, local_rank)] makes the next [_notify_workers_host_changes]
    call the client built from the addresses, the key and the driver's
    verbosity just given, once, without raising; a registration under any
    other pair leaves the call the notification makes as it was. *)
Theorem notify_reaches_latest_registered_client
  (current_hosts : discovery.DiscoveredHosts) (now : Z)
  (candidate : list SlotInfo) (coordinator : SlotInfo)
  (host : string) (slot : Z) (addrs : Addresses) (key : SecretKey)
  (s : driver) :
  get_host_assignments (host_list_of current_hosts) (_min_np s) (_max_np s)
  = Ok candidate ->
  odict.eqb (group_by_host candidate) (_host_assignments s) = false ->
  _rank_assignments s !! 0 = Some coordinator ->
  let registered := (register_worker_server host slot addrs key s).2 in
  let notified := _notify_workers_host_changes current_hosts now registered in
  ((host, slot) = (hostname coordinator, local_rank coordinator) ->
   calls notified.2
   = calls s ++ [Call_notify_hosts_updated
                   (mk_client addrs key (_verbose s)) now]
   /\ forall e, notified.1 <> Raise e)
  /\ ((host, slot) <> (hostname coordinator, local_rank coordinator) ->
      calls notified.2
      = calls (_notify_workers_host_changes current_hosts now s).2
      /\ notified.1 = (_notify_workers_host_changes current_hosts now s).1).
Proof.
  intros Hl Hneq Hcoord. cbv zeta.
  rewrite !notify_workers_host_changes_run. unfold register_worker_server.
  rewrite run_modify. simpl. rewrite Hl, Hneq, Hcoord. split.
  - intros <-. rewrite lookup_insert_eq.
    destruct (client_notify_hosts_updated _ _) as [[] | e |];
      [done | | done].
    by destruct (bool_decide _).
  - intros Hother. rewrite lookup_insert_ne by done.
    destruct (_worker_clients s !! _) as [client |]; [| done].
    destruct (client_notify_hosts_updated _ _) as [[] | e |];
      [done | | done].
    by destruct (bool_decide _).
Qed.

(** *** What the discovery thread touches *)

Lemma notify_workers_host_changes_keeps {B} (obs : driver -> B)
  current_hosts now :
  (forall v s, obs (set_calls v s) = obs s) ->
  (forall v s, obs (set_log v s) = obs s) ->
  keeps obs (_notify_workers_host_changes current_hosts now).
Proof.
  intros Hcalls Hlog s. rewrite notify_workers_host_changes_run.
  destruct (get_host_assignments _ _ _) as [l | e |]; [| done ..].
  destruct (odict.eqb _ _); [apply Hlog |].
  destruct (_rank_assignments s !! 0) as [c |]; [| apply Hlog].
  destruct (_worker_clients s !! _) as [client |]; [| apply Hlog].
  cbv zeta.
  destruct (client_notify_hosts_updated client now) as [[] | e |];
    [apply Hcalls | | apply Hcalls].
  destruct (bool_decide _); unfold logging, log_call; cbn [snd];
    by rewrite ?Hlog, ?Hcalls.
Qed.

Lemma discover_once_keeps {B} (obs : driver -> B) (tk : tick) :
  (forall v s, obs (set_host_manager v s) = obs s) ->
  (forall v s, obs (set_calls v s) = obs s) ->
  (forall v s, obs (set_log v s) = obs s) ->
  keeps obs (discover_once tk).
Proof.
  intros Hhm Hcalls Hlog. unfold discover_once.
  apply keeps_bind.
  - intros s. unfold host_manager_update.
    destruct (discovery.update_available_hosts _ _). apply Hhm.
  - intros [|]; [| apply keeps_ret].
    apply keeps_bind; [apply keeps_gets | intros ch].
    apply keeps_bind; [by apply notify_workers_host_changes_keeps | intros _].
    apply keeps_modify. intros. apply Hcalls.
Qed.

Lemma discover_loop_keeps {B} (obs : driver -> B) first_update
  (ticks : list tick) (s : driver) :
  (forall v s, obs (set_host_manager v s) = obs s) ->
  (forall v s, obs (set_calls v s) = obs s) ->
  (forall v s, obs (set_log v s) = obs s) ->
  (forall v s, obs (set_discovery_thread_alive v s) = obs s) ->
  Forall (fun tk => forall s0, obs (tick_others tk s0) = obs s0) ticks ->
  obs (discover_loop first_update ticks s).2 = obs s.
Proof.
  intros Hhm Hcalls Hlog Halive Hticks. revert first_update s.
  induction Hticks as [| tk ticks Htk _ IH]; intros first_update s; simpl.
  - destruct (_shutdown s); [apply Halive | done].
  - destruct (_shutdown s); [apply Halive |].
    pose proof (discover_once_keeps obs tk Hhm Hcalls Hlog s) as Honce.
    destruct (discover_once tk s) as [[[] | e |] s1]; simpl in Honce.
    + by rewrite IH, Htk.
    + destruct (isinstance_RuntimeError e); [destruct first_update |].
      * cbn [snd]. by rewrite Halive.
      * rewrite IH, Htk. unfold logging. by rewrite Hlog.
      * cbn [snd]. by rewrite Halive.
    + done.
Qed.

(** X12: the discovery thread on its own writes only the host manager, the
    log, the call log and its own liveness flag.  Over any number of turns
    during which the other threads leave them alone, the assignment, the
    rank map, [world_size], the registered clients, the registry, the
    results, the launcher, the shutdown signal and the configuration are as
    they were; and once the shutdown signal is set the loop ends without
    polling the discovery provider again. *)
Theorem discovery_thread_leaves_the_assignment_alone
  (first_update : bool) (ticks : list tick) (s : driver) :
  let untouched (s0 : driver) :=
    (_host_assignments s0, _rank_assignments s0, _world_size s0,
     _worker_clients s0, _worker_registry s0, _results s0,
     _create_worker_fn s0, _shutdown s0,
     (_min_np s0, _max_np s0, _verbose s0, _start_timeout s0)) in
  Forall (fun tk => forall s0, untouched (tick_others tk s0) = untouched s0)
         ticks ->
  untouched (discover_loop first_update ticks s).2 = untouched s
  /\ (_shutdown s = true ->
      discover_loop first_update ticks s
      = (Finished, set_discovery_thread_alive false s)).
Proof.
  intros untouched Hticks. split.
  - by apply discover_loop_keeps.
  - intros Hstop. destruct ticks; simpl; by rewrite Hstop.
Qed.

(** X13: when a poll finds changed hosts and the slot assigner raises on
    the new snapshot, the turn of the discovery loop ends in that error
    after the snapshot has been replaced and before
    [_wait_hosts_cond.notify_all()]: no caller waiting for hosts is woken
    and no worker is notified.  A later poll that finds the host manager in
    the state this turn left it in, and reports no change, does nothing
    either, so the change is never announced. *)
Theorem discover_once_assigner_error_skips_notify_all
  (tk : tick) (e : exn) (s s1 : driver) :
  host_manager_update (found tk) s = (Ok true, s1) ->
  get_host_assignments
    (host_list_of (discovery.current_hosts (_host_manager s1)))
    (_min_np s1) (_max_np s1) = Raise e ->
  discover_once tk s = (Raise e, s1)
  /\ calls s1 = calls s
  /\ s1 = set_host_manager (_host_manager s1) s
  /\ (forall (later : tick) (s2 s3 : driver),
        host_manager_update (found later) s2 = (Ok false, s3) ->
        discover_once later s2 = (Ok (), s3) /\ calls s3 = calls s2).
Proof.
  intros Hupdate Hassign.
  assert (Hs1 : s1 = set_host_manager (_host_manager s1) s).
  { revert Hupdate. unfold host_manager_update.
    destruct (discovery.update_available_hosts _ _) as [r hm].
    by intros [= _ <-]. }
  split; [| split; [by rewrite Hs1 | split; [done |]]].
  - unfold discover_once. rewrite run_bind, Hupdate. cbn beta iota.
    rewrite run_bind, run_gets. cbn beta iota. rewrite run_bind.
    by rewrite notify_workers_host_changes_run, Hassign.
  - intros later s2 s3 Hlater. unfold discover_once.
    rewrite run_bind, Hlater. split; [done |].
    revert Hlater. unfold host_manager_update.
    destruct (discovery.update_available_hosts _ _) as [r hm].
    by intros [= _ <-].
Qed.

(** *** Waiting, once more *)

Lemma wait_loop_returns_at tmout min_np (wakeups : list wakeup) (s : driver)
  (k : nat) :
  (k <= length wakeups)%nat ->
  min_np <= available_slots (apply_wakeups (take k wakeups) s) ->
  (forall j : nat, (j < k)%nat ->
     available_slots (apply_wakeups (take j wakeups) s) < min_np) ->
  (forall (j : nat) w, (j < k)%nat -> wakeups !! j = Some w ->
     timeout.timed_out (clock w) tmout = false) ->
  wait_loop tmout min_np wakeups s
  = (Ok (discovery.current_hosts
           (_host_manager (apply_wakeups (take k wakeups) s))),
     apply_wakeups (take k wakeups) s).
Proof.
  revert wakeups s.
  induction k as [| k IH]; intros wakeups s Hk Hslots Hbefore Hclock.
  - rewrite take_0 in *. simpl in Hslots.
    apply has_available_slots_true in Hslots.
    destruct wakeups; simpl; unfold available_slots in Hslots;
      by rewrite Hslots.
  - destruct wakeups as [| w wakeups]; [simpl in Hk; lia |]. simpl.
    rewrite (proj2 (has_available_slots_false _ _))
      by (apply (Hbefore 0%nat); lia).
    unfold timeout.check_time_out_for.
    rewrite (Hclock 0%nat w) by (done || lia).
    apply IH; [simpl in Hk; lia | done | |].
    + intros j Hj. apply (Hbefore (S j)). lia.
    + intros j w' Hj Hw'. apply (Hclock (S j)); [lia | done].
Qed.

(** X14: [wait_for_available_hosts(min_np)] does return once the slots
    suffice.  If the snapshot offers at least [min_np] slots after [k]
    wake-ups, not earlier, and the clock has not passed the deadline at any
    of these wake-ups, the call returns the snapshot of that moment and
    leaves the driver as the other threads made it.  With [k = 0] this is
    the return without waiting, which does not look at the clock at all. *)
Theorem wait_for_available_hosts_returns_once_slots_suffice
  (min_np now : Z) (wakeups : list wakeup) (k : nat) (s : driver) :
  (k <= length wakeups)%nat ->
  min_np <= available_slots (apply_wakeups (take k wakeups) s) ->
  (forall j : nat, (j < k)%nat ->
     available_slots (apply_wakeups (take j wakeups) s) < min_np) ->
  (forall (j : nat) w, (j < k)%nat -> wakeups !! j = Some w ->
     clock w <= now + _start_timeout s) ->
  wait_for_available_hosts min_np now wakeups s
  = (Ok (discovery.current_hosts
           (_host_manager (apply_wakeups (take k wakeups) s))),
     apply_wakeups (take k wakeups) s).
Proof.
  intros Hk Hslots Hbefore Hclock. unfold wait_for_available_hosts.
  apply wait_loop_returns_at; [done | done | done |].
  intros j w Hj Hw. specialize (Hclock j w Hj Hw).
  unfold timeout.timed_out, timeout.init. simpl.
  apply bool_decide_eq_false. lia.
Qed.

(** *** Publishing results *)

(** X15: as long as the registry's callbacks leave [Results] alone,
    [_handle_worker_exit] never replaces or removes a published result: a
    key that holds a value keeps it, the only key that can be added is the
    name of the exiting slot, and the queue of supervisor threads is as it
    was. *)
Theorem handle_worker_exit_keeps_published_results
  (slot_info : SlotInfo) (exit_code timestamp : Z) (s : driver) :
  (forall host slot,
     keeps _results (registry_record_success host slot)
     /\ keeps _results (registry_record_failure host slot)) ->
  let s' := (_handle_worker_exit slot_info exit_code timestamp s).2 in
  (forall key v,
     Results._results (_results s) !! key = Some v ->
     Results._results (_results s') !! key = Some v)
  /\ (forall key, key <> slot_name slot_info ->
        Results._results (_results s') !! key
        = Results._results (_results s) !! key)
  /\ Results._worker_threads (_results s')
     = Results._worker_threads (_results s).
Proof.
  intros Hreg. cbv zeta.
  assert (Hcases :
    _results (_handle_worker_exit slot_info exit_code timestamp s).2
    = _results s
    \/ _results (_handle_worker_exit slot_info exit_code timestamp s).2
       = Results.add_result (slot_name slot_info) (exit_code, timestamp)
           (_results s)).
  { unfold _handle_worker_exit. rewrite run_bind, run_gets. cbn beta iota.
    destruct (has_rank_assignment _ _ s); simpl; [| by left].
    rewrite run_bind.
    destruct (bool_decide (exit_code = 0)); rewrite run_bind, run_modify;
      cbn beta iota.
    - pose proof (proj1 (Hreg (hostname slot_info) (local_rank slot_info))
                    (log_call (Call_record_success (hostname slot_info)
                                                   (local_rank slot_info)) s))
        as Hkeep.
      destruct (registry_record_success _ _ _) as [[id | e |] s1];
        simpl in Hkeep; [| by left ..].
      unfold finished. run.
      destruct (_shutdown s1 && bool_decide _); run; simpl;
        rewrite Hkeep; first [by left | by right].
    - pose proof (proj2 (Hreg (hostname slot_info) (local_rank slot_info))
                    (log_call (Call_record_failure (hostname slot_info)
                                                   (local_rank slot_info)) s))
        as Hkeep.
      destruct (registry_record_failure _ _ _) as [[id | e |] s1];
        simpl in Hkeep; [| by left ..].
      unfold finished. run.
      destruct (_shutdown s1 && bool_decide _); run; simpl;
        rewrite Hkeep; first [by left | by right]. }
  destruct Hcases as [-> | ->]; [done |].
  split; [| split].
  - intros key v Hkey. by rewrite add_result_lookup, Hkey.
  - intros key Hne. rewrite add_result_lookup.
    destruct (Results._results (_results s) !! key); [done |].
    by rewrite decide_False.
  - unfold Results.add_result. by destruct (bool_decide _).
Qed.

(** *** Result keys *)

Lemma has_char_append (c : Ascii.ascii) (s1 s2 : string) :
  has_char c (s1 +:+ s2) = has_char c s1 || has_char c s2.
Proof.
  induction s1 as [| c' s1 IH]; simpl; [done |].
  by rewrite IH, orb_assoc.
Qed.

Lemma has_char_pretty_N_go (x : N) (s : string) :
  has_char "["%char s = false -> has_char "["%char (pretty_N_go x s) = false.
Proof.
  revert s. induction (N.lt_wf_0 x) as [x _ IH]; intros s Hs.
  assert (x = 0 \/ 0 < x)%N as [-> | Hpos] by lia.
  - by rewrite pretty_N_go_0.
  - rewrite pretty_N_go_step by done. apply IH; [by apply N.div_lt |].
    simpl. rewrite Hs, orb_false_r. apply bool_decide_eq_false.
    unfold pretty_N_char. by repeat case_match.
Qed.

Lemma has_char_pretty_Z (z : Z) : has_char "["%char (pretty z) = false.
Proof.
  assert (Hpos : forall p : positive, has_char "["%char (pretty p) = false).
  { intros p. unfold pretty, pretty_positive, pretty, pretty_N.
    rewrite decide_False by done. by apply has_char_pretty_N_go. }
  destruct z as [| p | p]; [done | apply Hpos |].
  unfold pretty, pretty_Z. rewrite has_char_append. by rewrite Hpos.
Qed.

Lemma has_char_bracket_middle (h p : string) :
  has_char "["%char (h +:+ "[" +:+ p) = true.
Proof.
  induction h as [| c h IH].
  - change (has_char "["%char (String "[" p) = true). by simpl.
  - change (has_char "["%char (String c (h +:+ "[" +:+ p)) = true). simpl.
    by rewrite IH, orb_true_r.
Qed.

Lemma append_bracket_inj (h1 h2 p1 p2 : string) :
  has_char "["%char p1 = false -> has_char "["%char p2 = false ->
  h1 +:+ "[" +:+ p1 = h2 +:+ "[" +:+ p2 -> h1 = h2 /\ p1 = p2.
Proof.
  intros Hp1 Hp2. revert h2.
  induction h1 as [| c1 h1 IH]; intros [| c2 h2] Heq.
  - change (String "[" p1 = String "[" p2) in Heq. by injection Heq as ->.
  - change (String "[" p1 = String c2 (h2 +:+ "[" +:+ p2)) in Heq.
    injection Heq as _ Heq.
    by rewrite Heq, has_char_bracket_middle in Hp1.
  - change (String c1 (h1 +:+ "[" +:+ p1) = String "[" p2) in Heq.
    injection Heq as _ Heq.
    by rewrite <- Heq, has_char_bracket_middle in Hp2.
  - change (String c1 (h1 +:+ "[" +:+ p1) = String c2 (h2 +:+ "[" +:+ p2))
      in Heq.
    injection Heq as -> Heq. by destruct (IH h2 Heq) as [-> ->].
Qed.

Lemma append_bracket_close_inj (s1 s2 : string) :
  s1 +:+ "]" = s2 +:+ "]" -> s1 = s2.
Proof.
  revert s2. induction s1 as [| c1 s1 IH]; intros [| c2 s2] Heq.
  - done.
  - change (String "]" "" = String c2 (s2 +:+ "]")) in Heq.
    injection Heq as _ Heq. by destruct s2.
  - change (String c1 (s1 +:+ "]") = String "]" "") in Heq.
    injection Heq as _ Heq. by destruct s1.
  - change (String c1 (s1 +:+ "]") = String c2 (s2 +:+ "]")) in Heq.
    injection Heq as -> Heq. f_equal. by apply IH.
Qed.

(** X16: the key under which a worker's result is published,
    ["host[local_rank]"], determines the host and the local rank, whatever
    characters the hostname holds: two slots share a key exactly when they
    have the same hostname and the same local rank, so first-writer-wins in
    [Results] never drops the result of another slot. *)
Theorem slot_name_determines_host_and_local_rank (x y : SlotInfo) :
  slot_name x = slot_name y
  <-> hostname x = hostname y /\ local_rank x = local_rank y.
Proof.
  unfold slot_name. split; [| by intros [-> ->]].
  intros [Hhost Hrank]%append_bracket_inj.
  - split; [done |].
    by apply append_bracket_close_inj, (inj pretty) in Hrank.
  - by rewrite has_char_append, has_char_pretty_Z.
  - by rewrite has_char_append, has_char_pretty_Z.
Qed.

(** *** Queries that write *)

Lemma local_size_absent (host : string) (s : driver) :
  odict.get host (_host_assignments s) = None ->
  odict.default_factory (_host_assignments s) = Some [] ->
  local_size host s
  = (Ok 0, set_host_assignments
             (odict.setitem host [] (_host_assignments s)) s).
Proof.
  intros Hget Hfactory.
  unfold local_size, host_assignments_getitem, odict.getitem.
  by rewrite run_bind, Hget, Hfactory.
Qed.

(** X17: a [local_size] query interferes with the check that a previous
    host survives.  When every host of the new list is new,
    [_update_host_assignments] raises "unable to broadcast state"; but
    after [local_size(host)] has been asked for one of the new hosts, which
    returns 0 and leaves an empty entry for it in the [defaultdict], the
    same call finds that host among the previous ones, does not raise and
    installs the new assignment. *)
Theorem local_size_query_defeats_state_broadcast_check
  (current_hosts : discovery.DiscoveredHosts) (new_list : list SlotInfo)
  (host : string) (s : driver) :
  get_host_assignments (host_list_of current_hosts) (_min_np s) (_max_np s)
  = Ok new_list ->
  odict.default_factory (_host_assignments s) = Some [] ->
  odict.len (_host_assignments s) > 0 ->
  Forall (fun slot_info =>
            hostname slot_info ∉ odict.keys (_host_assignments s)) new_list ->
  host ∈ hostname <$> new_list ->
  (_update_host_assignments current_hosts s).1 = Raise state_broadcast_lost
  /\ exists s1 pending s2,
       local_size host s = (Ok 0, s1)
       /\ odict.get host (_host_assignments s1) = Some []
       /\ _update_host_assignments current_hosts s1 = (Ok pending, s2)
       /\ _host_assignments s2 = group_by_host new_list
       /\ _world_size s2 = Z.of_nat (length new_list).
Proof.
  intros Hl Hfactory Hlen Hnew Hhost.
  apply list_elem_of_fmap in Hhost as (x & -> & Hx).
  rewrite Forall_forall in Hnew. split.
  - rewrite update_host_assignments_run, Hl.
    rewrite bool_decide_eq_true_2 by done.
    rewrite (proj2 (keys_disjoint_true _ _)); [done |].
    intros k Hk (y & Hy & <-)%elem_of_keys_group_by_host.
    by apply (Hnew y Hy).
  - assert (Hget : odict.get (hostname x) (_host_assignments s) = None).
    { apply eq_None_not_Some. rewrite <- elem_of_keys. by apply Hnew. }
    eexists _, _, _. split; [by apply local_size_absent |].
    split; [simpl; by rewrite get_setitem, decide_True |].
    rewrite update_host_assignments_run. simpl. rewrite Hl.
    replace (_ && _) with false; [done |].
    symmetry. apply andb_false_iff. right. apply not_true_iff_false.
    intros Hdis.
    apply (proj1 (keys_disjoint_true _ _) Hdis (hostname x)).
    + apply elem_of_keys. rewrite get_setitem, decide_True by done. eauto.
    + apply elem_of_keys_group_by_host. eauto.
Qed.

(** X18: right after a successful [_update_host_assignments], a
    notification for the same snapshot is skipped: the candidate assignment
    equals the installed one, so no worker is called and nothing but the
    log changes. *)
Theorem notification_skipped_right_after_update
  (current_hosts : discovery.DiscoveredHosts) (now : Z)
  (pending : list SlotInfo) (s s' : driver) :
  _update_host_assignments current_hosts s = (Ok pending, s') ->
  _notify_workers_host_changes current_hosts now s'
  = (Ok (), logging DEBUG "no host changes, skipping notifications" s').
Proof.
  rewrite update_host_assignments_run.
  destruct (get_host_assignments _ _ _) as [l | e |] eqn:Hl; [| done ..].
  destruct (_ && _); [done |]. intros [= _ <-].
  apply (notify_skipped_when_assignment_unchanged _ _ l);
    [exact Hl | apply group_by_host_wf | done].
Qed.

Lemma length_assoc_set_absent (k : string) (v : list SlotInfo)
  (l : list (string * list SlotInfo)) :
  odict.assoc k l = None ->
  length (odict.assoc_set k v l) = S (length l).
Proof.
  intros Hk. pose proof (assoc_set_keys k v l) as Hkeys.
  rewrite Hk in Hkeys. apply (f_equal length) in Hkeys.
  rewrite length_app, !length_fmap in Hkeys. simpl in Hkeys. lia.
Qed.

(** X19: a [local_size] query also defeats that skip.  After a successful
    [_update_host_assignments], asking [local_size] of a host without
    slots leaves an empty entry in the installed assignment; the candidate
    for the unchanged snapshot then no longer equals it, and the next
    notification calls the coordinator's client although no host has
    changed. *)
Theorem local_size_query_makes_notification_fire
  (current_hosts : discovery.DiscoveredHosts) (now : Z)
  (pending : list SlotInfo) (host : string) (coordinator : SlotInfo)
  (client : WorkerNotificationClient Addresses SecretKey) (s s' : driver) :
  _update_host_assignments current_hosts s = (Ok pending, s') ->
  odict.get host (_host_assignments s') = None ->
  _rank_assignments s' !! 0 = Some coordinator ->
  _worker_clients s' !! (hostname coordinator, local_rank coordinator)
  = Some client ->
  let queried := (local_size host s').2 in
  calls (_notify_workers_host_changes current_hosts now s').2 = calls s'
  /\ calls (_notify_workers_host_changes current_hosts now queried).2
     = calls s' ++ [Call_notify_hosts_updated client now].
Proof.
  rewrite update_host_assignments_run.
  destruct (get_host_assignments _ _ _) as [l | e |] eqn:Hl; [| done ..].
  destruct (_ && _); [done |]. intros [= _ <-] Hget Hcoord Hclient. cbv zeta.
  split.
  - rewrite (notify_skipped_when_assignment_unchanged _ _ l);
      [done | exact Hl | apply group_by_host_wf | done].
  - rewrite local_size_absent; [| done | apply group_by_host_factory].
    rewrite notify_workers_host_changes_run. cbn [snd].
    simpl. rewrite Hl.
    replace (odict.eqb _ _) with false.
    + simpl in Hcoord, Hclient. rewrite Hcoord, Hclient.
      destruct (client_notify_hosts_updated client now) as [[] | e |];
        [done | | done].
      by destruct (bool_decide _).
    + symmetry. unfold odict.eqb. apply andb_false_iff. left.
      apply bool_decide_eq_false. simpl.
      rewrite length_assoc_set_absent by exact Hget. lia.
Qed.

(** *** Resuming *)

(** X20: a [resume] that follows a completed activation, while the
    snapshot still offers [min_np] slots, returns without waiting and
    starts no supervisor thread.  It pushes the same assignment to the
    rendezvous service again and resets the registry with the same
    [world_size]; the assignment, the rank map, [world_size], the host
    manager and the results are as the activation left them. *)
Theorem resume_after_activation_starts_nothing
  (min_np now now' : Z) (wakeups wakeups' : list wakeup) (s s1 : driver) :
  _activate_hosts min_np now wakeups s = (Ok (), s1) ->
  _min_np s1 <= available_slots s1 ->
  exists new_list s2,
    resume now' wakeups' s1 = (Ok (), s2)
    /\ calls s2
       = calls s1 ++ [Call_httpd_init new_list;
                      Call_registry_reset (Z.of_nat (length new_list))]
    /\ _results s2 = _results s1
    /\ _host_manager s2 = _host_manager s1
    /\ _host_assignments s2 = _host_assignments s1
    /\ _rank_assignments s2 = _rank_assignments s1
    /\ _world_size s2 = _world_size s1
    /\ _worker_registry s2
       = registry_reset (_world_size s1) (_worker_registry s1).
Proof.
  rewrite activate_hosts_run. unfold wait_for_available_hosts at 1.
  match goal with
  | |- context [wait_loop ?tm ?n ?ws ?s0] =>
      destruct (wait_loop tm n ws s0) as [[ch | e0 |] sw] eqn:Hwait
  end; [| done ..].
  apply wait_loop_returns in Hwait as (k & _ & _ & Hch & _).
  rewrite update_host_assignments_run.
  destruct (get_host_assignments _ _ _) as [l | e |] eqn:Hl; [| done ..].
  destruct (_ && _); [done |]. intros Hspawn Hslots.
  match type of Hspawn with
  | _start_worker_processes ?p ?st = _ =>
      destruct (start_worker_processes_effect p st)
        as (s1' & Hrun & _ & _ & _ & Hcur & _);
      pose proof (start_worker_processes_keeps
                    (fun s0 => (_min_np s0, _max_np s0, _host_assignments s0,
                                _rank_assignments s0, _world_size s0))
                    p (fun _ _ => eq_refl) (fun _ _ => eq_refl)
                    (fun _ _ => eq_refl) (fun _ _ => eq_refl) st) as Hkeep
  end.
  rewrite Hspawn in Hrun, Hkeep. injection Hrun as <-.
  simpl in Hkeep, Hcur. injection Hkeep as Hmin Hmax Hha Hra Hws.
  exists l. unfold resume. rewrite run_bind, run_gets. cbn beta iota.
  rewrite activate_hosts_run. unfold wait_for_available_hosts.
  rewrite (wait_loop_returns_at _ _ _ _ 0%nat);
    [| lia | rewrite take_0; exact Hslots | intros; lia | intros; lia].
  rewrite take_0. cbn [apply_wakeups foldl].
  rewrite update_host_assignments_run. simpl.
  rewrite Hcur, <- Hch, Hmin, Hmax, Hl, Hha.
  rewrite pending_slots_of_own_keys.
  replace (_ && _) with false.
  - eexists. split; [reflexivity |]. simpl.
    by rewrite Hra, Hws, <- app_assoc.
  - symmetry. destruct (bool_decide _) eqn:Hlen; [| done].
    apply bool_decide_eq_true in Hlen. by rewrite keys_disjoint_self.
Qed.

(** *** Before the first activation, and the launcher *)

(** X21: a driver as [__init__] leaves it, whatever its arguments, has no
    rank assignment at all.  [world_size] is 0, the job is not finished,
    [get_slot_info] answers [INVALID_SLOT_INFO] for every host and slot,
    [local_size] raises [KeyError] for every host, a worker exit is ignored
    without a call into the registry, and [get_results] has no thread to
    join and is empty; the driver is unchanged by the first four.  A [start_timeout] of 0 counts
    as not given: the environment's value, or 600, is used. *)
Theorem fresh_driver_has_no_assignment
  (min_np max_np verbose : Z) (start_timeout env_start_timeout : option Z)
  (host : string) (slot : Z) (slot_info : SlotInfo) (exit_code timestamp : Z) :
  let s := __init__ min_np max_np start_timeout env_start_timeout verbose in
  world_size s = (Ok 0, s)
  /\ finished s = (Ok false, s)
  /\ get_slot_info host slot s = (Ok INVALID_SLOT_INFO, s)
  /\ local_size host s = (Raise (mk_exn KeyError host), s)
  /\ (exists s',
        _handle_worker_exit slot_info exit_code timestamp s = (Ok (), s')
        /\ calls s' = [] /\ _results s' = Results.init)
  /\ (forall ends, (get_results ends s).1 = Ok ∅)
  /\ _start_timeout s
     = match start_timeout with
       | Some 0 | None => default 600 env_start_timeout
       | Some n => n
       end.
Proof.
  cbv zeta. split; [done |]. split; [done |]. split; [done |].
  split; [done |]. split; [by eexists |].
  split; [by intros [| [| exit_code' timestamp' |] ends] |].
  simpl. by destruct start_timeout as [[| p | p] |].
Qed.

Lemma apply_wakeups_keeps {B} (obs : driver -> B) (wakeups : list wakeup)
  (k : nat) (s : driver) :
  Forall (fun w => forall s0, obs (others w s0) = obs s0) wakeups ->
  obs (apply_wakeups (take k wakeups) s) = obs s.
Proof.
  intros Hw. unfold apply_wakeups. revert k s.
  induction Hw as [| w wakeups Hw _ IH]; intros [| k] s; try done.
  rewrite firstn_cons. cbn [foldl]. by rewrite IH, Hw.
Qed.

Lemma activate_hosts_keeps_launcher min_np now (wakeups : list wakeup)
  (s : driver) :
  Forall (fun w => forall s0,
            _create_worker_fn (others w s0) = _create_worker_fn s0)
         wakeups ->
  _create_worker_fn (_activate_hosts min_np now wakeups s).2
  = _create_worker_fn s.
Proof.
  intros Hw. rewrite activate_hosts_run. unfold wait_for_available_hosts.
  match goal with
  | |- context [wait_loop ?tm ?n ?ws ?st] =>
      destruct (wait_loop_state tm n ws st) as [k Hk];
      pose proof (apply_wakeups_keeps _create_worker_fn ws k st Hw) as Hkeep;
      destruct (wait_loop tm n ws st) as [[ch | e |] s1]
  end; simpl in Hk; subst s1; [| done ..].
  rewrite update_host_assignments_run.
  destruct (get_host_assignments _ _ _) as [l | e |]; [| done ..].
  destruct (_ && _); [done |].
  match goal with
  | |- context [_start_worker_processes ?p ?st] =>
      rewrite (start_worker_processes_keeps _create_worker_fn p
                 (fun _ _ => eq_refl) (fun _ _ => eq_refl)
                 (fun _ _ => eq_refl) (fun _ _ => eq_refl) st)
  end.
  done.
Qed.

(** X22: [start] stores the launcher before it waits, so the launcher is
    the one just given whatever the outcome of the activation, also when
    [start] raises on a timeout or on the loss of every previous host; and
    [resume] never changes the launcher.  Both hold as long as the other
    threads leave the launcher alone during the wait. *)
Theorem start_installs_launcher_whatever_the_outcome
  (np now : Z) (create_worker_fn : Launcher) (wakeups : list wakeup)
  (s : driver) :
  Forall (fun w => forall s0,
            _create_worker_fn (others w s0) = _create_worker_fn s0)
         wakeups ->
  _create_worker_fn (start np create_worker_fn now wakeups s).2
  = Some create_worker_fn
  /\ _create_worker_fn (resume now wakeups s).2 = _create_worker_fn s.
Proof.
  intros Hw. split.
  - unfold start. rewrite run_bind, run_modify. cbn beta iota.
    by rewrite activate_hosts_keeps_launcher.
  - unfold resume. rewrite run_bind, run_gets. cbn beta iota.
    by rewrite activate_hosts_keeps_launcher.
Qed.

End driver_facts.

(** ** The properties on a concrete run *)

Import ElasticDriver.

Example started_calls :
  calls Scenario.started
  = Call_cond_notify_all
    :: Call_httpd_init Scenario.four_slots
    :: Call_registry_reset 4
    :: (Call_thread_start <$> Scenario.four_slots).
Proof. vm_compute. reflexivity. Qed.

Lemma update_host_assignments_state_broadcast_lost_witness :
  get_host_assignments (host_list_of Scenario.only_h3)
    (_min_np Scenario.started) (_max_np Scenario.started)
  = Ok Scenario.h3_slots
  /\ odict.len (_host_assignments Scenario.started) > 0
  /\ Forall (fun slot_info =>
               hostname slot_info
               ∉ odict.keys (_host_assignments Scenario.started))
            Scenario.h3_slots
  /\ exists s',
       _update_host_assignments Scenario.only_h3 Scenario.started
       = (Raise state_broadcast_lost, s')
       /\ _host_assignments s' = _host_assignments Scenario.started
       /\ _rank_assignments s' = _rank_assignments Scenario.started
       /\ _world_size s' = _world_size Scenario.started
       /\ calls s' = calls Scenario.started
       /\ s' = Scenario.started.
Proof.
  assert (H1 : get_host_assignments (host_list_of Scenario.only_h3)
                 (_min_np Scenario.started) (_max_np Scenario.started)
               = Ok Scenario.h3_slots) by (vm_compute; reflexivity).
  assert (H2 : odict.len (_host_assignments Scenario.started) > 0)
    by (vm_compute; reflexivity).
  assert (H3 : Forall (fun slot_info =>
                         hostname slot_info
                         ∉ odict.keys (_host_assignments Scenario.started))
                      Scenario.h3_slots)
    by (apply (bool_decide_unpack _); vm_compute; exact I).
  exact (conj H1 (conj H2 (conj H3
    (update_host_assignments_state_broadcast_lost
       Scenario.only_h3 Scenario.h3_slots Scenario.started H1 H2 H3)))).
Defined.

Lemma update_host_assignments_invariants_witness :
  let current_hosts := discovery.current_hosts (_host_manager Scenario.two_hosts) in
  let s' := installed Scenario.four_slots Scenario.two_hosts in
  get_host_assignments (host_list_of current_hosts)
    (_min_np Scenario.two_hosts) (_max_np Scenario.two_hosts)
  = Ok Scenario.four_slots
  /\ ranks_cover Scenario.four_slots
  /\ packing_consistent Scenario.four_slots
  /\ _update_host_assignments current_hosts Scenario.two_hosts
     = (Ok Scenario.four_slots, s')
  /\ (_world_size s' = Z.of_nat (total_slots (_host_assignments s'))
      /\ (forall h slots i x,
            odict.get h (_host_assignments s') = Some slots ->
            slots !! i = Some x ->
            hostname x = h /\ local_rank x = Z.of_nat i)
      /\ (forall r, 0 <= r < _world_size s' ->
            exists x, _rank_assignments s' !! r = Some x /\ rank x = r
                      /\ x ∈ default [] (odict.get (hostname x)
                                                   (_host_assignments s')))
      /\ (forall r x, _rank_assignments s' !! r = Some x ->
            0 <= r < _world_size s' /\ rank x = r)
      /\ (forall h slots x,
            odict.get h (_host_assignments s') = Some slots -> x ∈ slots ->
            _rank_assignments s' !! rank x = Some x)).
Proof.
  cbv zeta.
  assert (H1 : get_host_assignments
                 (host_list_of
                    (discovery.current_hosts (_host_manager Scenario.two_hosts)))
                 (_min_np Scenario.two_hosts) (_max_np Scenario.two_hosts)
               = Ok Scenario.four_slots) by (vm_compute; reflexivity).
  assert (H2 : ranks_cover Scenario.four_slots)
    by (split; apply (bool_decide_unpack _); vm_compute; exact I).
  assert (H3 : packing_consistent Scenario.four_slots)
    by (unfold packing_consistent; apply (bool_decide_unpack _);
        vm_compute; exact I).
  assert (H4 : _update_host_assignments
                 (discovery.current_hosts (_host_manager Scenario.two_hosts))
                 Scenario.two_hosts
               = (Ok Scenario.four_slots,
                  installed Scenario.four_slots Scenario.two_hosts))
    by (vm_compute; reflexivity).
  exact (conj H1 (conj H2 (conj H3 (conj H4
    (update_host_assignments_invariants _ _ _ _ _ H1 H2 H3 H4))))).
Defined.

Lemma activate_hosts_resets_then_spawns_witness :
  let s_end := (_activate_hosts 2 3 [] Scenario.h2_replaced).2 in
  _activate_hosts 2 3 [] Scenario.h2_replaced = (Ok (), s_end)
  /\ odict.keys (_host_assignments Scenario.h2_replaced)
     = ["h1"%string; "h2"%string]
  /\ calls s_end
     = calls Scenario.h2_replaced
       ++ [Call_httpd_init Scenario.h1_h3_slots; Call_registry_reset 4;
           Call_thread_start (mk_SlotInfo "h3" 2 0 0 4 2 2);
           Call_thread_start (mk_SlotInfo "h3" 3 1 1 4 2 2)]
  /\ exists current_hosts s_wait new_list spawned,
       wait_for_available_hosts 2 3 []
         (logging INFO ("wait for available hosts: " +:+ pretty 2)
                  Scenario.h2_replaced)
       = (Ok current_hosts, s_wait)
       /\ get_host_assignments (host_list_of current_hosts)
                               (_min_np s_wait) (_max_np s_wait) = Ok new_list
       /\ calls s_end
          = calls s_wait
            ++ [Call_httpd_init new_list;
                Call_registry_reset (Z.of_nat (length new_list))]
            ++ (Call_thread_start <$> spawned)
       /\ (forall x, x ∈ spawned
             <-> x ∈ new_list
                 /\ ~ exists slots y,
                       (hostname x, slots)
                       ∈ odict.items (_host_assignments s_wait)
                       /\ y ∈ slots /\ local_rank y = local_rank x).
Proof.
  intros s_end.
  assert (H1 : _activate_hosts 2 3 [] Scenario.h2_replaced = (Ok (), s_end))
    by (vm_compute; reflexivity).
  split; [exact H1 |]. split; [vm_compute; reflexivity |].
  split; [vm_compute; reflexivity |].
  destruct (activate_hosts_resets_then_spawns 2 3 [] Scenario.h2_replaced _ H1)
    as (current_hosts & s_wait & new_list & spawned & Hwait & Hlist & _
        & Hcalls & _ & _ & Hspawned & _).
  exists current_hosts, s_wait, new_list, spawned.
  exact (conj Hwait (conj Hlist (conj Hcalls Hspawned))).
Defined.

Lemma stop_idempotent_finished_iff_shutdown_witness :
  let stopped := (stop None Scenario.started).2 in
  registry_keeps_shutdown (H := Scenario.collaborators)
  /\ rtc (step_without_stop Z () string string Scenario.collaborators)
         Scenario.fresh Scenario.started
  /\ finished Scenario.started = (Ok false, Scenario.started)
  /\ stop None Scenario.started = (Ok (), stopped)
  /\ finished stopped = (Ok true, stopped)
  /\ finished (resume 9 [] stopped).2 = (Ok true, (resume 9 [] stopped).2).
Proof.
  intros stopped.
  assert (H1 : registry_keeps_shutdown (H := Scenario.collaborators))
    by (intros host slot; repeat split; intros s; reflexivity).
  assert (H2 : rtc (step_without_stop Z () string string Scenario.collaborators)
                   Scenario.fresh Scenario.started).
  { apply (rtc_l _ _ Scenario.two_hosts).
    - apply (step_discover true [Scenario.first_tick] Scenario.fresh).
      apply Forall_cons_2; [intros s; reflexivity | apply Forall_nil_2].
    - apply rtc_once.
      apply (step_start 4 () 0 [] Scenario.two_hosts). apply Forall_nil_2. }
  assert (H3 : rtc (step Z () string string Scenario.collaborators)
                   stopped (resume 9 [] stopped).2).
  { apply rtc_once, step_call, step_resume, Forall_nil_2. }
  destruct (stop_idempotent_finished_iff_shutdown Scenario.started)
    as (Hstop & _ & Hrun).
  destruct (Hstop None) as (_ & _ & Hreturns).
  destruct (Hreturns I) as (s1 & Hs1 & _ & Hfin & _).
  destruct (Hrun H1) as [Hbefore Hafter].
  split; [exact H1 |]. split; [exact H2 |].
  split; [exact (Hbefore 2 4 (Some 5) None 0 Scenario.started H2) |].
  assert (Hs : s1 = stopped) by (unfold stopped; by rewrite Hs1).
  rewrite Hs in Hs1, Hfin.
  split; [exact Hs1 |]. split; [exact Hfin |].
  exact (Hafter None _ H3).
Defined.

(** C6, where raising nothing fails: on a fresh driver no slot has world
    rank 0 and no client is registered, yet for a snapshot with fewer slots
    than [min_np] the method raises what the slot assigner raised. *)
Lemma notification_raises_without_coordinator :
  let too_few :=
    discovery.mk_DiscoveredHosts {[ "h1"%string := 1 ]} ["h1"%string] in
  _rank_assignments Scenario.fresh !! 0 = None
  /\ _worker_clients Scenario.fresh = ∅
  /\ _notify_workers_host_changes too_few 7 Scenario.fresh
     = (Raise (mk_exn ValueError
                 "Requested more processes than there are available slots"),
        Scenario.fresh).
Proof. repeat split; vm_compute; reflexivity. Qed.

(** C3, where catching everything fails: a [ValueError] raised by the
    discovery provider on the second turn is not a [RuntimeError], so it is
    not caught and the discovery thread ends with it. *)
Lemma discovery_thread_dies_of_later_value_error :
  isinstance_RuntimeError Scenario.parse_error = false
  /\ exists s',
       _discover_hosts
         [Scenario.first_tick; Scenario.failing_tick Scenario.parse_error]
         Scenario.fresh
       = (Died Scenario.parse_error, s')
       /\ _discovery_thread_alive s' = false.
Proof.
  split; [reflexivity |]. eexists. split; [vm_compute; reflexivity | reflexivity].
Qed.

Example discovery_thread_survives_later_runtime_error :
  exists s',
    _discover_hosts
      [Scenario.first_tick; Scenario.failing_tick Scenario.script_error]
      Scenario.fresh
    = (Running false, s')
    /\ _host_manager s' = _host_manager Scenario.two_hosts
    /\ log s' = [(DEBUG, "no coordinator info, skipping notifications"%string);
                 (WARNING, "Failed to execute discovery script"%string)].
Proof.
  eexists. split; [vm_compute; reflexivity |]. split; vm_compute; reflexivity.
Qed.

Example discovery_thread_dies_of_first_runtime_error :
  (_discover_hosts [Scenario.failing_tick Scenario.script_error] Scenario.fresh).1
  = Died Scenario.script_error.
Proof. vm_compute. reflexivity. Qed.

(** C10, where the lookups behave otherwise: once an assignment has been
    installed, [local_size] of a host without an entry returns 0 and leaves
    an empty list under that host; and [get_slot_info] with a slot below
    [-len(slots)] passes the guard and raises [IndexError]. *)
Lemma local_size_of_absent_host_after_start :
  odict.get "h3" (_host_assignments Scenario.started) = None
  /\ local_size "h3" Scenario.started
     = (Ok 0,
        set_host_assignments
          (odict.setitem "h3" [] (_host_assignments Scenario.started))
          Scenario.started)
  /\ has_rank_assignment "h1" (-3) Scenario.started = true
  /\ (get_slot_info "h1" (-3) Scenario.started).1
     = Raise (mk_exn IndexError "list index out of range").
Proof. repeat split; vm_compute; reflexivity. Qed.

Example local_size_of_absent_host_before_start :
  local_size "h3" Scenario.fresh
  = (Raise (mk_exn KeyError "h3"), Scenario.fresh).
Proof. vm_compute. reflexivity. Qed.

Example get_slot_info_examples :
  (get_slot_info "h2" 1 Scenario.started).1 = Ok (mk_SlotInfo "h2" 3 1 1 4 2 2)
  /\ get_slot_info "h2" 2 Scenario.started
     = (Ok INVALID_SLOT_INFO, Scenario.started)
  /\ get_slot_info "h3" 0 Scenario.started
     = (Ok INVALID_SLOT_INFO, Scenario.started)
  /\ (get_slot_info "h1" (-1) Scenario.started).1
     = Ok (mk_SlotInfo "h1" 1 1 1 4 2 2).
Proof. repeat split; vm_compute; reflexivity. Qed.

(** Scenario S4: nothing is discovered and the clock passes the deadline. *)
Example start_times_out :
  (start 2 () 0 [mk_wakeup id 1; mk_wakeup id 6] Scenario.fresh).1
  = Raise (start_timeout_error 2).
Proof. vm_compute. reflexivity. Qed.

Example start_still_waiting :
  (start 2 () 0 [mk_wakeup id 1] Scenario.fresh).1 = Pending.
Proof. vm_compute. reflexivity. Qed.

(** Scenario S1: after [stop], a clean exit of a worker of the committed
    round is published under its slot name, and only once. *)
Example worker_exit_published :
  let stopped := (stop None Scenario.started).2 in
  let slot := mk_SlotInfo "h1" 0 0 0 4 2 2 in
  let once := (_handle_worker_exit slot 0 100 stopped).2 in
  let twice := (_handle_worker_exit slot 1 200 once).2 in
  Results._results (_results once) = {[ "h1[0]"%string := (0, 100) ]}
  /\ Results._results (_results twice) = {[ "h1[0]"%string := (0, 100) ]}
  /\ Results._results
       (_results (_handle_worker_exit slot 0 100 Scenario.started).2) = ∅.
Proof. repeat split; vm_compute; reflexivity. Qed.

(** [get_results] after [stop] joins the four supervisor threads; the
    worker of the first one exits while it waits, and its result is in the
    map returned. *)
Example results_of_joined_threads :
  let stopped := (stop None Scenario.started).2 in
  Results._worker_threads (_results stopped) = Scenario.four_slots
  /\ (get_results [Exits 0 100; Over; Over; Over] stopped).1
     = Ok {[ "h1[0]"%string := (0, 100) ]}
  /\ (get_results [Exits 0 100; Never] stopped).1 = Pending.
Proof. repeat split; vm_compute; reflexivity. Qed.

(** The coordinator is notified once, and the failure of the call does not
    reach the caller. *)
Example coordinator_notified :
  let registered :=
    (register_worker_server "h1" 0 "10.0.0.1:4242" "secret" Scenario.started).2 in
  let client := mk_client "10.0.0.1:4242"%string "secret"%string 0 in
  _notify_workers_host_changes Scenario.only_h3 7 registered
  = (Ok (), log_call (Call_notify_hosts_updated client 7) registered).
Proof. vm_compute. reflexivity. Qed.

(** ** The further properties on the same run *)

Lemma update_host_assignments_succeeds_when_a_host_survives_witness :
  let s := Scenario.h2_replaced in
  let current_hosts := discovery.current_hosts (_host_manager s) in
  get_host_assignments (host_list_of current_hosts) (_min_np s) (_max_np s)
  = Ok Scenario.h1_h3_slots
  /\ odict.keys (_host_assignments s) = ["h1"%string; "h2"%string]
  /\ (_update_host_assignments current_hosts s).1
     = Ok [mk_SlotInfo "h3" 2 0 0 4 2 2; mk_SlotInfo "h3" 3 1 1 4 2 2]
  /\ exists pending s',
       _update_host_assignments current_hosts s = (Ok pending, s')
       /\ _world_size s' = 4
       /\ calls s' = calls s ++ [Call_httpd_init Scenario.h1_h3_slots]
       /\ (forall x, x ∈ pending
             <-> x ∈ Scenario.h1_h3_slots
                 /\ ~ exists slots y,
                       (hostname x, slots) ∈ odict.items (_host_assignments s)
                       /\ y ∈ slots /\ local_rank y = local_rank x).
Proof.
  intros s current_hosts.
  assert (H1 : get_host_assignments (host_list_of current_hosts)
                 (_min_np s) (_max_np s)
               = Ok Scenario.h1_h3_slots) by (vm_compute; reflexivity).
  assert (H2 : Exists (fun slot_info =>
                         hostname slot_info
                         ∈ odict.keys (_host_assignments s))
                      Scenario.h1_h3_slots)
    by (apply (bool_decide_unpack _); vm_compute; exact I).
  split; [exact H1 |]. split; [vm_compute; reflexivity |].
  split; [vm_compute; reflexivity |].
  destruct (update_host_assignments_succeeds_when_a_host_survives
              current_hosts _ s H1 (or_intror H2))
    as (pending & s' & Hrun & _ & Hws & Hcalls & Hpending).
  exists pending, s'. exact (conj Hrun (conj Hws (conj Hcalls Hpending))).
Defined.

Lemma first_update_starts_every_slot_witness :
  let current_hosts := discovery.current_hosts (_host_manager Scenario.two_hosts) in
  get_host_assignments (host_list_of current_hosts)
    (_min_np Scenario.two_hosts) (_max_np Scenario.two_hosts)
  = Ok Scenario.four_slots
  /\ odict.items (_host_assignments Scenario.two_hosts) = []
  /\ exists pending s',
       _update_host_assignments current_hosts Scenario.two_hosts
       = (Ok pending, s')
       /\ pending
          = first_seen (hostname <$> Scenario.four_slots)
              ≫= (fun h => slots_on h Scenario.four_slots)
       /\ pending ≡ₚ Scenario.four_slots.
Proof.
  cbv zeta.
  assert (H1 : get_host_assignments
                 (host_list_of
                    (discovery.current_hosts (_host_manager Scenario.two_hosts)))
                 (_min_np Scenario.two_hosts) (_max_np Scenario.two_hosts)
               = Ok Scenario.four_slots) by (vm_compute; reflexivity).
  assert (H2 : odict.items (_host_assignments Scenario.two_hosts) = [])
    by (vm_compute; reflexivity).
  exact (conj H1 (conj H2
    (first_update_starts_every_slot _ _ Scenario.two_hosts H1 H2))).
Defined.

Lemma update_host_assignments_again_starts_nothing_witness :
  let current_hosts := discovery.current_hosts (_host_manager Scenario.two_hosts) in
  let s1 := installed Scenario.four_slots Scenario.two_hosts in
  _update_host_assignments current_hosts Scenario.two_hosts
  = (Ok Scenario.four_slots, s1)
  /\ exists new_list,
       get_host_assignments (host_list_of current_hosts)
         (_min_np Scenario.two_hosts) (_max_np Scenario.two_hosts)
       = Ok new_list
       /\ _update_host_assignments current_hosts s1
          = (Ok [], log_call (Call_httpd_init new_list) s1).
Proof.
  cbv zeta.
  assert (H1 : _update_host_assignments
                 (discovery.current_hosts (_host_manager Scenario.two_hosts))
                 Scenario.two_hosts
               = (Ok Scenario.four_slots,
                  installed Scenario.four_slots Scenario.two_hosts))
    by (vm_compute; reflexivity).
  exact (conj H1
    (update_host_assignments_again_starts_nothing _ _ _ _ H1)).
Defined.

Lemma rank_assignments_keep_last_slot_of_each_rank_witness :
  let current_hosts := discovery.current_hosts (_host_manager Scenario.two_hosts) in
  let s' := installed Scenario.four_slots Scenario.two_hosts in
  get_host_assignments (host_list_of current_hosts)
    (_min_np Scenario.two_hosts) (_max_np Scenario.two_hosts)
  = Ok Scenario.four_slots
  /\ _update_host_assignments current_hosts Scenario.two_hosts
     = (Ok Scenario.four_slots, s')
  /\ (forall r, _rank_assignments s' !! r
                = last (filter (fun x => rank x = r) Scenario.four_slots))
  /\ _world_size s' = Z.of_nat (length Scenario.four_slots).
Proof.
  cbv zeta.
  assert (H1 : get_host_assignments
                 (host_list_of
                    (discovery.current_hosts (_host_manager Scenario.two_hosts)))
                 (_min_np Scenario.two_hosts) (_max_np Scenario.two_hosts)
               = Ok Scenario.four_slots) by (vm_compute; reflexivity).
  assert (H2 : _update_host_assignments
                 (discovery.current_hosts (_host_manager Scenario.two_hosts))
                 Scenario.two_hosts
               = (Ok Scenario.four_slots,
                  installed Scenario.four_slots Scenario.two_hosts))
    by (vm_compute; reflexivity).
  exact (conj H1 (conj H2
    (rank_assignments_keep_last_slot_of_each_rank _ _ _ _ _ H1 H2))).
Defined.

Lemma get_slot_info_finds_every_installed_slot_witness :
  let current_hosts := discovery.current_hosts (_host_manager Scenario.two_hosts) in
  let s' := installed Scenario.four_slots Scenario.two_hosts in
  let x := mk_SlotInfo "h2" 3 1 1 4 2 2 in
  get_host_assignments (host_list_of current_hosts)
    (_min_np Scenario.two_hosts) (_max_np Scenario.two_hosts)
  = Ok Scenario.four_slots
  /\ packing_consistent Scenario.four_slots
  /\ _update_host_assignments current_hosts Scenario.two_hosts
     = (Ok Scenario.four_slots, s')
  /\ x ∈ Scenario.four_slots
  /\ discovery.is_blacklisted (hostname x) (_host_manager s') = false
  /\ get_slot_info (hostname x) (local_rank x) s' = (Ok x, s').
Proof.
  cbv zeta.
  assert (H1 : get_host_assignments
                 (host_list_of
                    (discovery.current_hosts (_host_manager Scenario.two_hosts)))
                 (_min_np Scenario.two_hosts) (_max_np Scenario.two_hosts)
               = Ok Scenario.four_slots) by (vm_compute; reflexivity).
  assert (H2 : packing_consistent Scenario.four_slots)
    by (unfold packing_consistent; apply (bool_decide_unpack _);
        vm_compute; exact I).
  assert (H3 : _update_host_assignments
                 (discovery.current_hosts (_host_manager Scenario.two_hosts))
                 Scenario.two_hosts
               = (Ok Scenario.four_slots,
                  installed Scenario.four_slots Scenario.two_hosts))
    by (vm_compute; reflexivity).
  assert (H4 : mk_SlotInfo "h2" 3 1 1 4 2 2 ∈ Scenario.four_slots)
    by (apply (bool_decide_unpack _); vm_compute; exact I).
  assert (H5 : discovery.is_blacklisted
                 (hostname (mk_SlotInfo "h2" 3 1 1 4 2 2))
                 (_host_manager
                    (installed Scenario.four_slots Scenario.two_hosts))
               = false) by (vm_compute; reflexivity).
  exact (conj H1 (conj H2 (conj H3 (conj H4 (conj H5
    (get_slot_info_finds_every_installed_slot _ _ _ _ _ _ H1 H2 H3 H4 H5)))))).
Defined.

Lemma get_slot_info_indexes_from_both_ends_witness :
  let slots := [mk_SlotInfo "h1" 0 0 0 4 2 2; mk_SlotInfo "h1" 1 1 1 4 2 2] in
  discovery.is_blacklisted "h1" (_host_manager Scenario.started) = false
  /\ odict.get "h1" (_host_assignments Scenario.started) = Some slots
  /\ exists x, slots !! Z.to_nat (2 + -1) = Some x
               /\ get_slot_info "h1" (-1) Scenario.started
                  = (Ok x, Scenario.started).
Proof.
  cbv zeta.
  assert (H1 : discovery.is_blacklisted "h1" (_host_manager Scenario.started)
               = false) by (vm_compute; reflexivity).
  assert (H2 : odict.get "h1" (_host_assignments Scenario.started)
               = Some [mk_SlotInfo "h1" 0 0 0 4 2 2;
                       mk_SlotInfo "h1" 1 1 1 4 2 2])
    by (vm_compute; reflexivity).
  split; [exact H1 |]. split; [exact H2 |].
  refine (proj1 (proj2 (get_slot_info_indexes_from_both_ends
                          "h1" (-1) _ Scenario.started H1 H2 _)) _);
    simpl; lia.
Defined.

Lemma start_worker_processes_queues_every_thread_witness :
  let s' := (_start_worker_processes Scenario.four_slots Scenario.two_hosts).2 in
  _start_worker_processes Scenario.four_slots Scenario.two_hosts = (Ok (), s')
  /\ calls s'
     = calls Scenario.two_hosts ++ (Call_thread_start <$> Scenario.four_slots)
  /\ Results._worker_threads (_results s')
     = Results._worker_threads (_results Scenario.two_hosts)
       ++ Scenario.four_slots.
Proof.
  intros s'.
  assert (H1 : _start_worker_processes Scenario.four_slots Scenario.two_hosts
               = (Ok (), s')) by (vm_compute; reflexivity).
  destruct (start_worker_processes_queues_every_thread _ _ _ H1)
    as (Hcalls & Hqueue & _).
  exact (conj H1 (conj Hcalls Hqueue)).
Defined.

Lemma activate_hosts_failure_starts_nothing_witness :
  let s0 :=
    logging INFO ("wait for available hosts: " +:+ pretty 2)
            Scenario.all_replaced in
  let current_hosts := discovery.current_hosts (_host_manager s0) in
  wait_for_available_hosts 2 5 [] s0 = (Ok current_hosts, s0)
  /\ get_host_assignments (host_list_of current_hosts)
       (_min_np s0) (_max_np s0) = Ok Scenario.h3_slots
  /\ odict.keys (_host_assignments s0) = ["h1"%string; "h2"%string]
  /\ _activate_hosts 2 5 [] Scenario.all_replaced
     = (Raise state_broadcast_lost, s0).
Proof.
  intros s0 current_hosts.
  assert (H1 : wait_for_available_hosts 2 5 [] s0 = (Ok current_hosts, s0))
    by (vm_compute; reflexivity).
  assert (H2 : get_host_assignments (host_list_of current_hosts)
                 (_min_np s0) (_max_np s0) = Ok Scenario.h3_slots)
    by (vm_compute; reflexivity).
  assert (H3 : odict.len (_host_assignments s0) > 0)
    by (vm_compute; reflexivity).
  assert (H4 : Forall (fun slot_info =>
                         hostname slot_info
                         ∉ odict.keys (_host_assignments s0))
                      Scenario.h3_slots)
    by (apply (bool_decide_unpack _); vm_compute; exact I).
  split; [exact H1 |]. split; [exact H2 |].
  split; [vm_compute; reflexivity |].
  refine (proj1 (activate_hosts_failure_starts_nothing
                   2 5 [] state_broadcast_lost Scenario.all_replaced s0 _)).
  right. exists current_hosts. split; [exact H1 |].
  right. exists Scenario.h3_slots.
  exact (conj H2 (conj H3 (conj H4 eq_refl))).
Defined.

Lemma notify_reaches_latest_registered_client_witness :
  let coordinator := mk_SlotInfo "h1" 0 0 0 4 2 2 in
  let registered :=
    (register_worker_server "h1" 0 "10.0.0.1:4242" "secret"
       Scenario.started).2 in
  get_host_assignments (host_list_of Scenario.only_h3)
    (_min_np Scenario.started) (_max_np Scenario.started)
  = Ok Scenario.h3_slots
  /\ odict.eqb (group_by_host Scenario.h3_slots)
               (_host_assignments Scenario.started) = false
  /\ _rank_assignments Scenario.started !! 0 = Some coordinator
  /\ calls (_notify_workers_host_changes Scenario.only_h3 7 registered).2
     = calls Scenario.started
       ++ [Call_notify_hosts_updated
             (mk_client "10.0.0.1:4242"%string "secret"%string
                        (_verbose Scenario.started)) 7].
Proof.
  cbv zeta.
  assert (H1 : get_host_assignments (host_list_of Scenario.only_h3)
                 (_min_np Scenario.started) (_max_np Scenario.started)
               = Ok Scenario.h3_slots) by (vm_compute; reflexivity).
  assert (H2 : odict.eqb (group_by_host Scenario.h3_slots)
                 (_host_assignments Scenario.started) = false)
    by (vm_compute; reflexivity).
  assert (H3 : _rank_assignments Scenario.started !! 0
               = Some (mk_SlotInfo "h1" 0 0 0 4 2 2))
    by (vm_compute; reflexivity).
  split; [exact H1 |]. split; [exact H2 |]. split; [exact H3 |].
  exact (proj1 (proj1 (notify_reaches_latest_registered_client
                         Scenario.only_h3 7 _ _ "h1" 0
                         "10.0.0.1:4242"%string "secret"%string
                         Scenario.started H1 H2 H3) eq_refl)).
Defined.

Lemma discovery_thread_leaves_the_assignment_alone_witness :
  let untouched (s0 : Scenario.driver) :=
    (_host_assignments s0, _rank_assignments s0, _world_size s0,
     _worker_clients s0, _worker_registry s0, _results s0,
     _create_worker_fn s0, _shutdown s0,
     (_min_np s0, _max_np s0, _verbose s0, _start_timeout s0)) in
  Forall (fun tk : tick Z () string string =>
            forall s0, untouched (tick_others tk s0) = untouched s0)
         [Scenario.first_tick]
  /\ untouched (discover_loop true [Scenario.first_tick] Scenario.fresh).2
     = untouched Scenario.fresh.
Proof.
  intros untouched.
  assert (H1 : Forall (fun tk : tick Z () string string =>
                         forall s0,
                           untouched (tick_others tk s0) = untouched s0)
                      [Scenario.first_tick])
    by (apply Forall_cons_2; [intros s0; reflexivity | apply Forall_nil_2]).
  exact (conj H1
    (proj1 (discovery_thread_leaves_the_assignment_alone
              true [Scenario.first_tick] Scenario.fresh H1))).
Defined.

Lemma discover_once_assigner_error_skips_notify_all_witness :
  let tk := Scenario.one_slot_tick in
  let s1 := (host_manager_update (found tk) Scenario.fresh).2 in
  let e := mk_exn ValueError
             "Requested more processes than there are available slots" in
  host_manager_update (found tk) Scenario.fresh = (Ok true, s1)
  /\ get_host_assignments
       (host_list_of (discovery.current_hosts (_host_manager s1)))
       (_min_np s1) (_max_np s1) = Raise e
  /\ discover_once tk Scenario.fresh = (Raise e, s1)
  /\ calls s1 = calls Scenario.fresh.
Proof.
  intros tk s1 e.
  assert (H1 : host_manager_update (found tk) Scenario.fresh = (Ok true, s1))
    by (vm_compute; reflexivity).
  assert (H2 : get_host_assignments
                 (host_list_of (discovery.current_hosts (_host_manager s1)))
                 (_min_np s1) (_max_np s1) = Raise e)
    by (vm_compute; reflexivity).
  destruct (discover_once_assigner_error_skips_notify_all
              tk e Scenario.fresh s1 H1 H2) as (Honce & Hcalls & _).
  exact (conj H1 (conj H2 (conj Honce Hcalls))).
Defined.

Lemma wait_for_available_hosts_returns_once_slots_suffice_witness :
  let wakeups : list (wakeup Z () string string) :=
    [mk_wakeup (fun _ => Scenario.two_hosts) 1] in
  4 <= available_slots (apply_wakeups (take 1 wakeups) Scenario.fresh)
  /\ available_slots Scenario.fresh < 4
  /\ wait_for_available_hosts 4 0 wakeups Scenario.fresh
     = (Ok (discovery.current_hosts (_host_manager Scenario.two_hosts)),
        Scenario.two_hosts).
Proof.
  cbv zeta.
  assert (H1 : 4 <= available_slots
                      (apply_wakeups
                         (take 1 [mk_wakeup (fun _ => Scenario.two_hosts) 1])
                         Scenario.fresh))
    by (apply Z.leb_le; vm_compute; reflexivity).
  assert (H2 : available_slots Scenario.fresh < 4)
    by (apply Z.ltb_lt; vm_compute; reflexivity).
  split; [exact H1 |]. split; [exact H2 |].
  refine (wait_for_available_hosts_returns_once_slots_suffice
            4 0 [mk_wakeup (fun _ => Scenario.two_hosts) 1] 1
            Scenario.fresh _ H1 _ _).
  - simpl. lia.
  - intros [| j] Hj; [exact H2 | lia].
  - intros [| j] w Hj Hw; [| lia]. injection Hw as <-.
    apply Z.leb_le. vm_compute. reflexivity.
Defined.

Lemma handle_worker_exit_keeps_published_results_witness :
  let slot := mk_SlotInfo "h1" 0 0 0 4 2 2 in
  let once := (_handle_worker_exit slot 0 100 (stop None Scenario.started).2).2 in
  Results._results (_results once) !! "h1[0]"%string = Some (0, 100)
  /\ Results._results
       (_results (_handle_worker_exit slot 1 200 once).2) !! "h1[0]"%string
     = Some (0, 100).
Proof.
  cbv zeta.
  assert (H1 : forall host slot,
             keeps _results
                   (registry_record_success
                      (Collaborators := Scenario.collaborators) host slot)
             /\ keeps _results
                      (registry_record_failure
                         (Collaborators := Scenario.collaborators) host slot))
    by (intros host slot; split; intros s; reflexivity).
  assert (H2 : Results._results
                 (_results (_handle_worker_exit (mk_SlotInfo "h1" 0 0 0 4 2 2)
                              0 100 (stop None Scenario.started).2).2)
               !! "h1[0]"%string = Some (0, 100))
    by (vm_compute; reflexivity).
  split; [exact H2 |].
  exact (proj1 (handle_worker_exit_keeps_published_results
                  (mk_SlotInfo "h1" 0 0 0 4 2 2) 1 200 _ H1) _ _ H2).
Defined.

Lemma local_size_query_defeats_state_broadcast_check_witness :
  get_host_assignments (host_list_of Scenario.only_h3)
    (_min_np Scenario.started) (_max_np Scenario.started)
  = Ok Scenario.h3_slots
  /\ (_update_host_assignments Scenario.only_h3 Scenario.started).1
     = Raise state_broadcast_lost
  /\ exists s1 pending s2,
       local_size "h3" Scenario.started = (Ok 0, s1)
       /\ odict.get "h3" (_host_assignments s1) = Some []
       /\ _update_host_assignments Scenario.only_h3 s1 = (Ok pending, s2)
       /\ _host_assignments s2 = group_by_host Scenario.h3_slots
       /\ _world_size s2 = Z.of_nat (length Scenario.h3_slots).
Proof.
  assert (H1 : get_host_assignments (host_list_of Scenario.only_h3)
                 (_min_np Scenario.started) (_max_np Scenario.started)
               = Ok Scenario.h3_slots) by (vm_compute; reflexivity).
  assert (H2 : odict.default_factory (_host_assignments Scenario.started)
               = Some []) by (vm_compute; reflexivity).
  assert (H3 : odict.len (_host_assignments Scenario.started) > 0)
    by (vm_compute; reflexivity).
  assert (H4 : Forall (fun slot_info =>
                         hostname slot_info
                         ∉ odict.keys (_host_assignments Scenario.started))
                      Scenario.h3_slots)
    by (apply (bool_decide_unpack _); vm_compute; exact I).
  assert (H5 : "h3"%string ∈ hostname <$> Scenario.h3_slots)
    by (apply (bool_decide_unpack _); vm_compute; exact I).
  exact (conj H1
    (local_size_query_defeats_state_broadcast_check
       Scenario.only_h3 Scenario.h3_slots "h3" Scenario.started
       H1 H2 H3 H4 H5)).
Defined.

Lemma notification_skipped_right_after_update_witness :
  let current_hosts := discovery.current_hosts (_host_manager Scenario.two_hosts) in
  let s' := installed Scenario.four_slots Scenario.two_hosts in
  _update_host_assignments current_hosts Scenario.two_hosts
  = (Ok Scenario.four_slots, s')
  /\ _notify_workers_host_changes current_hosts 7 s'
     = (Ok (), logging DEBUG "no host changes, skipping notifications" s').
Proof.
  cbv zeta.
  assert (H1 : _update_host_assignments
                 (discovery.current_hosts (_host_manager Scenario.two_hosts))
                 Scenario.two_hosts
               = (Ok Scenario.four_slots,
                  installed Scenario.four_slots Scenario.two_hosts))
    by (vm_compute; reflexivity).
  exact (conj H1
    (notification_skipped_right_after_update _ 7 _ _ _ H1)).
Defined.

Lemma local_size_query_makes_notification_fire_witness :
  let current_hosts := discovery.current_hosts (_host_manager Scenario.two_hosts) in
  let client := mk_client "10.0.0.1:4242"%string "secret"%string 0 in
  let s :=
    (register_worker_server "h1" 0 "10.0.0.1:4242" "secret"
       Scenario.two_hosts).2 in
  let s' := installed Scenario.four_slots s in
  _update_host_assignments current_hosts s = (Ok Scenario.four_slots, s')
  /\ odict.get "h3" (_host_assignments s') = None
  /\ calls (_notify_workers_host_changes current_hosts 7 s').2 = calls s'
  /\ calls (_notify_workers_host_changes current_hosts 7
              (local_size "h3" s').2).2
     = calls s' ++ [Call_notify_hosts_updated client 7].
Proof.
  cbv zeta.
  assert (H1 : _update_host_assignments
                 (discovery.current_hosts (_host_manager Scenario.two_hosts))
                 (register_worker_server "h1" 0 "10.0.0.1:4242" "secret"
                    Scenario.two_hosts).2
               = (Ok Scenario.four_slots,
                  installed Scenario.four_slots
                    (register_worker_server "h1" 0 "10.0.0.1:4242" "secret"
                       Scenario.two_hosts).2))
    by (vm_compute; reflexivity).
  assert (H2 : odict.get "h3"
                 (_host_assignments
                    (installed Scenario.four_slots
                       (register_worker_server "h1" 0 "10.0.0.1:4242" "secret"
                          Scenario.two_hosts).2)) = None)
    by (vm_compute; reflexivity).
  assert (H3 : _rank_assignments
                 (installed Scenario.four_slots
                    (register_worker_server "h1" 0 "10.0.0.1:4242" "secret"
                       Scenario.two_hosts).2) !! 0
               = Some (mk_SlotInfo "h1" 0 0 0 4 2 2))
    by (vm_compute; reflexivity).
  assert (H4 : _worker_clients
                 (installed Scenario.four_slots
                    (register_worker_server "h1" 0 "10.0.0.1:4242" "secret"
                       Scenario.two_hosts).2)
               !! (hostname (mk_SlotInfo "h1" 0 0 0 4 2 2),
                   local_rank (mk_SlotInfo "h1" 0 0 0 4 2 2))
               = Some (mk_client "10.0.0.1:4242"%string "secret"%string 0))
    by (vm_compute; reflexivity).
  exact (conj H1 (conj H2
    (local_size_query_makes_notification_fire _ 7 _ "h3" _ _ _ _
       H1 H2 H3 H4))).
Defined.

Lemma resume_after_activation_starts_nothing_witness :
  let s1 := (_activate_hosts 4 0 [] Scenario.two_hosts).2 in
  _activate_hosts 4 0 [] Scenario.two_hosts = (Ok (), s1)
  /\ _min_np s1 <= available_slots s1
  /\ exists new_list s2,
       resume 9 [] s1 = (Ok (), s2)
       /\ calls s2
          = calls s1 ++ [Call_httpd_init new_list;
                         Call_registry_reset (Z.of_nat (length new_list))]
       /\ _results s2 = _results s1.
Proof.
  cbv zeta.
  assert (H1 : _activate_hosts 4 0 [] Scenario.two_hosts
               = (Ok (), (_activate_hosts 4 0 [] Scenario.two_hosts).2))
    by (vm_compute; reflexivity).
  assert (H2 : _min_np (_activate_hosts 4 0 [] Scenario.two_hosts).2
               <= available_slots (_activate_hosts 4 0 [] Scenario.two_hosts).2)
    by (apply Z.leb_le; vm_compute; reflexivity).
  split; [exact H1 |]. split; [exact H2 |].
  destruct (resume_after_activation_starts_nothing
              4 0 9 [] [] Scenario.two_hosts _ H1 H2)
    as (new_list & s2 & Hrun & Hcalls & Hres & _).
  exists new_list, s2. exact (conj Hrun (conj Hcalls Hres)).
Defined.

Lemma start_installs_launcher_whatever_the_outcome_witness :
  let wakeups : list (wakeup Z () string string) :=
    [mk_wakeup id 1; mk_wakeup id 6] in
  Forall (fun w : wakeup Z () string string =>
            forall s0, _create_worker_fn (others w s0) = _create_worker_fn s0)
         wakeups
  /\ (start 2 () 0 wakeups Scenario.fresh).1 = Raise (start_timeout_error 2)
  /\ _create_worker_fn (start 2 () 0 wakeups Scenario.fresh).2 = Some ().
Proof.
  intros wakeups.
  assert (H1 : Forall (fun w : wakeup Z () string string =>
                         forall s0,
                           _create_worker_fn (others w s0)
                           = _create_worker_fn s0) wakeups)
    by (repeat apply Forall_cons_2; try apply Forall_nil_2;
        intros s0; reflexivity).
  split; [exact H1 |]. split; [vm_compute; reflexivity |].
  exact (proj1 (start_installs_launcher_whatever_the_outcome
                  2 0 () wakeups Scenario.fresh H1)).
Defined.
